(** * code-react scaffolder: a shallow embedding of [scaffolder.js]

  The development follows the order of the source file:
  - [Base64]: the encoding Node applies for [fs.readFileSync(p, 'base64')];
  - [Classify]: the extension test of [readDirectoryRecursive];
  - [Snapshot]: [readDirectoryRecursive] over a directory tree;
  - [Remover]: [removeFiles];
  - [Manifest]: [updatePackageJson];
  - [Runner]: [runCommand] and [runViteCreate];
  - [Orchestrator]: [scaffold].

  JavaScript objects used as tables are finite maps ([gmap]); the file
  map, which is read and written by property name, is the finite map of
  its own properties together with its prototype; what a run prints and
  does is a trace of structured events; exceptions and rejected promises
  are the [Throw] branch of a result type; stateful code runs in a
  state-and-error monad over the disk and the trace. The definitions
  come first, the properties after them. *)

From Stdlib Require Import ZArith NArith Lia List Ascii String.
From Stdlib.Strings Require Byte.
From stdpp Require Import gmap strings list fin_maps pretty.

(** ** Results of fallible code *)

(** A JavaScript [Error] object: the constructor name and the message.
  [scaffolder.js] attaches nothing else to the errors it creates. *)
Record JsError := mkError { err_name : string; err_message : string }.

Inductive result (A : Type) : Type :=
| Ok (a : A)
| Throw (e : JsError).
Arguments Ok {A} a.
Arguments Throw {A} e.

Definition is_ok {A} (r : result A) : bool :=
  match r with Ok _ => true | Throw _ => false end.

(** ** Base64, as produced by [fs.readFileSync(path, 'base64')] *)

Module Base64.

Definition alphabet : string :=
  "ABCDEFGHIJKLMNOPQRSTUVWXYZabcdefghijklmnopqrstuvwxyz0123456789+/".

Definition pad : ascii := "="%char.

(** The character of a six-bit group. *)
Definition encodeSextet (n : N) : ascii :=
  match String.get (N.to_nat n) alphabet with
  | Some c => c
  | None => pad
  end.

Fixpoint indexOf (c : ascii) (s : string) (i : N) : option N :=
  match s with
  | EmptyString => None
  | String d rest => if Ascii.eqb c d then Some i else indexOf c rest (N.succ i)
  end.

(** The six-bit group of a character, [None] outside the alphabet. *)
Definition decodeSextet (c : ascii) : option N := indexOf c alphabet 0%N.

Definition s0 (a : N) : N := (a / 4)%N.
Definition s1 (a b : N) : N := ((a mod 4) * 16 + b / 16)%N.
Definition s2 (b c : N) : N := ((b mod 16) * 4 + c / 64)%N.
Definition s3 (c : N) : N := (c mod 64)%N.

(** Three bytes become four characters; a tail of one or two bytes is
    padded with [=]. *)
Fixpoint encode (bs : list Byte.byte) : string :=
  match bs with
  | [] => EmptyString
  | [a] =>
      let a := Byte.to_N a in
      String (encodeSextet (s0 a)) (String (encodeSextet (s1 a 0))
        (String pad (String pad EmptyString)))
  | [a; b] =>
      let a := Byte.to_N a in
      let b := Byte.to_N b in
      String (encodeSextet (s0 a)) (String (encodeSextet (s1 a b))
        (String (encodeSextet (s2 b 0)) (String pad EmptyString)))
  | a :: b :: c :: rest =>
      let a := Byte.to_N a in
      let b := Byte.to_N b in
      let c := Byte.to_N c in
      String (encodeSextet (s0 a)) (String (encodeSextet (s1 a b))
        (String (encodeSextet (s2 b c)) (String (encodeSextet (s3 c))
          (encode rest))))
  end.

Definition byte1 (x0 x1 : N) : option Byte.byte :=
  Byte.of_N (x0 * 4 + x1 / 16)%N.
Definition byte2 (x1 x2 : N) : option Byte.byte :=
  Byte.of_N ((x1 mod 16) * 16 + x2 / 4)%N.
Definition byte3 (x2 x3 : N) : option Byte.byte :=
  Byte.of_N ((x2 mod 4) * 64 + x3)%N.

(** The strict decoder: groups of four characters, padding only in the
    last group. *)
Fixpoint decode (s : string) : option (list Byte.byte) :=
  match s with
  | EmptyString => Some []
  | String c0 (String c1 (String c2 (String c3 rest))) =>
      x0 ← decodeSextet c0;
      x1 ← decodeSextet c1;
      a ← byte1 x0 x1;
      if Ascii.eqb c2 pad then
        if Ascii.eqb c3 pad then
          match rest with EmptyString => Some [a] | _ => None end
        else None
      else
        x2 ← decodeSextet c2;
        b ← byte2 x1 x2;
        if Ascii.eqb c3 pad then
          match rest with EmptyString => Some [a; b] | _ => None end
        else
          x3 ← decodeSextet c3;
          c ← byte3 x2 x3;
          tl ← decode rest;
          Some (a :: b :: c :: tl)
  | _ => None
  end.

End Base64.

(** ** The Node runtime pieces the source calls but does not define *)

(** [utf8Decode] is [Buffer#toString('utf8')], what
    [fs.readFileSync(p, 'utf8')] returns for the bytes of [p];
    [utf8Encode] is the encoding [fs.writeFileSync(p, text)] applies;
    [JSON_parse] throws a [SyntaxError] on malformed text; [path_join]
    is [path.join] of two segments, whose separator and normalisation
    are the platform's and are not fixed here. *)
Class NodeRuntime (Json : Type) := {
  utf8Decode : list Byte.byte -> string;
  utf8Encode : string -> list Byte.byte;
  JSON_parse : string -> result Json;
  JSON_stringify : Json -> string;
  path_join : string -> string -> string
}.

(** ** Binary or text: the test [/\.(png|jpg|...|eot)$/i] on a file name *)

Module Classify.

(** The alternatives of the group, in the order of the source. *)
Definition alternatives : list string :=
  ["png"; "jpg"; "jpeg"; "gif"; "ico"; "woff"; "woff2"; "ttf"; "eot"].

Definition isLowerLetter (c : ascii) : bool :=
  let n := nat_of_ascii c in (97 <=? n)%nat && (n <=? 122)%nat.

Definition isUpperLetter (c : ascii) : bool :=
  let n := nat_of_ascii c in (65 <=? n)%nat && (n <=? 90)%nat.

(** Canonicalize of a regular expression with the [i] flag and without
    the [u] flag: a character is compared through its upper-case form,
    and no character outside ASCII is ever folded onto an ASCII one. *)
Definition canonicalize (c : ascii) : ascii :=
  if isLowerLetter c then ascii_of_nat (nat_of_ascii c - 32) else c.

(** Does the whole of [s] match the literal [alt], ignoring case? *)
Fixpoint matchLiteral (s alt : string) : bool :=
  match s, alt with
  | EmptyString, EmptyString => true
  | String a s', String b alt' =>
      Ascii.eqb (canonicalize a) (canonicalize b) && matchLiteral s' alt'
  | _, _ => false
  end.

(** One attempt of the matcher at the start of [s]: a dot, one of the
    alternatives, then the end of the input. *)
Definition matchHere (s : string) : bool :=
  match s with
  | String "." rest => existsb (matchLiteral rest) alternatives
  | _ => false
  end.

(** [RegExp.prototype.test]: the pattern is not anchored on the left, so
    every start position is tried. *)
Fixpoint regexTest (s : string) : bool :=
  matchHere s ||
  match s with
  | EmptyString => false
  | String _ rest => regexTest rest
  end.

Definition isBinary (name : string) : bool := regexTest name.

(** The words of the specification: the extension of a file name is what
    follows its last dot, and the allow-list is the lower-case list. *)
Definition allowList : list string :=
  ["png"; "jpg"; "jpeg"; "gif"; "ico"; "woff"; "woff2"; "ttf"; "eot"].

Fixpoint extension (name : string) : option string :=
  match name with
  | EmptyString => None
  | String c rest =>
      match extension rest with
      | Some e => Some e
      | None => if Ascii.eqb c "." then Some rest else None
      end
  end.

Definition toLowerChar (c : ascii) : ascii :=
  if isUpperLetter c then ascii_of_nat (nat_of_ascii c + 32) else c.

Fixpoint toLowerCase (s : string) : string :=
  match s with
  | EmptyString => EmptyString
  | String c rest => String (toLowerChar c) (toLowerCase rest)
  end.

Fixpoint hasDot (s : string) : bool :=
  match s with
  | EmptyString => false
  | String c rest => Ascii.eqb c "." || hasDot rest
  end.

End Classify.

(** ** The file map and the directory tree *)

(** [type: 'binary' | 'text'] of an entry. *)
Inductive FileType := Binary | Text.

Record FileEntry := mkEntry { type : FileType; content : string }.

(** The file map is a plain JavaScript object: its own properties, one
    per path, and its prototype. The prototype is [Object.prototype]
    ([None]) until an assignment to the name [__proto__] replaces it by
    the entry assigned ([Some entry], an object whose own prototype is
    [Object.prototype]). *)
Record FileMap := mkFileMap {
  own : gmap string FileEntry;
  proto : option FileEntry
}.

(** [{}] *)
Definition emptyObject : FileMap := mkFileMap ∅ None.

(** [files[key] = entry]. An own property is updated; a new name is
    added as an own property, except [__proto__], which reaches the
    setter every object inherits: the prototype is replaced and no
    property is stored. *)
Definition setProperty (files : FileMap) (key : string) (entry : FileEntry) : FileMap :=
  match own files !! key with
  | Some _ => mkFileMap (<[key := entry]> (own files)) (proto files)
  | None =>
      if String.eqb key "__proto__"
      then mkFileMap (own files) (Some entry)
      else mkFileMap (<[key := entry]> (own files)) (proto files)
  end.

(** [Object.assign(target, source)]: every own property of [source] is
    assigned to [target]. *)
Definition assign (target source : FileMap) : FileMap :=
  map_fold (fun key entry acc => setProperty acc key entry) target (own source).

(** The names every object inherits from [Object.prototype]. Each holds
    a function, or for [__proto__] the prototype itself: a truthy
    value. *)
Definition objectPrototypeNames : list string :=
  ["constructor"; "__defineGetter__"; "__defineSetter__"; "hasOwnProperty";
   "__lookupGetter__"; "__lookupSetter__"; "isPrototypeOf";
   "propertyIsEnumerable"; "toString"; "valueOf"; "__proto__"; "toLocaleString"].

(** Is [files[key]] truthy? An own property holds an entry, an object.
    A name that is not an own property is looked up along the prototype
    chain: in the entry that is the prototype, if there is one ([type]
    holds a non-empty string, [content] a string that may be empty),
    then in [Object.prototype]. *)
Definition truthyAt (files : FileMap) (key : string) : bool :=
  match own files !! key with
  | Some _ => true
  | None =>
      match proto files with
      | Some entry =>
          String.eqb key "type"
          || (String.eqb key "content" && negb (String.eqb (content entry) EmptyString))
          || bool_decide (key ∈ objectPrototypeNames)
      | None => bool_decide (key ∈ objectPrototypeNames)
      end
  end.

(** [delete files[key]]: only an own property can be removed. *)
Definition deleteProperty (files : FileMap) (key : string) : FileMap :=
  mkFileMap (delete key (own files)) (proto files).

#[local] Set Warnings "-register-all".

(** What [fs.readdirSync(dir, { withFileTypes: true })] lists. For
    [File], the data is [None] when [fs.readFileSync] throws on it (no
    permission, or not a regular file). [LockedDir] is a directory whose
    listing throws. *)
Inductive Dirent :=
| File (name : string) (data : option (list Byte.byte))
| Dir (name : string) (items : list Dirent)
| LockedDir (name : string).

Definition direntName (d : Dirent) : string :=
  match d with
  | File name _ => name
  | Dir name _ => name
  | LockedDir name => name
  end.

(** ** Console output and other observable actions *)

(** The console lines the properties speak about, one constructor per
    message of the source. Lines that only report progress (the command
    being run, the dots, the file counts) are left out. *)
Inductive notice :=
| RemovingFiles
| RemovedFile (path : string)
| FileNotFoundForRemoval (path : string)
| CouldNotReadFile (path : string)
| PackageJsonNotFound
| PackageJsonUpdated
| CommandCompleted (description : string)
| CommandFailed (description : string) (code : option Z) (stdout stderr : string)
| ShadcnInitFailed (message : string)
| SkippingInstall
| CouldNotCleanUp (dir message : string).

(** What a run does that can be seen from outside, in order: the
    console, the children it spawns and its calls into [fs] that change
    the disk. *)
Inductive event :=
| ConsoleLog (n : notice)
| ConsoleWarn (n : notice)
| ConsoleError (n : notice)
| Spawned (cmd : string) (args : list string) (cwd : string)
| MkdtempCalled (prefix : string)
| WriteFileCalled (path text : string)
| RmCalled (path : string).

(** ** Directory Snapshotter: [readDirectoryRecursive] *)

Module Snapshot.
Section WithRuntime.
Context {Json : Type} {rt : NodeRuntime Json}.

(** [path.join(basePath, name)] *)
Definition join (basePath name : string) : string := path_join basePath name.

(** [basePath ? path.join(basePath, item.name) : item.name] *)
Definition relativePath (basePath name : string) : string :=
  match basePath with
  | EmptyString => name
  | _ => join basePath name
  end.

(** The two branches on [isBinary] for a file that could be read. *)
Definition readEntry (name : string) (bytes : list Byte.byte) : FileEntry :=
  if Classify.isBinary name
  then {| type := Binary; content := Base64.encode bytes |}
  else {| type := Text; content := utf8Decode bytes |}.

Definition eacces (path : string) : JsError :=
  mkError "Error" ("EACCES: permission denied, scandir " +:+ path).

(** One turn of the loop over [items]. [files] is the accumulator and
    [log] the console. A directory is read into a fresh object which
    [Object.assign] then copies over [files]. *)
Fixpoint readItem (basePath : string) (item : Dirent)
    (files : FileMap) (log : list event) : result FileMap * list event :=
  match item with
  | File name data =>
      let rel := relativePath basePath name in
      match data with
      | Some bytes => (Ok (setProperty files rel (readEntry name bytes)), log)
      | None => (Ok files, log ++ [ConsoleWarn (CouldNotReadFile rel)])
      end
  | Dir name items =>
      let rel := relativePath basePath name in
      let fix loop (items : list Dirent) (acc : FileMap) (log : list event) :=
        match items with
        | [] => (Ok acc, log)
        | item :: rest =>
            match readItem rel item acc log with
            | (Ok acc', log') => loop rest acc' log'
            | (Throw e, log') => (Throw e, log')
            end
        end in
      match loop items emptyObject log with
      | (Ok sub, log') => (Ok (assign files sub), log')
      | (Throw e, log') => (Throw e, log')
      end
  | LockedDir name => (Throw (eacces (relativePath basePath name)), log)
  end.

Fixpoint readItems (basePath : string) (items : list Dirent)
    (files : FileMap) (log : list event) : result FileMap * list event :=
  match items with
  | [] => (Ok files, log)
  | item :: rest =>
      match readItem basePath item files log with
      | (Ok files', log') => readItems basePath rest files' log'
      | (Throw e, log') => (Throw e, log')
      end
  end.

(** [dir] is what is on disk at [dirPath]: [None] when
    [fs.existsSync(dirPath)] is false. *)
Definition readDirectoryRecursive (dir : option (list Dirent))
    (basePath : string) : result FileMap * list event :=
  match dir with
  | None => (Ok emptyObject, [])
  | Some items => readItems basePath items emptyObject []
  end.

(** Where the files of a tree are: [FileAt basePath items rel name bytes]
    says that a readable file [name] with content [bytes] sits at the
    relative path [rel] below [items]. *)
Inductive FileAt : string -> list Dirent -> string -> string -> list Byte.byte -> Prop :=
| FileAt_here basePath name bytes items :
    In (File name (Some bytes)) items ->
    FileAt basePath items (relativePath basePath name) name bytes
| FileAt_below basePath dname sub items rel name bytes :
    In (Dir dname sub) items ->
    FileAt (relativePath basePath dname) sub rel name bytes ->
    FileAt basePath items rel name bytes.

End WithRuntime.
End Snapshot.

(** ** File Remover: [removeFiles] *)

Module Remover.

(** One turn of [for (const fileToRemove of filesToRemove)]: the test
    [if (files[fileToRemove])] reads the property through the prototype
    chain and takes its truthiness; [delete] acts on own properties. *)
Definition removeStep (st : FileMap * list event) (fileToRemove : string)
    : FileMap * list event :=
  let '(files, log) := st in
  if truthyAt files fileToRemove
  then (deleteProperty files fileToRemove,
        log ++ [ConsoleLog (RemovedFile fileToRemove)])
  else (files, log ++ [ConsoleWarn (FileNotFoundForRemoval fileToRemove)]).

(** [filesToRemove] is [None] for a falsy argument ([undefined], [null]). *)
Definition removeFiles (files : FileMap) (filesToRemove : option (list string))
    : FileMap * list event :=
  match filesToRemove with
  | None => (files, [])
  | Some [] => (files, [])
  | Some list => foldl removeStep (files, [ConsoleLog RemovingFiles]) list
  end.


End Remover.

(** ** The disk, the trace and the monad of the stateful code *)

(** The part of the disk one run touches: the temporary directory made by
    [fs.mkdtempSync] and, below it, the entries of the generated project
    directory ([None] while [tempDir/project] does not exist). *)
Record Disk := mkDisk {
  tempDirExists : bool;
  projectDir : option (list Dirent)
}.

Record World := mkWorld {
  disk : Disk;
  trace : list event
}.

(** A computation reads and changes the world, and returns or throws.
    An [async] function that rejects is one that throws. *)
Definition M (A : Type) : Type := World -> result A * World.

Definition ret {A} (a : A) : M A := fun w => (Ok a, w).

Definition throw {A} (e : JsError) : M A := fun w => (Throw e, w).

Definition bind {A B} (m : M A) (k : A -> M B) : M B :=
  fun w =>
    match m w with
    | (Ok a, w') => k a w'
    | (Throw e, w') => (Throw e, w')
    end.

#[export] Instance M_ret : MRet M := @ret.
#[export] Instance M_bind : MBind M := fun A B k m => bind m k.

(** [try { m } catch (err) { h err }] *)
Definition tryCatch {A} (m : M A) (h : JsError -> M A) : M A :=
  fun w =>
    match m w with
    | (Ok a, w') => (Ok a, w')
    | (Throw e, w') => h e w'
    end.

(** [try { m } finally { f }]: [f] runs on both exits of [m]; the outcome
    of [m] stands unless [f] itself throws. *)
Definition tryFinally {A} (m : M A) (f : M unit) : M A :=
  fun w =>
    match m w with
    | (r, w') =>
        match f w' with
        | (Ok _, w'') => (r, w'')
        | (Throw e, w'') => (Throw e, w'')
        end
    end.

Definition emit (ev : event) : M unit :=
  fun w => (Ok tt, mkWorld (disk w) (trace w ++ [ev])).

Definition emitAll (evs : list event) : M unit :=
  fun w => (Ok tt, mkWorld (disk w) (trace w ++ evs)).

Definition getDisk : M Disk := fun w => (Ok (disk w), w).

Definition putDisk (d : Disk) : M unit :=
  fun w => (Ok tt, mkWorld d (trace w)).

(** A function that only writes to the console, run inside [M]. *)
Definition liftLog {A} (r : result A * list event) : M A :=
  fun w => (r.1, mkWorld (disk w) (trace w ++ r.2)).

(** ** Manifest Merger: [updatePackageJson] *)

(** A dependency group: package name to version range. *)
Abbreviation depGroup := (gmap string string).

(** The parsed [package.json]: the two groups the code touches ([None]
    when the member is missing) and every other member, kept as is. *)
Record PackageJson := mkPackageJson {
  pkg_dependencies : option depGroup;
  pkg_devDependencies : option depGroup;
  pkg_rest : gmap string string
}.

(** [dependencies.npm] of the module configuration. *)
Record NpmGroups := mkNpmGroups {
  dependencies : option depGroup;
  devDependencies : option depGroup
}.

Record DependencyGroups := mkDependencyGroups { npm : option NpmGroups }.

(** How a call of [fs.writeFileSync(path, text)] ends. The file is
    opened with the flag ['w'], which empties it, and the bytes are
    written after that: a call that fails at the opening leaves the file
    as it was, a call that fails later leaves the bytes written so far
    (none, or the first [written] ones). *)
Inductive WriteFate :=
| WriteCompletes
| OpenFails (e : JsError)
| WriteFails (written : nat) (e : JsError).

Module Manifest.
Section WithRuntime.
Context {rt : NodeRuntime PackageJson}.

(** [{ ...o }] of a group that may be [undefined]. *)
Definition spread (o : option depGroup) : depGroup :=
  match o with
  | Some g => g
  | None => ∅
  end.

(** [{ ...existing, ...incoming }]: the later spread wins. *)
Definition spreadBoth (existing : option depGroup) (incoming : depGroup) : depGroup :=
  incoming ∪ spread existing.

(** [dependencies.npm?.dependencies] *)
Definition npmDependencies (d : DependencyGroups) : option depGroup :=
  match npm d with
  | Some g => dependencies g
  | None => None
  end.

(** [dependencies.npm?.devDependencies] *)
Definition npmDevDependencies (d : DependencyGroups) : option depGroup :=
  match npm d with
  | Some g => devDependencies g
  | None => None
  end.

(** The two [if] blocks between [JSON.parse] and [fs.writeFileSync]. *)
Definition mergeDependencies (packageJson : PackageJson) (d : DependencyGroups)
    : PackageJson :=
  let packageJson1 :=
    match npmDependencies d with
    | Some incoming =>
        mkPackageJson (Some (spreadBoth (pkg_dependencies packageJson) incoming))
                      (pkg_devDependencies packageJson) (pkg_rest packageJson)
    | None => packageJson
    end in
  match npmDevDependencies d with
  | Some incoming =>
      mkPackageJson (pkg_dependencies packageJson1)
                    (Some (spreadBoth (pkg_devDependencies packageJson1) incoming))
                    (pkg_rest packageJson1)
  | None => packageJson1
  end.

Definition manifestName : string := "package.json".

Definition findEntry (name : string) (items : list Dirent) : option Dirent :=
  List.find (fun d => String.eqb (direntName d) name) items.

(** [fs.existsSync(packageJsonPath)] *)
Definition manifestEntry (d : Disk) : option Dirent :=
  match projectDir d with
  | Some items => findEntry manifestName items
  | None => None
  end.

(** [fs.readFileSync(packageJsonPath, 'utf8')] *)
Definition readTextFile (path : string) (entry : Dirent) : M string :=
  match entry with
  | File _ (Some bytes) => ret (utf8Decode bytes)
  | _ => throw (mkError "Error" ("EACCES: permission denied, open " +:+ path))
  end.

Definition replaceEntry (name : string) (bytes : list Byte.byte)
    (items : list Dirent) : list Dirent :=
  List.map (fun d => if String.eqb (direntName d) name
                     then File name (Some bytes) else d) items.

(** The manifest holds [bytes] from now on. *)
Definition storeManifest (bytes : list Byte.byte) : M unit :=
  d ← getDisk;
  putDisk (mkDisk (tempDirExists d)
                  (option_map (replaceEntry manifestName bytes) (projectDir d))).

(** [fs.writeFileSync(packageJsonPath, text)] *)
Definition writeManifest (fate : WriteFate) (path text : string) : M unit :=
  emit (WriteFileCalled path text);;
  match fate with
  | WriteCompletes => storeManifest (utf8Encode text)
  | OpenFails e => throw e
  | WriteFails written e => storeManifest (take written (utf8Encode text));; throw e
  end.

Definition fromResult {A} (r : result A) : M A :=
  match r with
  | Ok a => ret a
  | Throw e => throw e
  end.

Definition updatePackageJson (writeFate : WriteFate)
    (projectPath : string) (d : DependencyGroups) : M unit :=
  let packageJsonPath := Snapshot.join projectPath manifestName in
  dsk ← getDisk;
  match manifestEntry dsk with
  | None => emit (ConsoleWarn PackageJsonNotFound)
  | Some entry =>
      text ← readTextFile packageJsonPath entry;
      packageJson ← fromResult (JSON_parse text);
      let packageJson' := mergeDependencies packageJson d in
      writeManifest writeFate packageJsonPath (JSON_stringify packageJson');;
      emit (ConsoleLog PackageJsonUpdated)
  end.

End WithRuntime.
End Manifest.

(** ** Command Runner: [runCommand], [runViteCreate] *)

(** A chunk of output of the child, in the order of arrival. *)
Inductive chunk :=
| StdoutData (s : string)
| StderrData (s : string).

(** How a spawned child ends, as the events of its [ChildProcess]: the
    ['close'] event with its exit code ([None] for [null], a child
    killed by a signal) after the output it wrote; or, for a child that
    could not be spawned (and so wrote nothing and left the disk alone),
    the ['error'] event with the message of its error, followed at once
    by ['close'] with the error number as code. A machine that has run
    out of file descriptors, on which Node gives the child no streams to
    listen to, is outside these outcomes. *)
Inductive ChildOutcome :=
| Closed (output : list chunk) (code : option Z)
| SpawnFailed (message : string) (errno : Z).

(** What a run does not decide: the platform, the environment variables,
    the programs it spawns (each may change the disk), and whether the
    calls into [fs] that may throw do. *)
Record Env := mkEnv {
  win32 : bool;
  process_env : gmap string string;
  tmpdir : string;
  mkdtempResult : result string;
  child : string -> list string -> string -> Disk -> ChildOutcome * Disk;
  writeFate : WriteFate;
  rmFailure : option JsError
}.

Module Runner.

Fixpoint stdoutOf (output : list chunk) : string :=
  match output with
  | [] => EmptyString
  | StdoutData s :: rest => s +:+ stdoutOf rest
  | StderrData _ :: rest => stdoutOf rest
  end.

Fixpoint stderrOf (output : list chunk) : string :=
  match output with
  | [] => EmptyString
  | StdoutData _ :: rest => stderrOf rest
  | StderrData s :: rest => s +:+ stderrOf rest
  end.

(** [`${code}`] *)
Definition showCode (code : option Z) : string :=
  match code with
  | Some z => pretty z
  | None => "null"
  end.

Definition exitMessage (description : string) (code : option Z) : string :=
  description +:+ " failed with exit code " +:+ showCode code.

Definition launchMessage (command message : string) : string :=
  "Failed to run " +:+ command +:+ ": " +:+ message.

(** [code === 0], the negation of the test [code !== 0]. *)
Definition isZero (code : option Z) : bool :=
  match code with
  | Some 0%Z => true
  | _ => false
  end.

(** [process.platform === 'win32' ? `${command}.cmd` : command] *)
Definition spawnName (env : Env) (command : string) : string :=
  if win32 env then command +:+ ".cmd" else command.

(** The listener of ['close'], given the output gathered by the two
    listeners of ['data']: what it prints, and how it settles the
    promise. *)
Definition onClose (description : string) (output : list chunk) (code : option Z)
    : M unit :=
  if isZero code then emit (ConsoleLog (CommandCompleted description))
  else
    emit (ConsoleError (CommandFailed description code
                          (stdoutOf output) (stderrOf output)));;
    throw (mkError "Error" (exitMessage description code)).

(** A promise is settled once: [second] runs for what it prints, and
    its own outcome is dropped in favour of [first]. *)
Definition settledBy {A} (first : JsError) (second : M A) : M A :=
  fun w => (Throw first, (second w).2).

(** The promise [runCommand] returns, awaited. When the child cannot be
    spawned the listener of ['error'] rejects the promise first; the
    listener of ['close'] runs after it, with no output gathered. *)
Definition runCommand (env : Env) (command : string) (args : list string)
    (workingDir description : string) : M unit :=
  let cmd := spawnName env command in
  emit (Spawned cmd args workingDir);;
  d ← getDisk;
  match child env cmd args workingDir d with
  | (Closed output code, d') =>
      putDisk d';;
      onClose description output code
  | (SpawnFailed message errno, _) =>
      settledBy (mkError "Error" (launchMessage command message))
                (onClose description [] (Some errno))
  end.

Definition viteArgs (projectName template : string) : list string :=
  ["create"; "vite@latest"; projectName; "--"; "--template"; template].

Definition runViteCreate (env : Env) (workingDir projectName template : string)
    : M unit :=
  runCommand env "npm" (viteArgs projectName template) workingDir
             "Creating Vite project".

End Runner.

(** ** Scaffold Orchestrator: [scaffold] *)

(** The values a field of [fieldValues] can hold. A missing member reads
    as [JsUndefined]. *)
Inductive JsValue :=
| JsUndefined
| JsNull
| JsBool (b : bool)
| JsNumber (z : Z)
| JsString (s : string).

(** [a === b] on these values. *)
Definition strictEquals (a b : JsValue) : bool :=
  match a, b with
  | JsUndefined, JsUndefined => true
  | JsNull, JsNull => true
  | JsBool x, JsBool y => Bool.eqb x y
  | JsNumber x, JsNumber y => Z.eqb x y
  | JsString x, JsString y => String.eqb x y
  | _, _ => false
  end.

Record FieldValues := mkFieldValues { useTypeScript : JsValue }.

(** [context.module]; [fieldValues] is [None] when the member is falsy. *)
Record ModuleInstance := mkModuleInstance { fieldValues : option FieldValues }.

Record Project := mkProject { project_name : string }.

Record ScaffoldContext := mkContext {
  project : Project;
  module : ModuleInstance
}.

(** [moduleConfig]: the members [scaffold] reads, each optional. *)
Record GenerationFiles := mkGenerationFiles { remove : option (list string) }.

Record Generation := mkGeneration { files : option GenerationFiles }.

Record ModuleConfig := mkModuleConfig {
  generation : option Generation;
  config_dependencies : option DependencyGroups
}.

(** The same environment with another fate for [fs.rmSync]. *)
Definition withRmFailure (env : Env) (failure : option JsError) : Env :=
  mkEnv (win32 env) (process_env env) (tmpdir env) (mkdtempResult env)
        (child env) (writeFate env) failure.

Module Orchestrator.
Section WithRuntime.
Context {rt : NodeRuntime PackageJson}.

(** [module.fieldValues || {}] *)
Definition fieldValuesOf (context : ScaffoldContext) : FieldValues :=
  match fieldValues (module context) with
  | Some fv => fv
  | None => mkFieldValues JsUndefined
  end.

(** [const useTypeScript = fieldValues.useTypeScript !== false;
     const template = useTypeScript ? 'react-ts' : 'react';] *)
Definition template (fv : FieldValues) : string :=
  let useTypeScript := negb (strictEquals (useTypeScript fv) (JsBool false)) in
  if useTypeScript then "react-ts" else "react".

Definition projectName : string := "project".

(** [moduleConfig.generation?.files?.remove || []] *)
Definition filesToRemove (moduleConfig : ModuleConfig) : list string :=
  match generation moduleConfig with
  | Some g =>
      match files g with
      | Some f =>
          match remove f with
          | Some list => list
          | None => []
          end
      | None => []
      end
  | None => []
  end.

(** [moduleConfig.dependencies || {}] *)
Definition dependenciesOf (moduleConfig : ModuleConfig) : DependencyGroups :=
  match config_dependencies moduleConfig with
  | Some d => d
  | None => mkDependencyGroups None
  end.

(** [process.env.NODE_ENV === 'test' || process.env.JEST_WORKER_ID !== undefined] *)
Definition isTestMode (env : Env) : bool :=
  match process_env env !! "NODE_ENV" with
  | Some v => String.eqb v "test"
  | None => false
  end
  || match process_env env !! "JEST_WORKER_ID" with
     | Some _ => true
     | None => false
     end.

(** [fs.mkdtempSync(path.join(os.tmpdir(), 'genesis3-vite-'))]: a fresh,
    empty directory, or the error of the call. *)
Definition mkdtempSync (env : Env) : M string :=
  emit (MkdtempCalled (Snapshot.join (tmpdir env) "genesis3-vite-"));;
  match mkdtempResult env with
  | Ok dir => putDisk (mkDisk true None);; ret dir
  | Throw e => throw e
  end.

(** [fs.rmSync(tempDir, { recursive: true, force: true })] *)
Definition rmSync (env : Env) (path : string) : M unit :=
  emit (RmCalled path);;
  match rmFailure env with
  | Some e => throw e
  | None => putDisk (mkDisk false None)
  end.

Definition shadcnArgs : list string := ["shadcn@latest"; "init"; "-d"].

(** The [if (!isTestMode) ... else ...] block. *)
Definition provision (env : Env) (actualProjectPath : string) : M unit :=
  if isTestMode env then emit (ConsoleLog SkippingInstall)
  else
    Runner.runCommand env "npm" ["install"] actualProjectPath
                      "Installing dependencies";;
    tryCatch
      (Runner.runCommand env "npx" shadcnArgs actualProjectPath
                         "Initializing shadcn")
      (fun err => emit (ConsoleWarn (ShadcnInitFailed (err_message err)))).

(** The block guarded by [try]. *)
Definition scaffoldBody (env : Env) (moduleConfig : ModuleConfig)
    (tempDir template : string) : M FileMap :=
  Runner.runViteCreate env tempDir projectName template;;
  let actualProjectPath := Snapshot.join tempDir projectName in
  Manifest.updatePackageJson (writeFate env) actualProjectPath
                             (dependenciesOf moduleConfig);;
  provision env actualProjectPath;;
  d ← getDisk;
  files ← liftLog (Snapshot.readDirectoryRecursive (projectDir d) "");
  let cleaned := Remover.removeFiles files (Some (filesToRemove moduleConfig)) in
  emitAll cleaned.2;;
  ret cleaned.1.

(** The [finally] block. *)
Definition cleanup (env : Env) (tempDir : string) : M unit :=
  tryCatch (rmSync env tempDir)
           (fun err => emit (ConsoleWarn (CouldNotCleanUp tempDir (err_message err)))).

Definition scaffold (env : Env) (moduleConfig : ModuleConfig)
    (context : ScaffoldContext) : M FileMap :=
  let template := template (fieldValuesOf context) in
  tempDir ← mkdtempSync env;
  tryFinally (scaffoldBody env moduleConfig tempDir template)
             (cleanup env tempDir).

End WithRuntime.
End Orchestrator.

(** ** Predicates the proofs are stated with *)

(** What one entry of a snapshot can be: an entry already there, or the
    reading of a file of the tree at that path. *)
Definition itemSound {Json : Type} {rt : NodeRuntime Json} (item : Dirent) : Prop :=
  forall basePath files log files' log',
    Snapshot.readItem basePath item files log = (Ok files', log') ->
    forall k e, own files' !! k = Some e ->
      own files !! k = Some e
      \/ exists name bytes,
           Snapshot.FileAt basePath [item] k name bytes
           /\ e = Snapshot.readEntry name bytes.

(** [m] only adds to the trace, and what it adds satisfies [P]. *)
Definition appends {A} (P : event -> Prop) (m : M A) : Prop :=
  forall w, exists evs, trace (m w).2 = trace w ++ evs /\ Forall P evs.

(** What [scaffold] writes first, and what its [finally] block writes. *)
Definition mkdtempEvent {Json : Type} {rt : NodeRuntime Json} (env : Env) : event :=
  MkdtempCalled (Snapshot.join (tmpdir env) "genesis3-vite-").

Definition cleanupEvents (env : Env) (dir : string) : list event :=
  RmCalled dir ::
  match rmFailure env with
  | Some err => [ConsoleWarn (CouldNotCleanUp dir (err_message err))]
  | None => []
  end.

(** What the listener of ['close'] prints when it runs after the
    listener of ['error']: no output was gathered. *)
Definition closeLineAfterError (description : string) (errno : Z) : event :=
  if Runner.isZero (Some errno) then ConsoleLog (CommandCompleted description)
  else ConsoleError (CommandFailed description (Some errno) EmptyString EmptyString).

(** An event that is not the generator started with a template other
    than [t]. *)
Definition generatorUses (t : string) (ev : event) : Prop :=
  forall cmd projectName t' cwd,
    ev = Spawned cmd (Runner.viteArgs projectName t') cwd -> t' = t.

Definition isConsoleEvent (ev : event) : Prop :=
  exists n, ev = ConsoleLog n \/ ev = ConsoleWarn n.

(** ** A small runtime and a small world, for worked examples *)

Module Examples.

Definition quote : ascii := "034"%char.

Definition quoted (s : string) : string :=
  String quote (s +:+ String quote EmptyString).

Definition renderMember (kv : string * string) : string :=
  quoted kv.1 +:+ ":" +:+ quoted kv.2.

Definition renderGroup (g : depGroup) : string :=
  "{" +:+ String.concat "," (renderMember <$> map_to_list g) +:+ "}".

Definition renderOptional (key : string) (g : option depGroup) : list string :=
  match g with
  | Some g => [quoted key +:+ ":" +:+ renderGroup g]
  | None => []
  end.

Definition render (pkg : PackageJson) : string :=
  "{" +:+ String.concat ","
            (renderOptional "dependencies" (pkg_dependencies pkg)
             ++ renderOptional "devDependencies" (pkg_devDependencies pkg)
             ++ (renderMember <$> map_to_list (pkg_rest pkg)))
      +:+ "}".

Definition emptyPackage : PackageJson := mkPackageJson None None ∅.

(** Text is ASCII; the parser knows the empty object and rejects
    everything else; paths are joined with a slash, as POSIX joins a
    directory and a plain name: all the examples need. *)
Definition exampleRuntime : NodeRuntime PackageJson := {|
  utf8Decode := string_of_list_byte;
  utf8Encode := list_byte_of_string;
  JSON_parse := fun text =>
    if String.eqb text "{}" then Ok emptyPackage
    else Throw (mkError "SyntaxError" "Unexpected token in JSON");
  JSON_stringify := render;
  path_join := fun a b => a +:+ "/" +:+ b
|}.

Definition textFile (name text : string) : Dirent :=
  File name (Some (list_byte_of_string text)).

Definition pngBytes : list Byte.byte :=
  [Byte.x89; Byte.x50; Byte.x4e; Byte.x47; Byte.x0d; Byte.x0a; Byte.x1a; Byte.x0a].

(** What the generator leaves in [tempDir/project]. *)
Definition generated (manifest : string) : list Dirent :=
  [ textFile "package.json" manifest;
    textFile "index.html" "<!doctype html>";
    Dir "public" [File "LOGO.PNG" (Some pngBytes)];
    Dir "src" [textFile "main.tsx" "render()"; File "logo.png" (Some pngBytes)] ].

(** A child that succeeds: the generator writes the project, the other
    programs leave the disk alone. *)
Definition exampleChild (manifest : string) (cmd : string) (args : list string)
    (cwd : string) (d : Disk) : ChildOutcome * Disk :=
  match args with
  | "create" :: _ =>
      (Closed [StdoutData "Scaffolding project"] (Some 0%Z),
       mkDisk (tempDirExists d) (Some (generated manifest)))
  | _ => (Closed [] (Some 0%Z), d)
  end.

Definition exampleDir : string := "/tmp/genesis3-vite-Ab12Cd".

Definition exampleEnv (manifest : string) : Env := {|
  win32 := false;
  process_env := {[ "NODE_ENV" := "test" ]};
  tmpdir := "/tmp";
  mkdtempResult := Ok exampleDir;
  child := exampleChild manifest;
  writeFate := WriteCompletes;
  rmFailure := None
|}.

Definition enospc : JsError := mkError "Error" "ENOSPC: no space left on device, mkdtemp".

(** The same, on a machine where the temporary directory cannot be made. *)
Definition fullDiskEnv : Env := {|
  win32 := false;
  process_env := ∅;
  tmpdir := "/tmp";
  mkdtempResult := Throw enospc;
  child := exampleChild "{}";
  writeFate := WriteCompletes;
  rmFailure := None
|}.

(** A child that exits with [code] after writing [out] and [err]. *)
Definition failingChild (out err : string) (code : Z) (cmd : string)
    (args : list string) (cwd : string) (d : Disk) : ChildOutcome * Disk :=
  (Closed [StdoutData out; StderrData err] (Some code), d).

Definition failingEnv (out err : string) (code : Z) : Env := {|
  win32 := false;
  process_env := ∅;
  tmpdir := "/tmp";
  mkdtempResult := Ok exampleDir;
  child := failingChild out err code;
  writeFate := WriteCompletes;
  rmFailure := None
|}.

(** A tree with a text file and an image, and its snapshot. *)
Definition smallTree : list Dirent :=
  [ textFile "index.html" "<!doctype html>";
    Dir "src" [File "logo.png" (Some pngBytes)] ].

Definition smallSnapshot : FileMap :=
  mkFileMap {[ "index.html" := mkEntry Text "<!doctype html>";
               "src/logo.png" := mkEntry Binary "iVBORw0KGgo=" ]} None.

(** The world right after the generator ran. *)
Definition generatedWorld (manifest : string) : World :=
  mkWorld (mkDisk true (Some (generated manifest))) [].

Definition exampleDependencies : DependencyGroups :=
  mkDependencyGroups (Some (mkNpmGroups (Some {[ "axios" := "^1.6.0" ]}) None)).

Definition emptyWorld : World := mkWorld (mkDisk false None) [].

Definition exampleConfig : ModuleConfig :=
  mkModuleConfig
    (Some (mkGeneration (Some (mkGenerationFiles (Some ["index.html"; "README.md"])))))
    (Some (mkDependencyGroups
             (Some (mkNpmGroups (Some {[ "axios" := "^1.6.0" ]}) None)))).

Definition exampleContext (v : JsValue) : ScaffoldContext :=
  mkContext (mkProject "demo") (mkModuleInstance (Some (mkFieldValues v))).

End Examples.

(** ** What the further properties are stated with *)

(** Can every directory of the tree be listed? *)
Fixpoint listable (item : Dirent) : bool :=
  match item with
  | File _ _ => true
  | Dir _ items => forallb listable items
  | LockedDir _ => false
  end.

(** [UnreadableAt basePath items rel]: a file that cannot be read sits at
    the relative path [rel] below [items]. *)
Inductive UnreadableAt {Json : Type} {rt : NodeRuntime Json}
    : string -> list Dirent -> string -> Prop :=
| UnreadableAt_here basePath name items :
    In (File name None) items ->
    UnreadableAt basePath items (Snapshot.relativePath basePath name)
| UnreadableAt_below basePath dname sub items rel :
    In (Dir dname sub) items ->
    UnreadableAt (Snapshot.relativePath basePath dname) sub rel ->
    UnreadableAt basePath items rel.

(** The calls of [path.join] a snapshot makes: [JoinedAt basePath items
    base name] says that reading [items] at [basePath] joins the name
    [name] to the base path [base], which is not empty. *)
Inductive JoinedAt {Json : Type} {rt : NodeRuntime Json}
    : string -> list Dirent -> string -> string -> Prop :=
| JoinedAt_here basePath item items :
    In item items -> basePath <> EmptyString ->
    JoinedAt basePath items basePath (direntName item)
| JoinedAt_below basePath dname sub items base name :
    In (Dir dname sub) items ->
    JoinedAt (Snapshot.relativePath basePath dname) sub base name ->
    JoinedAt basePath items base name.

(** One item adds keys and drops none; the path of every readable file
    below it becomes a key. *)
Definition itemKeeps {Json : Type} {rt : NodeRuntime Json} (item : Dirent) : Prop :=
  forall basePath files log files' log',
    Snapshot.readItem basePath item files log = (Ok files', log') ->
    (forall k, is_Some (own files !! k) -> is_Some (own files' !! k))
    /\ (forall rel name bytes,
          Snapshot.FileAt basePath [item] rel name bytes ->
          rel <> "__proto__" -> is_Some (own files' !! rel)).

(** A successful reading of one item has warned about every unreadable
    file below it. *)
Definition itemReports {Json : Type} {rt : NodeRuntime Json} (item : Dirent) : Prop :=
  forall basePath files log files' log',
    Snapshot.readItem basePath item files log = (Ok files', log') ->
    forall rel, UnreadableAt basePath [item] rel ->
      ConsoleWarn (CouldNotReadFile rel) ∈ log'.

(** All that the reading of one item prints is warnings about
    unreadable files below it. *)
Definition itemQuiet {Json : Type} {rt : NodeRuntime Json} (item : Dirent) : Prop :=
  forall basePath files log,
    exists evs,
      (Snapshot.readItem basePath item files log).2 = log ++ evs
      /\ forall ev, ev ∈ evs ->
           exists rel, ev = ConsoleWarn (CouldNotReadFile rel)
                       /\ UnreadableAt basePath [item] rel.

(** A name that a file map answers to without holding it as a key: one
    of the names of [Object.prototype], or a member of the entry that
    was made its prototype, when the value found there is truthy. *)
Definition inherits (m : FileMap) (p : string) : Prop :=
  p ∈ objectPrototypeNames
  \/ match proto m with
     | Some e => p = "type" \/ (p = "content" /\ content e <> EmptyString)
     | None => False
     end.

#[export] Instance inherits_dec (m : FileMap) (p : string) : Decision (inherits m p).
Proof. unfold inherits. destruct (proto m); apply _. Defined.

(** The line [removeFiles] prints for one path of the list, given the
    map the loop started from: the removal for a key of the map and for
    a name the map inherits, the warning for any other. *)
Definition removalLine (m : FileMap) (p : string) : event :=
  if decide (is_Some (own m !! p) \/ inherits m p)
  then ConsoleLog (RemovedFile p)
  else ConsoleWarn (FileNotFoundForRemoval p).

(** A dependency group read by key; a group that is missing has no
    key. *)
Definition groupLookup (g : option depGroup) (k : string) : option string :=
  match g with
  | Some g => g !! k
  | None => None
  end.

(** The member [member] of [d.npm], when both are there. *)
Definition incoming (member : NpmGroups -> option depGroup) (d : DependencyGroups)
    : option depGroup :=
  match d with
  | mkDependencyGroups (Some g) => member g
  | mkDependencyGroups None => None
  end.

(** What a run of [scaffold] in the environment [env] may do: print,
    make its temporary directory, start the generator there, start the
    installer and the initializer in the project directory (outside test
    mode only), write the manifest of the project, remove the temporary
    directory. *)
Definition allowedEvent {Json : Type} {rt : NodeRuntime Json}
    (env : Env) (ev : event) : Prop :=
  match ev with
  | ConsoleLog _ | ConsoleWarn _ | ConsoleError _ => True
  | MkdtempCalled prefix => prefix = Snapshot.join (tmpdir env) "genesis3-vite-"
  | Spawned cmd args cwd =>
      exists dir,
        mkdtempResult env = Ok dir
        /\ ((cmd = Runner.spawnName env "npm"
             /\ (exists t, args = Runner.viteArgs Orchestrator.projectName t)
             /\ cwd = dir)
            \/ (Orchestrator.isTestMode env = false
                /\ cwd = Snapshot.join dir Orchestrator.projectName
                /\ ((cmd = Runner.spawnName env "npm" /\ args = ["install"])
                    \/ (cmd = Runner.spawnName env "npx"
                        /\ args = Orchestrator.shadcnArgs))))
  | WriteFileCalled path _ =>
      exists dir,
        mkdtempResult env = Ok dir
        /\ path = Snapshot.join (Snapshot.join dir Orchestrator.projectName)
                                Manifest.manifestName
  | RmCalled path => mkdtempResult env = Ok path
  end.


Module Scenarios.

(** A tree with a file that cannot be read and an empty directory. *)
Definition guardedTree : list Dirent :=
  [ Examples.textFile "index.html" "<!doctype html>";
    File "secret.key" None;
    Dir "empty" [];
    Dir "src" [File "logo.png" (Some Examples.pngBytes); File "socket" None] ].

Definition guardedSnapshot : FileMap :=
  mkFileMap {[ "index.html" := mkEntry Text "<!doctype html>";
               "src/logo.png" := mkEntry Binary "iVBORw0KGgo=" ]} None.

Definition guardedLog : list event :=
  [ConsoleWarn (CouldNotReadFile "secret.key");
   ConsoleWarn (CouldNotReadFile "src/socket")].

(** An environment outside test mode in which each program ends as the
    table says: the generator writes the project, the others leave the
    disk alone. *)
Definition scriptedChild (manifest : string) (install shadcn : ChildOutcome)
    (cmd : string) (args : list string) (cwd : string) (d : Disk)
    : ChildOutcome * Disk :=
  match args with
  | "create" :: _ =>
      (Closed [StdoutData "Scaffolding project"] (Some 0%Z),
       mkDisk (tempDirExists d) (Some (Examples.generated manifest)))
  | "install" :: _ => (install, d)
  | _ => (shadcn, d)
  end.

Definition scriptedEnv (manifest : string) (install shadcn : ChildOutcome) : Env := {|
  win32 := false;
  process_env := ∅;
  tmpdir := "/tmp";
  mkdtempResult := Ok Examples.exampleDir;
  child := scriptedChild manifest install shadcn;
  writeFate := WriteCompletes;
  rmFailure := None
|}.

(** A machine on which no child can be spawned, and one on which the
    shell does not find the program. *)
Definition noShellEnv : Env := {|
  win32 := false;
  process_env := ∅;
  tmpdir := "/tmp";
  mkdtempResult := Ok Examples.exampleDir;
  child := fun _ _ _ d => (SpawnFailed "spawn /bin/sh ENOENT" (-2), d);
  writeFate := WriteCompletes;
  rmFailure := None
|}.

Definition noProgramEnv : Env := {|
  win32 := false;
  process_env := ∅;
  tmpdir := "/tmp";
  mkdtempResult := Ok Examples.exampleDir;
  child := fun _ _ _ d =>
    (Closed [StderrData "/bin/sh: 1: npm: not found"] (Some 127%Z), d);
  writeFate := WriteCompletes;
  rmFailure := None
|}.

Definition enospcWrite : JsError :=
  mkError "Error" "ENOSPC: no space left on device, write".

(** A generator that exits with 0 and creates nothing. *)
Definition idleChild (cmd : string) (args : list string) (cwd : string) (d : Disk)
    : ChildOutcome * Disk :=
  (Closed [] (Some 0%Z), d).

Definition idleEnv : Env := {|
  win32 := false;
  process_env := {[ "JEST_WORKER_ID" := "1" ]};
  tmpdir := "/tmp";
  mkdtempResult := Ok Examples.exampleDir;
  child := idleChild;
  writeFate := WriteCompletes;
  rmFailure := None
|}.



End Scenarios.

(** * Properties *)

(** ** Base64 *)

Lemma Base64_sextet_cases (P : N -> Prop) :
  (forall k : nat, (k < 64)%nat -> P (N.of_nat k)) ->
  forall n : N, (n < 64)%N -> P n.
Proof.
  intros H n Hn. rewrite <- (N2Nat.id n). apply H. lia.
Qed.

Lemma Base64_decodeSextet_encodeSextet (n : N) :
  (n < 64)%N -> Base64.decodeSextet (Base64.encodeSextet n) = Some n.
Proof.
  revert n. apply Base64_sextet_cases. intros k Hk.
  do 64 (destruct k as [|k]; [reflexivity|]). lia.
Qed.

Lemma Base64_encodeSextet_not_pad (n : N) :
  (n < 64)%N -> Ascii.eqb (Base64.encodeSextet n) Base64.pad = false.
Proof.
  revert n. apply Base64_sextet_cases. intros k Hk.
  do 64 (destruct k as [|k]; [reflexivity|]). lia.
Qed.

Lemma Base64_sextet_bounds (a b c : N) :
  (a <= 255)%N -> (b <= 255)%N -> (c <= 255)%N ->
  (Base64.s0 a < 64 /\ Base64.s1 a b < 64 /\ Base64.s2 b c < 64 /\ Base64.s3 c < 64)%N.
Proof.
  intros Ha Hb Hc. unfold Base64.s0, Base64.s1, Base64.s2, Base64.s3.
  pose proof (N.mod_upper_bound a 4). pose proof (N.mod_upper_bound b 16).
  pose proof (N.mod_upper_bound c 64).
  assert (a / 4 < 64)%N by (apply N.Div0.div_lt_upper_bound; lia).
  assert (b / 16 < 16)%N by (apply N.Div0.div_lt_upper_bound; lia).
  assert (c / 64 < 4)%N by (apply N.Div0.div_lt_upper_bound; lia).
  lia.
Qed.

Lemma Base64_regroup (a b c : N) :
  (a <= 255)%N -> (b <= 255)%N -> (c <= 255)%N ->
  (Base64.s0 a * 4 + Base64.s1 a b / 16 = a
   /\ (Base64.s1 a b mod 16) * 16 + Base64.s2 b c / 4 = b
   /\ (Base64.s2 b c mod 4) * 64 + Base64.s3 c = c)%N.
Proof.
  intros Ha Hb Hc. unfold Base64.s0, Base64.s1, Base64.s2, Base64.s3.
  assert (b / 16 < 16)%N by (apply N.Div0.div_lt_upper_bound; lia).
  assert (c / 64 < 4)%N by (apply N.Div0.div_lt_upper_bound; lia).
  pose proof (N.mod_upper_bound a 4). pose proof (N.mod_upper_bound b 16).
  pose proof (N.mod_upper_bound c 64).
  repeat split.
  - rewrite (N.div_add_l (a mod 4) 16 (b / 16)) by lia.
    rewrite (N.div_small (b / 16) 16) by lia.
    rewrite (N.div_mod a 4) at 3 by lia. lia.
  - rewrite (N.add_comm ((a mod 4) * 16)), N.Div0.mod_add.
    rewrite (N.mod_small (b / 16) 16) by lia.
    rewrite (N.div_add_l (b mod 16) 4 (c / 64)) by lia.
    rewrite (N.div_small (c / 64) 4) by lia.
    rewrite (N.div_mod b 16) at 3 by lia. lia.
  - rewrite (N.add_comm ((b mod 16) * 4)), N.Div0.mod_add.
    rewrite (N.mod_small (c / 64) 4) by lia.
    rewrite (N.div_mod c 64) at 3 by lia. lia.
Qed.

Lemma list_ind3 {A} (P : list A -> Prop) :
  P [] ->
  (forall a, P [a]) ->
  (forall a b, P [a; b]) ->
  (forall a b c rest, P rest -> P (a :: b :: c :: rest)) ->
  forall l, P l.
Proof.
  intros H0 H1 H2 H3.
  assert (Hall : forall l, P l /\ (forall a, P (a :: l)) /\ (forall a b, P (a :: b :: l))).
  { induction l as [|x l (IH0 & IH1 & IH2)]; auto. }
  intros l. apply Hall.
Qed.

(** Decoding what [encode] wrote gives the bytes back. *)
Lemma Base64_decode_encode (bs : list Byte.byte) :
  Base64.decode (Base64.encode bs) = Some bs.
Proof.
  induction bs as [|a|a b|a b c rest IH] using list_ind3.
  - reflexivity.
  - pose proof (Byte.to_N_bounded a) as Ha.
    destruct (Base64_sextet_bounds (Byte.to_N a) 0 0) as (B0 & B1 & _ & _); [lia..|].
    destruct (Base64_regroup (Byte.to_N a) 0 0) as (R0 & _ & _); [lia..|].
    cbn [Base64.encode Base64.decode].
    rewrite !Base64_decodeSextet_encodeSextet by assumption. cbn [mbind option_bind].
    unfold Base64.byte1. rewrite R0, Byte.of_to_N.
    cbn [mbind option_bind]. reflexivity.
  - pose proof (Byte.to_N_bounded a) as Ha. pose proof (Byte.to_N_bounded b) as Hb.
    destruct (Base64_sextet_bounds (Byte.to_N a) (Byte.to_N b) 0) as (B0 & B1 & B2 & _); [lia..|].
    destruct (Base64_regroup (Byte.to_N a) (Byte.to_N b) 0) as (R0 & R1 & _); [lia..|].
    cbn [Base64.encode Base64.decode].
    rewrite !Base64_decodeSextet_encodeSextet by assumption. cbn [mbind option_bind].
    unfold Base64.byte1, Base64.byte2.
    rewrite R0, Byte.of_to_N. cbn [mbind option_bind].
    rewrite (Base64_encodeSextet_not_pad _ B2).
    rewrite R1, Byte.of_to_N. cbn [mbind option_bind].
    reflexivity.
  - pose proof (Byte.to_N_bounded a) as Ha. pose proof (Byte.to_N_bounded b) as Hb.
    pose proof (Byte.to_N_bounded c) as Hc.
    destruct (Base64_sextet_bounds (Byte.to_N a) (Byte.to_N b) (Byte.to_N c))
      as (B0 & B1 & B2 & B3); [lia..|].
    destruct (Base64_regroup (Byte.to_N a) (Byte.to_N b) (Byte.to_N c))
      as (R0 & R1 & R2); [lia..|].
    cbn [Base64.encode Base64.decode].
    rewrite !Base64_decodeSextet_encodeSextet by assumption. cbn [mbind option_bind].
    unfold Base64.byte1, Base64.byte2, Base64.byte3.
    rewrite R0, Byte.of_to_N. cbn [mbind option_bind].
    rewrite (Base64_encodeSextet_not_pad _ B2).
    rewrite R1, Byte.of_to_N. cbn [mbind option_bind].
    rewrite (Base64_encodeSextet_not_pad _ B3).
    rewrite R2, Byte.of_to_N. cbn [mbind option_bind].
    rewrite IH. reflexivity.
Qed.

(** ** Classification by file name *)

Lemma Classify_lower_canonicalize (c : ascii) :
  Classify.toLowerChar (Classify.canonicalize c) = Classify.toLowerChar c.
Proof. destruct c as [[] [] [] [] [] [] [] []]; reflexivity. Qed.

Lemma Classify_canonicalize_lower (c : ascii) :
  Classify.canonicalize (Classify.toLowerChar c) = Classify.canonicalize c.
Proof. destruct c as [[] [] [] [] [] [] [] []]; reflexivity. Qed.

Lemma Classify_lower_dot (c : ascii) :
  Ascii.eqb (Classify.toLowerChar c) "." = Ascii.eqb c ".".
Proof. destruct c as [[] [] [] [] [] [] [] []]; reflexivity. Qed.

Lemma Classify_char_fold (a b : ascii) :
  Ascii.eqb (Classify.canonicalize a) (Classify.canonicalize b) = true
  <-> Classify.toLowerChar a = Classify.toLowerChar b.
Proof.
  rewrite Ascii.eqb_eq. split; intros H.
  - rewrite <- (Classify_lower_canonicalize a), H. apply Classify_lower_canonicalize.
  - rewrite <- (Classify_canonicalize_lower a), H. apply Classify_canonicalize_lower.
Qed.

(** The literal match of the regular expression is equality up to the
    case of ASCII letters. *)
Lemma Classify_matchLiteral_spec (s alt : string) :
  Classify.matchLiteral s alt = true
  <-> Classify.toLowerCase s = Classify.toLowerCase alt.
Proof.
  revert alt. induction s as [|a s IH]; intros [|b alt]; cbn; try (split; congruence).
  rewrite andb_true_iff, Classify_char_fold, IH. split.
  - intros [-> ->]. reflexivity.
  - intros H. injection H as H1 H2. auto.
Qed.

Lemma Classify_alternatives_lower (alt : string) :
  In alt Classify.alternatives ->
  Classify.toLowerCase alt = alt /\ Classify.hasDot alt = false.
Proof.
  cbn. intros H.
  repeat (destruct H as [<- | H]; [split; reflexivity|]). destruct H.
Qed.

Lemma Classify_hasDot_lower (s : string) :
  Classify.hasDot (Classify.toLowerCase s) = Classify.hasDot s.
Proof.
  induction s as [|c s IH]; cbn; [reflexivity|].
  rewrite Classify_lower_dot, IH. reflexivity.
Qed.

Lemma Classify_extension_None (s : string) :
  Classify.extension s = None <-> Classify.hasDot s = false.
Proof.
  induction s as [|c s IH]; cbn; [tauto|].
  destruct (Classify.extension s) as [e|].
  - split; [discriminate|]. intros H. apply orb_false_iff in H as [_ H].
    apply IH in H. discriminate.
  - assert (Hd : Classify.hasDot s = false) by (apply IH; reflexivity).
    rewrite Hd, orb_false_r. destruct (Ascii.eqb c "."); split; congruence.
Qed.

Lemma Classify_matchHere_spec (s : string) :
  Classify.matchHere s = true
  <-> exists rest, s = String "." rest
        /\ In (Classify.toLowerCase rest) Classify.alternatives.
Proof.
  unfold Classify.matchHere. split.
  - destruct s as [|c rest]; [discriminate|].
    destruct (Ascii.eqb_spec c ".") as [->|Hne].
    + intros H. apply existsb_exists in H as (alt & Hin & Hm).
      apply Classify_matchLiteral_spec in Hm.
      destruct (Classify_alternatives_lower alt Hin) as [Hl _].
      exists rest. split; [reflexivity|]. rewrite Hm, Hl. exact Hin.
    + intros H. exfalso.
      destruct c as [[] [] [] [] [] [] [] []]; try discriminate H.
      apply Hne. reflexivity.
  - intros (rest & -> & Hin). apply existsb_exists.
    exists (Classify.toLowerCase rest). split; [exact Hin|].
    apply Classify_matchLiteral_spec.
    destruct (Classify_alternatives_lower _ Hin) as [Hl _]. symmetry. exact Hl.
Qed.

(** The regular expression and the wording "the extension, whatever its
    letter case, is on the list" say the same. *)
Lemma Classify_isBinary_spec (name : string) :
  Classify.isBinary name = true
  <-> exists e, Classify.extension name = Some e
        /\ In (Classify.toLowerCase e) Classify.allowList.
Proof.
  unfold Classify.isBinary. change Classify.allowList with Classify.alternatives.
  induction name as [|c rest IH].
  - cbn. split; [discriminate|]. intros (e & H & _). discriminate.
  - change (Classify.regexTest (String c rest))
      with (Classify.matchHere (String c rest) || Classify.regexTest rest).
    rewrite orb_true_iff, Classify_matchHere_spec, IH. cbn [Classify.extension]. split.
    + intros [(r & Heq & Hin) | (e & He & Hin)].
      * injection Heq as -> <-. exists rest.
        destruct (Classify_alternatives_lower _ Hin) as [_ Hd].
        rewrite Classify_hasDot_lower in Hd.
        apply Classify_extension_None in Hd. rewrite Hd. cbn. auto.
      * exists e. rewrite He. auto.
    + intros (e & He & Hin). destruct (Classify.extension rest) as [e'|] eqn:Hext.
      * right. exists e'. injection He as <-. auto.
      * left. destruct (Ascii.eqb_spec c ".") as [->|]; [|discriminate].
        injection He as <-. exists rest. auto.
Qed.

(** ** The file map as an object *)

Lemma FileMap_eq (a b : FileMap) : own a = own b -> proto a = proto b -> a = b.
Proof. destruct a, b; cbn; intros -> ->; reflexivity. Qed.

(** An assignment stores the entry under the key, unless the key is
    [__proto__] and no own property has that name. *)
Lemma setProperty_own (files : FileMap) (key : string) (entry : FileEntry) :
  own (setProperty files key entry) =
  if decide (key = "__proto__" /\ own files !! key = None) then own files
  else <[key := entry]> (own files).
Proof.
  unfold setProperty. destruct (own files !! key) eqn:Hk.
  - rewrite decide_False by (intros [_ H]; discriminate). reflexivity.
  - destruct (String.eqb_spec key "__proto__") as [->|Hne].
    + rewrite decide_True by auto. reflexivity.
    + rewrite decide_False by tauto. reflexivity.
Qed.

Lemma setProperty_lookup (files : FileMap) (key : string) (entry : FileEntry)
    (k : string) (e : FileEntry) :
  own (setProperty files key entry) !! k = Some e ->
  (k = key /\ e = entry) \/ own files !! k = Some e.
Proof.
  rewrite setProperty_own. destruct (decide _) as [_|_]; [auto|].
  destruct (decide (key = k)) as [<-|Hne].
  - rewrite lookup_insert_eq. intros H. injection H as <-. auto.
  - rewrite lookup_insert_ne by exact Hne. auto.
Qed.

Lemma setProperty_keeps_keys (files : FileMap) (key : string) (entry : FileEntry)
    (k : string) :
  is_Some (own files !! k) -> is_Some (own (setProperty files key entry) !! k).
Proof.
  intros Hk. rewrite setProperty_own. destruct (decide _) as [_|_]; [exact Hk|].
  rewrite lookup_insert. destruct (decide (key = k)); [eexists; reflexivity | exact Hk].
Qed.

Lemma setProperty_stores (files : FileMap) (key : string) (entry : FileEntry) :
  key <> "__proto__" -> own (setProperty files key entry) !! key = Some entry.
Proof.
  intros Hne. rewrite setProperty_own, decide_False by tauto.
  apply lookup_insert_eq.
Qed.

Lemma setProperty_no_proto_key (files : FileMap) (key : string) (entry : FileEntry) :
  own files !! "__proto__" = None ->
  own (setProperty files key entry) !! "__proto__" = None.
Proof.
  intros Hnone. rewrite setProperty_own.
  destruct (decide (key = "__proto__")) as [->|Hne].
  - rewrite decide_True by auto. exact Hnone.
  - rewrite decide_False by tauto. rewrite lookup_insert_ne by exact Hne. exact Hnone.
Qed.

Lemma setProperty_proto (files : FileMap) (key : string) (entry : FileEntry) :
  key <> "__proto__" -> proto (setProperty files key entry) = proto files.
Proof.
  intros Hne. unfold setProperty. destruct (own files !! key); [reflexivity|].
  destruct (String.eqb_spec key "__proto__"); [contradiction | reflexivity].
Qed.

(** What [Object.assign] leaves in the target comes from the source or
    was there. *)
Lemma assign_lookup (target source : FileMap) (k : string) (e : FileEntry) :
  own (assign target source) !! k = Some e ->
  own source !! k = Some e \/ own target !! k = Some e.
Proof.
  unfold assign. revert k e.
  apply (map_fold_weak_ind
           (fun r m => forall k e, own r !! k = Some e ->
                         m !! k = Some e \/ own target !! k = Some e)).
  - auto.
  - intros i x m r Hi IH k e Hk.
    apply setProperty_lookup in Hk as [[-> ->] | Hk].
    + left. apply lookup_insert_eq.
    + destruct (IH k e Hk) as [Hm|Ht]; [|auto].
      left. rewrite lookup_insert_ne; [exact Hm|]. intros ->. congruence.
Qed.

Lemma assign_keeps_keys (target source : FileMap) (k : string) :
  is_Some (own target !! k) -> is_Some (own (assign target source) !! k).
Proof.
  intros Hk. unfold assign.
  apply (map_fold_weak_ind (fun r m => is_Some (own r !! k))).
  - exact Hk.
  - intros i x m r _ IH. apply setProperty_keeps_keys. exact IH.
Qed.

Lemma assign_stores (target source : FileMap) (k : string) :
  k <> "__proto__" -> is_Some (own source !! k) ->
  is_Some (own (assign target source) !! k).
Proof.
  intros Hne. unfold assign.
  apply (map_fold_weak_ind
           (fun r m => is_Some (m !! k) -> is_Some (own r !! k))).
  - intros [e He]. rewrite lookup_empty in He. discriminate.
  - intros i x m r _ IH Hk. destruct (decide (i = k)) as [->|Hik].
    + rewrite setProperty_stores by exact Hne. eexists; reflexivity.
    + rewrite lookup_insert_ne in Hk by exact Hik.
      apply setProperty_keeps_keys. auto.
Qed.

Lemma assign_no_proto_key (target source : FileMap) :
  own target !! "__proto__" = None ->
  own (assign target source) !! "__proto__" = None.
Proof.
  intros Hnone. unfold assign.
  apply (map_fold_weak_ind (fun r m => own r !! "__proto__" = None)).
  - exact Hnone.
  - intros i x m r _ IH. apply setProperty_no_proto_key. exact IH.
Qed.

(** A source without a property named [__proto__] leaves the prototype
    of the target alone. *)
Lemma assign_proto (target source : FileMap) :
  own source !! "__proto__" = None -> proto (assign target source) = proto target.
Proof.
  unfold assign.
  apply (map_fold_weak_ind
           (fun r m => m !! "__proto__" = None -> proto r = proto target)).
  - reflexivity.
  - intros i x m r _ IH Hnone. destruct (decide (i = "__proto__")) as [->|Hne].
    + rewrite lookup_insert_eq in Hnone. discriminate.
    + rewrite lookup_insert_ne in Hnone by exact Hne.
      rewrite setProperty_proto by exact Hne. auto.
Qed.

(** ** Directory Snapshotter *)

Lemma Dirent_tree_ind (P : Dirent -> Prop) :
  (forall name data, P (File name data)) ->
  (forall name items, Forall P items -> P (Dir name items)) ->
  (forall name, P (LockedDir name)) ->
  forall d, P d.
Proof.
  intros HF HD HL. fix IH 1. intros [name data | name items | name].
  - apply HF.
  - apply HD. induction items as [|d items IHitems]; constructor.
    + apply IH.
    + apply IHitems.
  - apply HL.
Qed.

Section SnapshotFacts.
Context {Json : Type} {rt : NodeRuntime Json}.

(** The loop inside the directory case is [readItems]. *)
Lemma readItem_Dir (basePath name : string) (items : list Dirent)
    (files : FileMap) (log : list event) :
  Snapshot.readItem basePath (Dir name items) files log =
  match Snapshot.readItems (Snapshot.relativePath basePath name) items emptyObject log with
  | (Ok sub, log') => (Ok (assign files sub), log')
  | (Throw e, log') => (Throw e, log')
  end.
Proof.
  cbn [Snapshot.readItem]. generalize emptyObject as acc.
  intros acc.
  match goal with
  | |- match ?L with _ => _ end = match ?R with _ => _ end =>
      assert (Heq : L = R); [|rewrite Heq; reflexivity]
  end.
  revert acc log. induction items as [|d items IH]; intros acc log; [reflexivity|].
  cbn [Snapshot.readItems].
  destruct (Snapshot.readItem (Snapshot.relativePath basePath name) d acc log)
    as [[acc'|e] log']; [apply IH | reflexivity].
Qed.

Lemma FileAt_incl (basePath rel name : string) (bytes : list Byte.byte)
    (items items' : list Dirent) :
  (forall d, In d items -> In d items') ->
  Snapshot.FileAt basePath items rel name bytes ->
  Snapshot.FileAt basePath items' rel name bytes.
Proof.
  intros Hincl H. destruct H as [b n bs its Hin | b dn sub its r n bs Hin Hsub].
  - apply Snapshot.FileAt_here. auto.
  - eapply Snapshot.FileAt_below; eauto.
Qed.

Lemma readItems_sound (items : list Dirent) :
  Forall itemSound items ->
  forall basePath files log files' log',
    Snapshot.readItems basePath items files log = (Ok files', log') ->
    forall k e, own files' !! k = Some e ->
      own files !! k = Some e
      \/ exists name bytes,
           Snapshot.FileAt basePath items k name bytes
           /\ e = Snapshot.readEntry name bytes.
Proof.
  induction 1 as [|d items Hd _ IH]; intros basePath files log files' log' Hrun k e Hk.
  - cbn in Hrun. injection Hrun as <- <-. auto.
  - cbn [Snapshot.readItems] in Hrun.
    destruct (Snapshot.readItem basePath d files log) as [[mid|err] logm] eqn:Hone;
      [|discriminate].
    destruct (IH _ _ _ _ _ Hrun k e Hk) as [Hmid | (name & bytes & Hat & He)].
    + destruct (Hd _ _ _ _ _ Hone k e Hmid) as [Hold | (name & bytes & Hat & He)];
        [auto|].
      right. exists name, bytes. split; [|exact He].
      eapply FileAt_incl; [|exact Hat]. intros x [<-|[]]. left. reflexivity.
    + right. exists name, bytes. split; [|exact He].
      eapply FileAt_incl; [|exact Hat]. intros x Hx. right. exact Hx.
Qed.

Lemma readItem_sound (item : Dirent) : itemSound item.
Proof.
  induction item as [name data | name items IH | name] using Dirent_tree_ind;
    intros basePath files log files' log' Hrun k e Hk.
  - cbn in Hrun. destruct data as [bytes|]; injection Hrun as <- <-; [|auto].
    apply setProperty_lookup in Hk as [[-> ->] | Hk]; [|auto].
    right. exists name, bytes. split; [|reflexivity].
    apply Snapshot.FileAt_here. left. reflexivity.
  - rewrite readItem_Dir in Hrun.
    destruct (Snapshot.readItems (Snapshot.relativePath basePath name) items
                emptyObject log)
      as [[sub|err] logs] eqn:Hsub; [|discriminate].
    injection Hrun as <- <-.
    apply assign_lookup in Hk as [Hin | Hold]; [|auto].
    destruct (readItems_sound items IH _ _ _ _ _ Hsub k e Hin)
      as [Hempty | (fname & bytes & Hat & He)].
    + cbn in Hempty. rewrite lookup_empty in Hempty. discriminate.
    + right. exists fname, bytes. split; [|exact He].
      eapply Snapshot.FileAt_below; [|exact Hat]. left. reflexivity.
  - cbn in Hrun. discriminate.
Qed.

(** Every entry of a snapshot is the reading of a file of the tree. *)
Lemma readDirectoryRecursive_sound (dir : option (list Dirent))
    (files : FileMap) (log : list event) :
  Snapshot.readDirectoryRecursive dir EmptyString = (Ok files, log) ->
  forall k e, own files !! k = Some e ->
    exists items name bytes,
      dir = Some items
      /\ Snapshot.FileAt EmptyString items k name bytes
      /\ e = Snapshot.readEntry name bytes.
Proof.
  intros Hrun k e Hk. destruct dir as [items|]; cbn in Hrun.
  - assert (Hall : Forall itemSound items).
    { apply Forall_forall. intros d _. apply readItem_sound. }
    destruct (readItems_sound items Hall _ _ _ _ _ Hrun k e Hk)
      as [Hempty | (name & bytes & Hat & He)].
    + cbn in Hempty. rewrite lookup_empty in Hempty. discriminate.
    + exists items, name, bytes. auto.
  - injection Hrun as <- <-. cbn in Hk. rewrite lookup_empty in Hk. discriminate.
Qed.

(** The entry of one file: binary exactly when the name passes the test;
    a binary entry decodes to the bytes it was read from, a text entry is
    the decoded bytes. *)
Lemma readEntry_spec (name : string) (bytes : list Byte.byte) :
  (type (Snapshot.readEntry name bytes) = Binary
     <-> Classify.isBinary name = true)
  /\ (type (Snapshot.readEntry name bytes) = Binary ->
        content (Snapshot.readEntry name bytes) = Base64.encode bytes
        /\ Base64.decode (content (Snapshot.readEntry name bytes)) = Some bytes)
  /\ (type (Snapshot.readEntry name bytes) <> Binary ->
        Snapshot.readEntry name bytes = mkEntry Text (utf8Decode bytes)).
Proof.
  unfold Snapshot.readEntry. destruct (Classify.isBinary name); cbn.
  - split; [tauto|]. split.
    + intros _. split; [reflexivity | apply Base64_decode_encode].
    + intros H. destruct H. reflexivity.
  - split; [split; discriminate|]. split; [discriminate | reflexivity].
Qed.

End SnapshotFacts.

(** ** File Remover *)

(** The test of the loop, in words: the path is a key of the map, or a
    name the map inherits. *)
Lemma truthyAt_spec (m : FileMap) (p : string) :
  truthyAt m p = true <-> is_Some (own m !! p) \/ inherits m p.
Proof.
  unfold truthyAt, inherits. destruct (own m !! p) as [e|] eqn:Hp.
  - split; [intros _; left; eexists; reflexivity | reflexivity].
  - destruct (proto m) as [e|].
    + rewrite !orb_true_iff, andb_true_iff, negb_true_iff, bool_decide_eq_true,
        !String.eqb_eq, String.eqb_neq.
      split; [tauto|]. intros [[x Hx]|H]; [discriminate Hx | tauto].
    + rewrite bool_decide_eq_true.
      split; [tauto|]. intros [[x Hx]|[H|[]]]; [discriminate Hx | exact H].
Qed.

Lemma truthyAt_own (m : FileMap) (p : string) :
  truthyAt m p = false -> own m !! p = None.
Proof.
  unfold truthyAt. destruct (own m !! p); [discriminate | reflexivity].
Qed.

Lemma truthyAt_delete_ne (m : FileMap) (p q : string) :
  p <> q -> truthyAt (deleteProperty m q) p = truthyAt m p.
Proof.
  intros Hne. unfold truthyAt, deleteProperty. cbn.
  rewrite lookup_delete_ne by congruence. reflexivity.
Qed.


Lemma removeStep_files (files : FileMap) (log : list event) (p : string) :
  (Remover.removeStep (files, log) p).1 = deleteProperty files p.
Proof.
  unfold Remover.removeStep. destruct (truthyAt files p) eqn:Hp; cbn; [reflexivity|].
  apply FileMap_eq; cbn; [|reflexivity].
  symmetry. apply delete_id. apply truthyAt_own. exact Hp.
Qed.

Lemma removeStep_log (files : FileMap) (log : list event) (p : string) :
  (Remover.removeStep (files, log) p).2 =
  log ++ [if truthyAt files p
          then ConsoleLog (RemovedFile p)
          else ConsoleWarn (FileNotFoundForRemoval p)].
Proof. unfold Remover.removeStep. destruct (truthyAt files p); reflexivity. Qed.

(** One turn of the loop, by its two components. *)
Lemma removeLoop_step (q : string) (ps : list string) (files : FileMap)
    (log : list event) :
  foldl Remover.removeStep (files, log) (q :: ps)
  = foldl Remover.removeStep
      (deleteProperty files q,
       log ++ [if truthyAt files q
               then ConsoleLog (RemovedFile q)
               else ConsoleWarn (FileNotFoundForRemoval q)]) ps.
Proof.
  cbn [foldl]. f_equal.
  rewrite (surjective_pairing (Remover.removeStep (files, log) q)).
  rewrite removeStep_files, removeStep_log. reflexivity.
Qed.

Lemma removeLoop_lookup (ps : list string) (files : FileMap)
    (log : list event) (k : string) :
  own (foldl Remover.removeStep (files, log) ps).1 !! k =
  if decide (k ∈ ps) then None else own files !! k.
Proof.
  revert files log. induction ps as [|p ps IH]; intros files log.
  - cbn [foldl]. rewrite decide_False by apply not_elem_of_nil. reflexivity.
  - rewrite removeLoop_step, IH. cbn [deleteProperty own].
    destruct (decide (k = p)) as [->|Hne].
    + rewrite lookup_delete_eq, (decide_True (P := p ∈ p :: ps)) by apply list_elem_of_here.
      destruct (decide (p ∈ ps)); reflexivity.
    + rewrite lookup_delete_ne by congruence.
      destruct (decide (k ∈ ps)) as [Hin|Hnin].
      * rewrite decide_True by (apply list_elem_of_further; exact Hin). reflexivity.
      * rewrite decide_False; [reflexivity|]. rewrite elem_of_cons. tauto.
Qed.

(** The loop never touches the prototype. *)
Lemma removeLoop_proto (ps : list string) (files : FileMap) (log : list event) :
  proto (foldl Remover.removeStep (files, log) ps).1 = proto files.
Proof.
  revert files log. induction ps as [|p ps IH]; intros files log; [reflexivity|].
  rewrite removeLoop_step, IH. reflexivity.
Qed.




Lemma removeLoop_console (ps : list string) (files : FileMap)
    (log : list event) :
  (forall ev, ev ∈ log -> exists n, ev = ConsoleLog n \/ ev = ConsoleWarn n) ->
  forall ev, ev ∈ (foldl Remover.removeStep (files, log) ps).2 ->
    exists n, ev = ConsoleLog n \/ ev = ConsoleWarn n.
Proof.
  revert files log. induction ps as [|q ps IH]; intros files log Hlog; [exact Hlog|].
  rewrite removeLoop_step. apply IH.
  intros ev Hev. apply elem_of_app in Hev as [Hev|Hev]; [auto|].
  apply list_elem_of_singleton in Hev as ->. destruct (truthyAt files q); eauto.
Qed.

Lemma removeFiles_as_loop (files : FileMap) (ps : list string) :
  (Remover.removeFiles files (Some ps)).1 =
  (foldl Remover.removeStep (files, [ConsoleLog RemovingFiles]) ps).1.
Proof. destruct ps; reflexivity. Qed.

(** The loop computes the removal by key. *)
Lemma removeFiles_lookup (files : FileMap) (ps : list string) (k : string) :
  own (Remover.removeFiles files (Some ps)).1 !! k =
  if decide (k ∈ ps) then None else own files !! k.
Proof. rewrite removeFiles_as_loop. apply removeLoop_lookup. Qed.

Lemma removeFiles_proto (files : FileMap) (ps : option (list string)) :
  proto (Remover.removeFiles files ps).1 = proto files.
Proof.
  destruct ps as [ps|]; [|reflexivity].
  rewrite removeFiles_as_loop. apply removeLoop_proto.
Qed.




(** One present and one absent path: the first is removed, the second
    only warned about. *)
Example removeFiles_present_and_absent :
  Remover.removeFiles Examples.smallSnapshot (Some ["index.html"; "README.md"])
  = (mkFileMap {[ "src/logo.png" := mkEntry Binary "iVBORw0KGgo=" ]} None,
     [ConsoleLog RemovingFiles; ConsoleLog (RemovedFile "index.html");
      ConsoleWarn (FileNotFoundForRemoval "README.md")]).
Proof. vm_compute. reflexivity. Qed.

(** A listed name that every object inherits: nothing is removed, and
    the console gets the line of a removal. *)
Example removeFiles_inherited_name :
  Remover.removeFiles Examples.smallSnapshot (Some ["constructor"])
  = (Examples.smallSnapshot,
     [ConsoleLog RemovingFiles; ConsoleLog (RemovedFile "constructor")]).
Proof. vm_compute. reflexivity. Qed.

(** C7: removing the same list a second time changes nothing. *)
Theorem C7_removeFiles_idempotent (m : FileMap)
    (ps : option (list string)) :
  (Remover.removeFiles (Remover.removeFiles m ps).1 ps).1 = (Remover.removeFiles m ps).1.
Proof.
  destruct ps as [ps|]; [|reflexivity].
  apply FileMap_eq; [|rewrite !removeFiles_proto; reflexivity].
  apply map_eq. intros k. rewrite !removeFiles_lookup.
  destruct (decide (k ∈ ps)); reflexivity.
Qed.

(** ** What a snapshot holds *)

(** C1, as the code has it: every entry of a snapshot is the reading of
    a file of the tree at that path; it is binary exactly when the
    extension of the file name, put in lower case, is on the allow-list;
    a binary entry holds the base64 text of the bytes and decodes to
    them; any other entry is text and holds the UTF-8 decoding of the
    bytes, whatever they are. *)
Theorem C1_snapshot_entry_encoding {Json : Type} {rt : NodeRuntime Json}
    (dir : option (list Dirent)) (files : FileMap)
    (log : list event) (k : string) (e : FileEntry) :
  Snapshot.readDirectoryRecursive dir EmptyString = (Ok files, log) ->
  own files !! k = Some e ->
  exists items name bytes,
    dir = Some items
    /\ Snapshot.FileAt EmptyString items k name bytes
    /\ (type e = Binary
        <-> exists ext, Classify.extension name = Some ext
              /\ In (Classify.toLowerCase ext) Classify.allowList)
    /\ (type e = Binary ->
          content e = Base64.encode bytes
          /\ Base64.decode (content e) = Some bytes)
    /\ (type e <> Binary -> e = mkEntry Text (utf8Decode bytes)).
Proof.
  intros Hrun Hk.
  destruct (readDirectoryRecursive_sound dir files log Hrun k e Hk)
    as (items & name & bytes & -> & Hat & ->).
  exists items, name, bytes.
  destruct (readEntry_spec name bytes) as (Hty & Hbin & Htxt).
  split; [reflexivity|]. split; [exact Hat|].
  split; [rewrite Hty; apply Classify_isBinary_spec|].
  split; assumption.
Qed.

Lemma C1_snapshot_entry_encoding_witness :
  Snapshot.readDirectoryRecursive (rt := Examples.exampleRuntime)
    (Some Examples.smallTree) EmptyString = (Ok Examples.smallSnapshot, [])
  /\ own Examples.smallSnapshot !! "src/logo.png" = Some (mkEntry Binary "iVBORw0KGgo=")
  /\ exists items name bytes,
       Some Examples.smallTree = Some items
       /\ Snapshot.FileAt (rt := Examples.exampleRuntime) EmptyString items
            "src/logo.png" name bytes
       /\ (type (mkEntry Binary "iVBORw0KGgo=") = Binary
           <-> exists ext, Classify.extension name = Some ext
                 /\ In (Classify.toLowerCase ext) Classify.allowList)
       /\ (type (mkEntry Binary "iVBORw0KGgo=") = Binary ->
             content (mkEntry Binary "iVBORw0KGgo=") = Base64.encode bytes
             /\ Base64.decode (content (mkEntry Binary "iVBORw0KGgo=")) = Some bytes)
       /\ (type (mkEntry Binary "iVBORw0KGgo=") <> Binary ->
             mkEntry Binary "iVBORw0KGgo="
             = mkEntry Text (utf8Decode (NodeRuntime := Examples.exampleRuntime) bytes)).
Proof.
  assert (H1 : Snapshot.readDirectoryRecursive (rt := Examples.exampleRuntime)
                 (Some Examples.smallTree) EmptyString
               = (Ok Examples.smallSnapshot, [])) by (vm_compute; reflexivity).
  assert (H2 : own Examples.smallSnapshot !! "src/logo.png"
               = Some (mkEntry Binary "iVBORw0KGgo=")) by (vm_compute; reflexivity).
  split; [exact H1|]. split; [exact H2|].
  exact (C1_snapshot_entry_encoding (rt := Examples.exampleRuntime) _ _ _ _ _ H1 H2).
Defined.

(** C1 as worded fails on an upper-case extension: [LOGO.PNG] is read as
    binary although [PNG] is not one of the listed extensions. *)
Lemma C1_uppercase_counterexample :
  Snapshot.readDirectoryRecursive (rt := Examples.exampleRuntime)
    (Some [File "LOGO.PNG" (Some Examples.pngBytes)]) EmptyString
  = (Ok (mkFileMap {[ "LOGO.PNG" := mkEntry Binary "iVBORw0KGgo=" ]} None), [])
  /\ Classify.extension "LOGO.PNG" = Some "PNG"
  /\ ~ In "PNG" Classify.allowList.
Proof.
  split; [vm_compute; reflexivity|]. split; [reflexivity|].
  cbn. intros Hin. repeat (destruct Hin as [Hin|Hin]; [discriminate Hin|]). exact Hin.
Qed.

(** C9: a file whose extension is one of the listed ones in any letter
    case is read as binary; its content is the base64 text of its bytes,
    and the snapshot of a directory holding it has that entry. *)
Theorem C9_extension_case_insensitive {Json : Type} {rt : NodeRuntime Json}
    (name ext listed : string) (bytes : list Byte.byte) :
  Classify.extension name = Some ext ->
  In listed Classify.allowList ->
  Classify.toLowerCase ext = Classify.toLowerCase listed ->
  Classify.isBinary name = true
  /\ Snapshot.readEntry name bytes = mkEntry Binary (Base64.encode bytes)
  /\ Snapshot.readDirectoryRecursive (Some [File name (Some bytes)]) EmptyString
     = (Ok (mkFileMap {[ name := mkEntry Binary (Base64.encode bytes) ]} None), []).
Proof.
  intros Hext Hin Hcase.
  assert (Hbin : Classify.isBinary name = true).
  { apply Classify_isBinary_spec. exists ext. split; [exact Hext|].
    destruct (Classify_alternatives_lower listed Hin) as [Hl _].
    rewrite Hcase, Hl. exact Hin. }
  assert (Hentry : Snapshot.readEntry name bytes = mkEntry Binary (Base64.encode bytes)).
  { unfold Snapshot.readEntry. rewrite Hbin. reflexivity. }
  split; [exact Hbin|]. split; [exact Hentry|].
  cbn [Snapshot.readDirectoryRecursive Snapshot.readItems Snapshot.readItem
       Snapshot.relativePath].
  unfold setProperty. cbn [own emptyObject]. rewrite lookup_empty.
  destruct (String.eqb_spec name "__proto__") as [->|_]; [discriminate Hext|].
  rewrite Hentry, insert_empty. reflexivity.
Qed.

Lemma C9_extension_case_insensitive_witness :
  Classify.extension "font.WOFF2" = Some "WOFF2"
  /\ In "woff2" Classify.allowList
  /\ Classify.toLowerCase "WOFF2" = Classify.toLowerCase "woff2"
  /\ Classify.isBinary "font.WOFF2" = true
  /\ Snapshot.readEntry (rt := Examples.exampleRuntime) "font.WOFF2" Examples.pngBytes
     = mkEntry Binary (Base64.encode Examples.pngBytes)
  /\ Snapshot.readDirectoryRecursive (rt := Examples.exampleRuntime)
       (Some [File "font.WOFF2" (Some Examples.pngBytes)]) EmptyString
     = (Ok (mkFileMap
              {[ "font.WOFF2" := mkEntry Binary (Base64.encode Examples.pngBytes) ]}
              None), []).
Proof.
  assert (H1 : Classify.extension "font.WOFF2" = Some "WOFF2") by reflexivity.
  assert (H2 : In "woff2" Classify.allowList) by (cbn; tauto).
  assert (H3 : Classify.toLowerCase "WOFF2" = Classify.toLowerCase "woff2") by reflexivity.
  split; [exact H1|]. split; [exact H2|]. split; [exact H3|].
  exact (C9_extension_case_insensitive (rt := Examples.exampleRuntime)
           "font.WOFF2" "WOFF2" "woff2" Examples.pngBytes H1 H2 H3).
Defined.

(** ** Command Runner *)

Lemma runCommand_closed (env : Env) (command : string) (args : list string)
    (workingDir description : string) (w : World)
    (output : list chunk) (code : option Z) (d' : Disk) :
  child env (Runner.spawnName env command) args workingDir (disk w) = (Closed output code, d') ->
  Runner.runCommand env command args workingDir description w =
  if Runner.isZero code
  then (Ok tt, mkWorld d' (trace w ++ [Spawned (Runner.spawnName env command) args workingDir;
                                         ConsoleLog (CommandCompleted description)]))
  else (Throw (mkError "Error" (Runner.exitMessage description code)),
        mkWorld d' (trace w ++ [Spawned (Runner.spawnName env command) args workingDir;
                                  ConsoleError (CommandFailed description code
                                                  (Runner.stdoutOf output)
                                                  (Runner.stderrOf output))])).
Proof.
  intros Hchild. unfold Runner.runCommand, Runner.onClose, Runner.spawnName in *.
  unfold mbind, M_bind, bind, emit, getDisk, putDisk, throw. cbn.
  rewrite Hchild. cbn. destruct (Runner.isZero code); cbn; rewrite <- app_assoc; reflexivity.
Qed.

Lemma runCommand_spawn_failed (env : Env) (command : string) (args : list string)
    (workingDir description : string) (w : World) (message : string) (errno : Z)
    (d' : Disk) :
  child env (Runner.spawnName env command) args workingDir (disk w)
    = (SpawnFailed message errno, d') ->
  Runner.runCommand env command args workingDir description w =
  (Throw (mkError "Error" (Runner.launchMessage command message)),
   mkWorld (disk w) (trace w ++ [Spawned (Runner.spawnName env command) args workingDir;
                                 closeLineAfterError description errno])).
Proof.
  intros Hchild.
  unfold Runner.runCommand, Runner.onClose, Runner.settledBy, Runner.spawnName,
    closeLineAfterError in *.
  unfold mbind, M_bind, bind, emit, getDisk, putDisk, throw. cbn.
  rewrite Hchild. cbn.
  destruct errno; cbn; rewrite <- app_assoc; reflexivity.
Qed.

Lemma isZero_spec (code : option Z) : Runner.isZero code = true <-> code = Some 0%Z.
Proof.
  destruct code as [[| |]|]; cbn; split; congruence.
Qed.

Lemma runCommand_starts (env : Env) (command : string) (args : list string)
    (workingDir description : string) (w : World) :
  exists rest,
    trace (Runner.runCommand env command args workingDir description w).2
    = trace w ++ Spawned (Runner.spawnName env command) args workingDir :: rest.
Proof.
  destruct (child env (Runner.spawnName env command) args workingDir (disk w))
    as [[output code | message errno] d'] eqn:Hchild.
  - rewrite (runCommand_closed _ _ _ _ _ _ _ _ _ Hchild).
    destruct (Runner.isZero code); eexists; reflexivity.
  - rewrite (runCommand_spawn_failed _ _ _ _ _ _ _ _ _ Hchild). eexists. reflexivity.
Qed.

(** C6, as the code has it: the promise resolves, with no value, exactly
    when the child closes with code 0 without having emitted ['error'].
    On any other code of such a child it rejects with a plain [Error]
    whose message is the description followed by [failed with exit code]
    and the code; the captured stdout and stderr go to [console.error]
    and are not part of the error. A child that cannot be spawned emits
    ['error']: the promise rejects with a plain [Error] whose message
    starts with [Failed to run] and the command, and the ['close'] that
    follows only prints the lines of a failure with its code and no
    output. In every case the child is spawned once. *)
Theorem C6_runCommand_outcomes (env : Env) (command : string) (args : list string)
    (workingDir description : string) (w : World) :
  let run := Runner.runCommand env command args workingDir description w in
  let spawned := Spawned (Runner.spawnName env command) args workingDir in
  (forall output d',
      child env (Runner.spawnName env command) args workingDir (disk w)
        = (Closed output (Some 0%Z), d') ->
      run = (Ok tt, mkWorld d' (trace w ++ [spawned; ConsoleLog (CommandCompleted description)])))
  /\ (forall output code d',
        child env (Runner.spawnName env command) args workingDir (disk w)
          = (Closed output code, d') ->
        code <> Some 0%Z ->
        run = (Throw (mkError "Error" (description +:+ " failed with exit code "
                                         +:+ Runner.showCode code)),
               mkWorld d' (trace w ++
                 [spawned;
                  ConsoleError (CommandFailed description code
                                  (Runner.stdoutOf output) (Runner.stderrOf output))])))
  /\ (forall message errno d',
        child env (Runner.spawnName env command) args workingDir (disk w)
          = (SpawnFailed message errno, d') ->
        run.1 = Throw (mkError "Error" ("Failed to run " +:+ command +:+ ": " +:+ message))
        /\ disk run.2 = disk w
        /\ (errno <> 0%Z ->
              trace run.2
              = trace w ++ [spawned;
                            ConsoleError (CommandFailed description (Some errno)
                                            EmptyString EmptyString)]))
  /\ (is_ok run.1 = true
      <-> exists output,
            (child env (Runner.spawnName env command) args workingDir (disk w)).1
              = Closed output (Some 0%Z))
  /\ (exists rest, trace run.2 = trace w ++ spawned :: rest
                   /\ forall cmd a cwd, Spawned cmd a cwd ∉ rest)
  /\ ((forall rest, description <> String "F" rest) ->
      forall code message,
        description +:+ " failed with exit code " +:+ Runner.showCode code
        <> "Failed to run " +:+ command +:+ ": " +:+ message).
Proof.
  cbn zeta.
  assert (Hdistinct :
    (forall rest, description <> String "F" rest) ->
    forall code message,
      description +:+ " failed with exit code " +:+ Runner.showCode code
      <> "Failed to run " +:+ command +:+ ": " +:+ message).
  { intros Hd code message Heq. destruct description as [|c rest]; cbn in Heq.
    - discriminate Heq.
    - injection Heq as -> _. apply (Hd rest). reflexivity. }
  destruct (child env (Runner.spawnName env command) args workingDir (disk w))
    as [[output code | message errno] d'] eqn:Hchild.
  - rewrite (runCommand_closed _ _ _ _ _ _ _ _ _ Hchild).
    split; [intros o dd Heq; injection Heq as -> -> ->; reflexivity|].
    split.
    { intros o c dd Heq Hc. injection Heq as <- <- <-.
      destruct (Runner.isZero code) eqn:Hz; [|reflexivity].
      apply isZero_spec in Hz. contradiction. }
    split; [intros m n dd Heq; discriminate|].
    destruct (Runner.isZero code) eqn:Hz; cbn.
    + apply isZero_spec in Hz as ->. split; [|split; [|exact Hdistinct]].
      * split; [intros _; exists output; reflexivity | reflexivity].
      * eexists. split; [reflexivity|]. intros cmd a cwd Hin.
        apply list_elem_of_singleton in Hin. discriminate.
    + split; [|split; [|exact Hdistinct]].
      * split; [discriminate|]. intros (o & Heq). injection Heq as _ ->.
        cbn in Hz. discriminate.
      * eexists. split; [reflexivity|]. intros cmd a cwd Hin.
        apply list_elem_of_singleton in Hin. discriminate.
  - rewrite (runCommand_spawn_failed _ _ _ _ _ _ _ _ _ Hchild).
    split; [intros o dd Heq; discriminate|].
    split; [intros o c dd Heq; discriminate|].
    split.
    { intros m n dd Heq. injection Heq as <- <- <-. cbn [fst snd disk trace].
      split; [reflexivity|]. split; [reflexivity|].
      intros Hn. unfold closeLineAfterError.
      destruct (Runner.isZero (Some errno)) eqn:Hz; [|reflexivity].
      apply isZero_spec in Hz. congruence. }
    cbn. split; [|split; [|exact Hdistinct]].
    + split; [discriminate|]. intros (o & Heq). discriminate.
    + eexists. split; [reflexivity|]. intros cmd a cwd Hin.
      apply list_elem_of_singleton in Hin. unfold closeLineAfterError in Hin.
      destruct (Runner.isZero (Some errno)); discriminate.
Qed.

Lemma C6_runCommand_outcomes_witness :
  child (Examples.failingEnv "built 3 files" "ERESOLVE" 1)
        (Runner.spawnName (Examples.failingEnv "built 3 files" "ERESOLVE" 1) "npm")
        ["install"] "/tmp/p" (disk Examples.emptyWorld)
    = (Closed [StdoutData "built 3 files"; StderrData "ERESOLVE"] (Some 1%Z),
       mkDisk false None)
  /\ Some 1%Z <> Some 0%Z
  /\ Runner.runCommand (Examples.failingEnv "built 3 files" "ERESOLVE" 1) "npm"
       ["install"] "/tmp/p" "Installing dependencies" Examples.emptyWorld
     = (Throw (mkError "Error"
                 ("Installing dependencies" +:+ " failed with exit code "
                    +:+ Runner.showCode (Some 1%Z))),
        mkWorld (mkDisk false None)
          (trace Examples.emptyWorld ++
             [Spawned (Runner.spawnName
                         (Examples.failingEnv "built 3 files" "ERESOLVE" 1) "npm")
                ["install"] "/tmp/p";
              ConsoleError
                (CommandFailed "Installing dependencies" (Some 1%Z)
                   (Runner.stdoutOf [StdoutData "built 3 files"; StderrData "ERESOLVE"])
                   (Runner.stderrOf [StdoutData "built 3 files"; StderrData "ERESOLVE"]))])).
Proof.
  assert (H1 : child (Examples.failingEnv "built 3 files" "ERESOLVE" 1)
                 (Runner.spawnName (Examples.failingEnv "built 3 files" "ERESOLVE" 1) "npm")
                 ["install"] "/tmp/p" (disk Examples.emptyWorld)
               = (Closed [StdoutData "built 3 files"; StderrData "ERESOLVE"] (Some 1%Z),
                  mkDisk false None)) by reflexivity.
  assert (H2 : Some 1%Z <> Some 0%Z) by discriminate.
  split; [exact H1|]. split; [exact H2|].
  exact (proj1 (proj2
    (C6_runCommand_outcomes (Examples.failingEnv "built 3 files" "ERESOLVE" 1) "npm"
       ["install"] "/tmp/p" "Installing dependencies" Examples.emptyWorld))
    _ _ _ H1 H2).
Defined.

(** A failing install: the streams are on the console, the error has the
    code in its message. *)
Example runCommand_failing_install :
  Runner.runCommand (Examples.failingEnv "built 3 files" "ERESOLVE" 1) "npm" ["install"]
    "/tmp/p" "Installing dependencies" Examples.emptyWorld
  = (Throw (mkError "Error" "Installing dependencies failed with exit code 1"),
     mkWorld (mkDisk false None)
       [Spawned "npm" ["install"] "/tmp/p";
        ConsoleError (CommandFailed "Installing dependencies" (Some 1%Z)
                        "built 3 files" "ERESOLVE")]).
Proof. vm_compute. reflexivity. Qed.

(** A child that cannot be spawned (here: the working directory is
    missing): the error of the launch comes out, after the listener of
    ['close'] has printed the lines of a failure with the error number. *)
Example runCommand_spawn_failure :
  Runner.runCommand Scenarios.noShellEnv "npm" ["install"] "/tmp/gone"
    "Installing dependencies" Examples.emptyWorld
  = (Throw (mkError "Error" "Failed to run npm: spawn /bin/sh ENOENT"),
     mkWorld (mkDisk false None)
       [Spawned "npm" ["install"] "/tmp/gone";
        ConsoleError (CommandFailed "Installing dependencies" (Some (-2)%Z)
                        EmptyString EmptyString)]).
Proof. vm_compute. reflexivity. Qed.

(** The children are run through a shell ([shell: true]): a program that
    is missing is the shell's to report, by the exit code 127, and takes
    the path of a failed command, not that of a failed launch. *)
Example runCommand_missing_program :
  Runner.runCommand Scenarios.noProgramEnv "npm" ["install"] "/tmp/p"
    "Installing dependencies" Examples.emptyWorld
  = (Throw (mkError "Error" "Installing dependencies failed with exit code 127"),
     mkWorld (mkDisk false None)
       [Spawned "npm" ["install"] "/tmp/p";
        ConsoleError (CommandFailed "Installing dependencies" (Some 127%Z)
                        EmptyString "/bin/sh: 1: npm: not found")]).
Proof. vm_compute. reflexivity. Qed.

(** C6 as worded fails: the rejection does not carry the captured
    streams. Two children that exit with the same code after writing
    different output reject with the same error, so no function of the
    error gives the streams back. *)
Lemma C6_error_drops_streams_counterexample :
  ~ exists recover : JsError -> string * string,
      forall env command args workingDir description w output code d' e w',
        child env (Runner.spawnName env command) args workingDir (disk w)
          = (Closed output code, d') ->
        Runner.runCommand env command args workingDir description w = (Throw e, w') ->
        recover e = (Runner.stdoutOf output, Runner.stderrOf output).
Proof.
  intros (recover & Hrec).
  pose proof (Hrec (Examples.failingEnv "built 3 files" "" 1) "npm" ["install"]
                "/tmp/p" "Installing dependencies" Examples.emptyWorld
                _ _ _ _ _ eq_refl eq_refl) as H1.
  pose proof (Hrec (Examples.failingEnv "" "ERESOLVE" 1) "npm" ["install"]
                "/tmp/p" "Installing dependencies" Examples.emptyWorld
                _ _ _ _ _ eq_refl eq_refl) as H2.
  cbn in H1, H2. rewrite H1 in H2. discriminate H2.
Qed.

(** ** The trace only grows *)

Lemma appends_ret {A} (P : event -> Prop) (a : A) : appends P (ret a).
Proof. intros w. exists []. cbn. rewrite app_nil_r. auto. Qed.

Lemma appends_throw {A} (P : event -> Prop) (e : JsError) : appends P (@throw A e).
Proof. intros w. exists []. cbn. rewrite app_nil_r. auto. Qed.

Lemma appends_getDisk (P : event -> Prop) : appends P getDisk.
Proof. intros w. exists []. cbn. rewrite app_nil_r. auto. Qed.

Lemma appends_putDisk (P : event -> Prop) (d : Disk) : appends P (putDisk d).
Proof. intros w. exists []. cbn. rewrite app_nil_r. auto. Qed.

Lemma appends_emit (P : event -> Prop) (ev : event) : P ev -> appends P (emit ev).
Proof. intros H w. exists [ev]. cbn. auto. Qed.

Lemma appends_emitAll (P : event -> Prop) (evs : list event) :
  Forall P evs -> appends P (emitAll evs).
Proof. intros H w. exists evs. cbn. auto. Qed.

Lemma appends_liftLog {A} (P : event -> Prop) (r : result A * list event) :
  Forall P r.2 -> appends P (liftLog r).
Proof. intros H w. exists r.2. cbn. auto. Qed.

Lemma appends_fromResult {A} (P : event -> Prop) (r : result A) :
  appends P (Manifest.fromResult r).
Proof. destruct r; [apply appends_ret | apply appends_throw]. Qed.

Lemma appends_bind {A B} (P : event -> Prop) (m : M A) (k : A -> M B) :
  appends P m -> (forall a, appends P (k a)) -> appends P (m ≫= k).
Proof.
  intros Hm Hk w. unfold mbind, M_bind, bind.
  destruct (Hm w) as (evs1 & E1 & F1). destruct (m w) as [[a|e] w1]; cbn in E1.
  - destruct (Hk a w1) as (evs2 & E2 & F2). exists (evs1 ++ evs2).
    rewrite E2, E1, app_assoc. split; [reflexivity | apply Forall_app; auto].
  - exists evs1. cbn. auto.
Qed.

Lemma appends_tryCatch {A} (P : event -> Prop) (m : M A) (h : JsError -> M A) :
  appends P m -> (forall e, appends P (h e)) -> appends P (tryCatch m h).
Proof.
  intros Hm Hh w. unfold tryCatch.
  destruct (Hm w) as (evs1 & E1 & F1). destruct (m w) as [[a|e] w1]; cbn in E1.
  - exists evs1. cbn. auto.
  - destruct (Hh e w1) as (evs2 & E2 & F2). exists (evs1 ++ evs2).
    rewrite E2, E1, app_assoc. split; [reflexivity | apply Forall_app; auto].
Qed.


Lemma starts_bind {A B} (P : event -> Prop) (m : M A) (k : A -> M B) (ev : event) :
  (forall w, exists rest, trace (m w).2 = trace w ++ ev :: rest) ->
  (forall a, appends P (k a)) ->
  forall w, exists rest, trace ((m ≫= k) w).2 = trace w ++ ev :: rest.
Proof.
  intros Hm Hk w. unfold mbind, M_bind, bind.
  destruct (Hm w) as (rest1 & E1). destruct (m w) as [[a|e] w1]; cbn in E1.
  - destruct (Hk a w1) as (evs & E2 & _). exists (rest1 ++ evs).
    rewrite E2, E1, <- app_assoc. reflexivity.
  - exists rest1. exact E1.
Qed.

Lemma generatorUses_console (t : string) (n : notice) :
  generatorUses t (ConsoleLog n) /\ generatorUses t (ConsoleWarn n)
  /\ generatorUses t (ConsoleError n).
Proof. repeat split; intros cmd pn t' cwd H; discriminate H. Qed.

Lemma generatorUses_of_console (t : string) (evs : list event) :
  Forall isConsoleEvent evs -> Forall (generatorUses t) evs.
Proof.
  intros H. eapply Forall_impl; [exact H|].
  intros ev (n & [-> | ->]); apply generatorUses_console.
Qed.

Lemma appends_onClose (P : event -> Prop) (description : string)
    (output : list chunk) (code : option Z) :
  (forall n, P (ConsoleLog n)) -> (forall n, P (ConsoleError n)) ->
  appends P (Runner.onClose description output code).
Proof.
  intros Hl He. unfold Runner.onClose.
  destruct (Runner.isZero code); [apply appends_emit; apply Hl|].
  apply appends_bind; [apply appends_emit; apply He|]. intros _. apply appends_throw.
Qed.

Lemma appends_settledBy {A} (P : event -> Prop) (e : JsError) (m : M A) :
  appends P m -> appends P (Runner.settledBy e m).
Proof. intros H w. exact (H w). Qed.

Lemma appends_runCommand (P : event -> Prop) (env : Env) (command : string)
    (args : list string) (workingDir description : string) :
  P (Spawned (Runner.spawnName env command) args workingDir) ->
  (forall n, P (ConsoleLog n)) -> (forall n, P (ConsoleError n)) ->
  appends P (Runner.runCommand env command args workingDir description).
Proof.
  intros Hs Hl He. unfold Runner.runCommand.
  apply appends_bind; [apply appends_emit; exact Hs|]. intros _.
  apply appends_bind; [apply appends_getDisk|]. intros d.
  destruct (child env (Runner.spawnName env command) args workingDir d)
    as [[output code | message errno] d'].
  - apply appends_bind; [apply appends_putDisk|]. intros _.
    apply appends_onClose; assumption.
  - apply appends_settledBy. apply appends_onClose; assumption.
Qed.

Section ConsoleOfSnapshot.
Context {Json : Type} {rt : NodeRuntime Json}.

Lemma readItems_log_step (items : list Dirent) :
  Forall (fun item => forall basePath files log,
            exists evs, (Snapshot.readItem basePath item files log).2 = log ++ evs
                        /\ Forall isConsoleEvent evs) items ->
  forall basePath files log,
    exists evs, (Snapshot.readItems basePath items files log).2 = log ++ evs
                /\ Forall isConsoleEvent evs.
Proof.
  induction 1 as [|d items Hd _ IH]; intros basePath files log.
  - exists []. cbn. rewrite app_nil_r. auto.
  - cbn [Snapshot.readItems]. destruct (Hd basePath files log) as (evs1 & E1 & F1).
    destruct (Snapshot.readItem basePath d files log) as [[mid|err] logm]; cbn in E1.
    + destruct (IH basePath mid logm) as (evs2 & E2 & F2). exists (evs1 ++ evs2).
      rewrite E2, E1, app_assoc. split; [reflexivity | apply Forall_app; auto].
    + exists evs1. cbn. auto.
Qed.

Lemma readItem_log (item : Dirent) (basePath : string)
    (files : FileMap) (log : list event) :
  exists evs, (Snapshot.readItem basePath item files log).2 = log ++ evs
              /\ Forall isConsoleEvent evs.
Proof.
  revert basePath files log.
  induction item as [name data | name items IH | name] using Dirent_tree_ind;
    intros basePath files log.
  - cbn. destruct data as [bytes|]; cbn.
    + exists []. rewrite app_nil_r. auto.
    + eexists. split; [reflexivity|]. repeat constructor. eexists. eauto.
  - rewrite readItem_Dir.
    destruct (readItems_log_step items IH (Snapshot.relativePath basePath name)
                emptyObject log)
      as (evs & E & F).
    destruct (Snapshot.readItems (Snapshot.relativePath basePath name) items
                emptyObject log)
      as [[sub|err] logs]; cbn in E |- *; eauto.
  - exists []. cbn. rewrite app_nil_r. auto.
Qed.

(** The snapshot writes nothing but warnings to the console. *)
Lemma readDirectoryRecursive_log (dir : option (list Dirent)) (basePath : string) :
  Forall isConsoleEvent (Snapshot.readDirectoryRecursive dir basePath).2.
Proof.
  destruct dir as [items|]; cbn; [|constructor].
  destruct (readItems_log_step items) with (basePath := basePath)
    (files := emptyObject) (log := @nil event) as (evs & E & F).
  - apply Forall_forall. intros d _ b f l. apply readItem_log.
  - rewrite E. exact F.
Qed.

End ConsoleOfSnapshot.

Lemma removeFiles_log (files : FileMap) (ps : option (list string)) :
  Forall isConsoleEvent (Remover.removeFiles files ps).2.
Proof.
  destruct ps as [[|q ps]|]; cbn [Remover.removeFiles snd]; try constructor.
  apply Forall_forall. apply removeLoop_console. intros ev Hev.
  apply list_elem_of_singleton in Hev as ->. eauto.
Qed.

(** ** Manifest Merger *)

Lemma findEntry_name (name : string) (items : list Dirent) (d : Dirent) :
  Manifest.findEntry name items = Some d -> direntName d = name.
Proof.
  unfold Manifest.findEntry. intros H. apply find_some in H as [_ H].
  apply String.eqb_eq. exact H.
Qed.

Lemma findEntry_replaceEntry (name : string) (bytes : list Byte.byte)
    (items : list Dirent) (d : Dirent) :
  Manifest.findEntry name items = Some d ->
  Manifest.findEntry name (Manifest.replaceEntry name bytes items)
  = Some (File name (Some bytes)).
Proof.
  unfold Manifest.findEntry, Manifest.replaceEntry.
  induction items as [|x items IH]; cbn; [discriminate|].
  destruct (String.eqb (direntName x) name) eqn:Hx; cbn.
  - intros _. rewrite String.eqb_refl. reflexivity.
  - rewrite Hx. exact IH.
Qed.

Lemma merge_rest (pkg : PackageJson) (d : DependencyGroups) :
  pkg_rest (Manifest.mergeDependencies pkg d) = pkg_rest pkg.
Proof.
  unfold Manifest.mergeDependencies.
  destruct (Manifest.npmDependencies d), (Manifest.npmDevDependencies d); reflexivity.
Qed.

Section ManifestRuns.
Context {rt : NodeRuntime PackageJson}.

Lemma updatePackageJson_missing (wf : WriteFate) (path : string)
    (d : DependencyGroups) (w : World) :
  Manifest.manifestEntry (disk w) = None ->
  Manifest.updatePackageJson wf path d w
  = (Ok tt, mkWorld (disk w) (trace w ++ [ConsoleWarn PackageJsonNotFound])).
Proof.
  intros H. unfold Manifest.updatePackageJson, mbind, M_bind, bind, getDisk. cbn.
  rewrite H. reflexivity.
Qed.

(** A manifest that does not parse: the error of the parser comes out,
    and the world is the one that went in. *)
Lemma updatePackageJson_malformed (wf : WriteFate) (path : string)
    (d : DependencyGroups) (w : World) (name : string) (bytes : list Byte.byte)
    (e : JsError) :
  Manifest.manifestEntry (disk w) = Some (File name (Some bytes)) ->
  JSON_parse (utf8Decode bytes) = Throw e ->
  Manifest.updatePackageJson wf path d w = (Throw e, w).
Proof.
  intros H Hp. unfold Manifest.updatePackageJson, mbind, M_bind, bind, getDisk. cbn.
  rewrite H. cbn. rewrite Hp. reflexivity.
Qed.

Lemma updatePackageJson_written (path : string) (d : DependencyGroups) (w : World)
    (name : string) (bytes : list Byte.byte) (pkg : PackageJson) :
  Manifest.manifestEntry (disk w) = Some (File name (Some bytes)) ->
  JSON_parse (utf8Decode bytes) = Ok pkg ->
  let text := JSON_stringify (Manifest.mergeDependencies pkg d) in
  Manifest.updatePackageJson WriteCompletes path d w
  = (Ok tt,
     mkWorld (mkDisk (tempDirExists (disk w))
                     (option_map (Manifest.replaceEntry Manifest.manifestName
                                    (utf8Encode text))
                                 (projectDir (disk w))))
             (trace w ++ [WriteFileCalled (Snapshot.join path Manifest.manifestName) text;
                            ConsoleLog PackageJsonUpdated])).
Proof.
  intros H Hp text.
  unfold Manifest.updatePackageJson, mbind, M_bind, bind, getDisk. cbn.
  rewrite H. cbn. rewrite Hp. cbn.
  unfold Manifest.writeManifest, Manifest.storeManifest,
    mbind, M_bind, bind, emit, getDisk, putDisk. cbn.
  rewrite <- app_assoc. reflexivity.
Qed.

Lemma appends_storeManifest (P : event -> Prop) (bytes : list Byte.byte) :
  appends P (Manifest.storeManifest bytes).
Proof.
  unfold Manifest.storeManifest.
  apply appends_bind; [apply appends_getDisk|]. intros d0. apply appends_putDisk.
Qed.

Lemma appends_writeManifest (P : event -> Prop) (wf : WriteFate) (path text : string) :
  P (WriteFileCalled path text) -> appends P (Manifest.writeManifest wf path text).
Proof.
  intros Hf. unfold Manifest.writeManifest.
  apply appends_bind; [apply appends_emit; exact Hf|]. intros _.
  destruct wf as [|e|n e].
  - apply appends_storeManifest.
  - apply appends_throw.
  - apply appends_bind; [apply appends_storeManifest|]. intros _. apply appends_throw.
Qed.

Lemma appends_updatePackageJson (P : event -> Prop) (wf : WriteFate)
    (path : string) (d : DependencyGroups) :
  (forall n, P (ConsoleLog n)) -> (forall n, P (ConsoleWarn n)) ->
  (forall p t, P (WriteFileCalled p t)) ->
  appends P (Manifest.updatePackageJson wf path d).
Proof.
  intros Hl Hw Hf. unfold Manifest.updatePackageJson.
  apply appends_bind; [apply appends_getDisk|]. intros dsk.
  destruct (Manifest.manifestEntry dsk) as [entry|]; [|apply appends_emit; apply Hw].
  apply appends_bind.
  { unfold Manifest.readTextFile. destruct entry as [n [b|] | n its | n];
      first [apply appends_ret | apply appends_throw]. }
  intros text. apply appends_bind; [apply appends_fromResult|]. intros pkg.
  apply appends_bind; [|intros _; apply appends_emit; apply Hl].
  apply appends_writeManifest. apply Hf.
Qed.

End ManifestRuns.

(** The groups after the two [if] blocks, read by key and said without
    the functions of the merger. *)
Lemma merge_lookup_dependencies (pkg : PackageJson) (d : DependencyGroups) (k : string) :
  groupLookup (pkg_dependencies (Manifest.mergeDependencies pkg d)) k =
  match groupLookup (incoming dependencies d) k with
  | Some v => Some v
  | None => groupLookup (pkg_dependencies pkg) k
  end.
Proof.
  destruct d as [[[deps devs]|]]; destruct pkg as [pd pv pr];
    unfold Manifest.mergeDependencies, Manifest.npmDependencies,
      Manifest.npmDevDependencies, Manifest.spreadBoth, Manifest.spread;
    cbn; [|reflexivity].
  destruct deps as [inc|], devs as [dev|]; cbn; try reflexivity;
    rewrite lookup_union; destruct (inc !! k), pd as [g|]; cbn;
    rewrite ?lookup_empty; try reflexivity; destruct (g !! k); reflexivity.
Qed.

Lemma merge_lookup_devDependencies (pkg : PackageJson) (d : DependencyGroups)
    (k : string) :
  groupLookup (pkg_devDependencies (Manifest.mergeDependencies pkg d)) k =
  match groupLookup (incoming devDependencies d) k with
  | Some v => Some v
  | None => groupLookup (pkg_devDependencies pkg) k
  end.
Proof.
  destruct d as [[[deps devs]|]]; destruct pkg as [pd pv pr];
    unfold Manifest.mergeDependencies, Manifest.npmDependencies,
      Manifest.npmDevDependencies, Manifest.spreadBoth, Manifest.spread;
    cbn; [|reflexivity].
  destruct deps as [inc|], devs as [dev|]; cbn; try reflexivity;
    rewrite lookup_union; destruct (dev !! k), pv as [g|]; cbn;
    rewrite ?lookup_empty; try reflexivity; destruct (g !! k); reflexivity.
Qed.

(** A group that does not come in is left as it was, missing if it was
    missing. *)
Lemma merge_absent_group (pkg : PackageJson) (d : DependencyGroups) :
  (incoming dependencies d = None ->
     pkg_dependencies (Manifest.mergeDependencies pkg d) = pkg_dependencies pkg)
  /\ (incoming devDependencies d = None ->
        pkg_devDependencies (Manifest.mergeDependencies pkg d) = pkg_devDependencies pkg).
Proof.
  destruct d as [[[deps devs]|]]; destruct pkg as [pd pv pr];
    unfold Manifest.mergeDependencies, Manifest.npmDependencies,
      Manifest.npmDevDependencies; cbn; [|auto].
  split; intros ->; [destruct devs | destruct deps]; reflexivity.
Qed.

(** C2: when the manifest on disk parses to [pkg], [updatePackageJson]
    succeeds and leaves on disk the serialisation of a manifest [pkg']
    whose [dependencies] are the union of the ones [pkg] had and the
    incoming ones, and likewise for [devDependencies]: a key of the
    incoming group has the incoming value, any other key keeps the value
    it had. A group that is missing counts as empty; a group that does
    not come in is left as it was, and so are the other members. *)
Theorem C2_manifest_merge_is_union {rt : NodeRuntime PackageJson}
    (path : string) (d : DependencyGroups) (w : World)
    (name : string) (bytes : list Byte.byte) (pkg : PackageJson) :
  Manifest.manifestEntry (disk w) = Some (File name (Some bytes)) ->
  JSON_parse (utf8Decode bytes) = Ok pkg ->
  let run := Manifest.updatePackageJson WriteCompletes path d w in
  exists pkg',
    run.1 = Ok tt
    /\ Manifest.manifestEntry (disk run.2)
       = Some (File "package.json" (Some (utf8Encode (JSON_stringify pkg'))))
    /\ (forall k,
          groupLookup (pkg_dependencies pkg') k =
          match groupLookup (incoming dependencies d) k with
          | Some v => Some v
          | None => groupLookup (pkg_dependencies pkg) k
          end)
    /\ (forall k,
          groupLookup (pkg_devDependencies pkg') k =
          match groupLookup (incoming devDependencies d) k with
          | Some v => Some v
          | None => groupLookup (pkg_devDependencies pkg) k
          end)
    /\ (incoming dependencies d = None -> pkg_dependencies pkg' = pkg_dependencies pkg)
    /\ (incoming devDependencies d = None ->
          pkg_devDependencies pkg' = pkg_devDependencies pkg)
    /\ pkg_rest pkg' = pkg_rest pkg.
Proof.
  intros Hentry Hparse run. subst run.
  exists (Manifest.mergeDependencies pkg d).
  rewrite (updatePackageJson_written path d w name bytes pkg Hentry Hparse). cbn.
  split; [reflexivity|]. split.
  { unfold Manifest.manifestEntry in *. cbn.
    destruct (projectDir (disk w)) as [items|]; [|discriminate]. cbn.
    eapply findEntry_replaceEntry. exact Hentry. }
  split; [apply merge_lookup_dependencies|].
  split; [apply merge_lookup_devDependencies|].
  split; [apply merge_absent_group|]. split; [apply merge_absent_group|].
  apply merge_rest.
Qed.

Lemma C2_manifest_merge_is_union_witness :
  Manifest.manifestEntry (disk (Examples.generatedWorld "{}"))
    = Some (File "package.json" (Some (list_byte_of_string "{}")))
  /\ JSON_parse (NodeRuntime := Examples.exampleRuntime)
       (utf8Decode (NodeRuntime := Examples.exampleRuntime) (list_byte_of_string "{}"))
     = Ok Examples.emptyPackage
  /\ exists pkg',
       (Manifest.updatePackageJson (rt := Examples.exampleRuntime) WriteCompletes
          "/tmp/w/project" Examples.exampleDependencies
          (Examples.generatedWorld "{}")).1 = Ok tt
       /\ (forall k,
             groupLookup (pkg_dependencies pkg') k =
             match groupLookup (incoming dependencies Examples.exampleDependencies) k with
             | Some v => Some v
             | None => groupLookup (pkg_dependencies Examples.emptyPackage) k
             end).
Proof.
  assert (H1 : Manifest.manifestEntry (disk (Examples.generatedWorld "{}"))
               = Some (File "package.json" (Some (list_byte_of_string "{}"))))
    by reflexivity.
  assert (H2 : JSON_parse (NodeRuntime := Examples.exampleRuntime)
                 (utf8Decode (NodeRuntime := Examples.exampleRuntime)
                    (list_byte_of_string "{}"))
               = Ok Examples.emptyPackage) by reflexivity.
  split; [exact H1|]. split; [exact H2|].
  destruct (C2_manifest_merge_is_union (rt := Examples.exampleRuntime)
              "/tmp/w/project" Examples.exampleDependencies
              (Examples.generatedWorld "{}") _ _ _ H1 H2)
    as (pkg' & Hok & _ & Hunion & _).
  exists pkg'. split; [exact Hok | exact Hunion].
Defined.

(** The example of the specification: [a] merged into a manifest that
    has [b] gives both. *)
Example merge_a_into_b :
  pkg_dependencies
    (Manifest.mergeDependencies
       (mkPackageJson (Some {[ "b" := "2.0.0" ]}) None ∅)
       (mkDependencyGroups (Some (mkNpmGroups (Some {[ "a" := "1.0.0" ]}) None))))
  = Some {[ "a" := "1.0.0"; "b" := "2.0.0" ]}.
Proof. vm_compute. reflexivity. Qed.

(** ** Scaffold Orchestrator *)

Section OrchestratorRuns.
Context {rt : NodeRuntime PackageJson}.

Lemma mkdtempSync_created (env : Env) (dir : string) (w : World) :
  mkdtempResult env = Ok dir ->
  Orchestrator.mkdtempSync env w
  = (Ok dir, mkWorld (mkDisk true None) (trace w ++ [mkdtempEvent env])).
Proof.
  intros H. unfold Orchestrator.mkdtempSync, mbind, M_bind, bind, emit. cbn.
  rewrite H. reflexivity.
Qed.

Lemma mkdtempSync_failed (env : Env) (e : JsError) (w : World) :
  mkdtempResult env = Throw e ->
  Orchestrator.mkdtempSync env w
  = (Throw e, mkWorld (disk w) (trace w ++ [mkdtempEvent env])).
Proof.
  intros H. unfold Orchestrator.mkdtempSync, mbind, M_bind, bind, emit. cbn.
  rewrite H. reflexivity.
Qed.

(** The [finally] block never throws: it calls [fs.rmSync] once and, if
    that fails, adds one warning. *)
Lemma cleanup_run (env : Env) (dir : string) (w : World) :
  Orchestrator.cleanup env dir w
  = (Ok tt,
     mkWorld (match rmFailure env with
              | Some _ => disk w
              | None => mkDisk false None
              end)
             (trace w ++ cleanupEvents env dir)).
Proof.
  unfold Orchestrator.cleanup, Orchestrator.rmSync, cleanupEvents, tryCatch,
    mbind, M_bind, bind, emit, putDisk, throw. cbn.
  destruct (rmFailure env) as [err|]; cbn; [rewrite <- app_assoc|]; reflexivity.
Qed.

(** [scaffold] once the temporary directory exists: the outcome of the
    guarded block, then the cleanup. *)
Lemma scaffold_run (env : Env) (moduleConfig : ModuleConfig)
    (context : ScaffoldContext) (w : World) (dir : string) :
  mkdtempResult env = Ok dir ->
  let body := Orchestrator.scaffoldBody env moduleConfig dir
                (Orchestrator.template (Orchestrator.fieldValuesOf context))
                (mkWorld (mkDisk true None) (trace w ++ [mkdtempEvent env])) in
  Orchestrator.scaffold env moduleConfig context w
  = (body.1,
     mkWorld (match rmFailure env with
              | Some _ => disk body.2
              | None => mkDisk false None
              end)
             (trace body.2 ++ cleanupEvents env dir)).
Proof.
  intros H body. unfold Orchestrator.scaffold, mbind, M_bind, bind.
  rewrite (mkdtempSync_created env dir w H). unfold tryFinally. fold body.
  destruct body as [r wb]. rewrite cleanup_run. reflexivity.
Qed.

Lemma scaffoldBody_withRmFailure (env : Env) (failure : option JsError)
    (moduleConfig : ModuleConfig) (dir template : string) :
  Orchestrator.scaffoldBody (withRmFailure env failure) moduleConfig dir template
  = Orchestrator.scaffoldBody env moduleConfig dir template.
Proof. destruct env. reflexivity. Qed.


Lemma appends_provision (t : string) (env : Env) (path : string) :
  appends (generatorUses t) (Orchestrator.provision env path).
Proof.
  unfold Orchestrator.provision. destruct (Orchestrator.isTestMode env).
  - apply appends_emit. apply generatorUses_console.
  - apply appends_bind.
    + apply appends_runCommand; try (intros n; apply generatorUses_console).
      intros c pn t' d H. discriminate H.
    + intros _. apply appends_tryCatch.
      * apply appends_runCommand; try (intros n; apply generatorUses_console).
        intros c pn t' d H. discriminate H.
      * intros e. apply appends_emit. apply generatorUses_console.
Qed.

Lemma appends_afterGenerator (t : string) (env : Env) (moduleConfig : ModuleConfig)
    (path : string) :
  appends (generatorUses t)
    (Manifest.updatePackageJson (writeFate env) path
       (Orchestrator.dependenciesOf moduleConfig);;
     Orchestrator.provision env path;;
     d ← getDisk;
     files ← liftLog (Snapshot.readDirectoryRecursive (projectDir d) EmptyString);
     let cleaned := Remover.removeFiles files
                      (Some (Orchestrator.filesToRemove moduleConfig)) in
     emitAll cleaned.2;;
     ret cleaned.1).
Proof.
  apply appends_bind.
  { apply appends_updatePackageJson; try (intros n; apply generatorUses_console).
    intros p x c pn t' d H. discriminate H. }
  intros _. apply appends_bind; [apply appends_provision|]. intros _.
  apply appends_bind; [apply appends_getDisk|]. intros d.
  apply appends_bind.
  { apply appends_liftLog. apply generatorUses_of_console.
    apply readDirectoryRecursive_log. }
  intros files. cbn zeta. apply appends_bind; [|intros _; apply appends_ret].
  apply appends_emitAll. apply generatorUses_of_console. apply removeFiles_log.
Qed.


(** The guarded block begins by starting the generator, in the temporary
    directory, with the template it was given. *)
Lemma scaffoldBody_starts (t : string) (env : Env) (moduleConfig : ModuleConfig)
    (dir : string) (w : World) :
  exists rest,
    trace (Orchestrator.scaffoldBody env moduleConfig dir t w).2
    = trace w
      ++ Spawned (Runner.spawnName env "npm")
                 (Runner.viteArgs Orchestrator.projectName t) dir :: rest.
Proof.
  revert w. unfold Orchestrator.scaffoldBody, Runner.runViteCreate.
  apply (starts_bind (generatorUses t)).
  - intros w. apply runCommand_starts.
  - intros _. apply appends_afterGenerator.
Qed.

Lemma bind_returned {A B} (m : M A) (k : A -> M B) (w w1 : World) (a : A) :
  m w = (Ok a, w1) -> (m ≫= k) w = k a w1.
Proof. intros H. unfold mbind, M_bind, bind. rewrite H. reflexivity. Qed.

Lemma bind_thrown {A B} (m : M A) (k : A -> M B) (w w1 : World) (e : JsError) :
  m w = (Throw e, w1) -> (m ≫= k) w = (Throw e, w1).
Proof. intros H. unfold mbind, M_bind, bind. rewrite H. reflexivity. Qed.


(** Once the temporary directory exists, the next thing [scaffold] does
    is start the generator there with the template it computed. *)
Lemma scaffold_starts (env : Env) (moduleConfig : ModuleConfig)
    (context : ScaffoldContext) (w : World) (dir : string) :
  mkdtempResult env = Ok dir ->
  exists rest,
    trace (Orchestrator.scaffold env moduleConfig context w).2
    = trace w
      ++ mkdtempEvent env
         :: Spawned (Runner.spawnName env "npm")
              (Runner.viteArgs Orchestrator.projectName
                 (Orchestrator.template (Orchestrator.fieldValuesOf context))) dir
         :: rest.
Proof.
  intros H. rewrite (scaffold_run env moduleConfig context w dir H). cbn [snd trace].
  destruct (scaffoldBody_starts
              (Orchestrator.template (Orchestrator.fieldValuesOf context))
              env moduleConfig dir
              (mkWorld (mkDisk true None) (trace w ++ [mkdtempEvent env])))
    as (rest & E).
  exists (rest ++ cleanupEvents env dir). rewrite E. cbn [trace].
  rewrite <- !app_assoc. reflexivity.
Qed.

Lemma template_cases (fv : FieldValues) :
  Orchestrator.template fv =
  match useTypeScript fv with
  | JsBool false => "react"
  | _ => "react-ts"
  end.
Proof.
  unfold Orchestrator.template. destruct (useTypeScript fv) as [| |[]| |]; reflexivity.
Qed.

End OrchestratorRuns.

(** C4, as the code has it: in every run that got its temporary
    directory, whatever the guarded block does (return or throw, at any
    of its steps), [fs.rmSync] is called on the directory after the block
    and before [scaffold] returns; the result of [scaffold] is the result
    of the block; a failing removal adds one warning and nothing else,
    and the result is the same whether the removal fails or not. *)
Theorem C4_cleanup_runs_after_workspace_created {rt : NodeRuntime PackageJson}
    (env : Env) (moduleConfig : ModuleConfig) (context : ScaffoldContext)
    (w : World) (dir : string) :
  mkdtempResult env = Ok dir ->
  let body := Orchestrator.scaffoldBody env moduleConfig dir
                (Orchestrator.template (Orchestrator.fieldValuesOf context))
                (mkWorld (mkDisk true None) (trace w ++ [mkdtempEvent env])) in
  let run := Orchestrator.scaffold env moduleConfig context w in
  run.1 = body.1
  /\ trace run.2
     = trace body.2
       ++ RmCalled dir
          :: match rmFailure env with
             | Some err => [ConsoleWarn (CouldNotCleanUp dir (err_message err))]
             | None => []
             end
  /\ (rmFailure env = None -> disk run.2 = mkDisk false None)
  /\ (forall failure,
        (Orchestrator.scaffold (withRmFailure env failure) moduleConfig context w).1
        = run.1).
Proof.
  intros H body run. subst run.
  rewrite (scaffold_run env moduleConfig context w dir H). fold body. cbn [fst snd].
  split; [reflexivity|]. split; [reflexivity|]. split.
  - intros Hrm. cbn. rewrite Hrm. reflexivity.
  - intros failure.
    rewrite (scaffold_run (withRmFailure env failure) moduleConfig context w dir H).
    cbn [fst]. rewrite scaffoldBody_withRmFailure. reflexivity.
Qed.

Lemma C4_cleanup_runs_after_workspace_created_witness :
  mkdtempResult (Examples.exampleEnv "{oops") = Ok Examples.exampleDir
  /\ (Orchestrator.scaffold (rt := Examples.exampleRuntime)
        (withRmFailure (Examples.exampleEnv "{oops") (Some Examples.enospc))
        Examples.exampleConfig (Examples.exampleContext (JsBool true))
        Examples.emptyWorld).1
     = (Orchestrator.scaffold (rt := Examples.exampleRuntime)
          (Examples.exampleEnv "{oops")
          Examples.exampleConfig (Examples.exampleContext (JsBool true))
          Examples.emptyWorld).1.
Proof.
  assert (H : mkdtempResult (Examples.exampleEnv "{oops") = Ok Examples.exampleDir)
    by reflexivity.
  split; [exact H|].
  destruct (C4_cleanup_runs_after_workspace_created (rt := Examples.exampleRuntime)
              (Examples.exampleEnv "{oops") Examples.exampleConfig
              (Examples.exampleContext (JsBool true)) Examples.emptyWorld
              Examples.exampleDir H) as (_ & _ & _ & Hsame).
  exact (Hsame (Some Examples.enospc)).
Defined.

(** C4 as worded fails when the first step does: if [fs.mkdtempSync]
    throws, [scaffold] rejects with that error and [fs.rmSync] is never
    called. *)
Lemma C4_mkdtemp_failure_counterexample :
  Orchestrator.scaffold (rt := Examples.exampleRuntime) Examples.fullDiskEnv
    Examples.exampleConfig (Examples.exampleContext (JsBool true)) Examples.emptyWorld
  = (Throw Examples.enospc,
     mkWorld (mkDisk false None) [MkdtempCalled "/tmp/genesis3-vite-"])
  /\ forall path, ~ In (RmCalled path) [MkdtempCalled "/tmp/genesis3-vite-"].
Proof.
  split; [vm_compute; reflexivity|].
  intros path [H|[]]. discriminate H.
Qed.

(** C5: when the generator succeeded and left a [package.json] whose
    text does not parse, [updatePackageJson] throws the error of the
    parser and leaves the world as it found it (no write); [scaffold]
    rejects with that error, and after the generator nothing happens but
    the cleanup: no write, no install, no snapshot. *)
Theorem C5_malformed_manifest_aborts {rt : NodeRuntime PackageJson}
    (env : Env) (moduleConfig : ModuleConfig) (context : ScaffoldContext)
    (w : World) (dir : string) (output : list chunk) (d1 : Disk)
    (name : string) (bytes : list Byte.byte) (e : JsError) :
  mkdtempResult env = Ok dir ->
  child env (Runner.spawnName env "npm")
        (Runner.viteArgs Orchestrator.projectName
           (Orchestrator.template (Orchestrator.fieldValuesOf context)))
        dir (mkDisk true None)
    = (Closed output (Some 0%Z), d1) ->
  Manifest.manifestEntry d1 = Some (File name (Some bytes)) ->
  JSON_parse (utf8Decode bytes) = Throw e ->
  (forall writeFails path deps log,
      Manifest.updatePackageJson writeFails path deps (mkWorld d1 log)
      = (Throw e, mkWorld d1 log))
  /\ (Orchestrator.scaffold env moduleConfig context w).1 = Throw e
  /\ trace (Orchestrator.scaffold env moduleConfig context w).2
     = trace w
       ++ [mkdtempEvent env;
           Spawned (Runner.spawnName env "npm")
             (Runner.viteArgs Orchestrator.projectName
                (Orchestrator.template (Orchestrator.fieldValuesOf context))) dir;
           ConsoleLog (CommandCompleted "Creating Vite project")]
       ++ cleanupEvents env dir.
Proof.
  intros Hdir Hchild Hentry Hparse.
  split.
  { intros wf path deps log.
    apply (updatePackageJson_malformed wf path deps (mkWorld d1 log) name bytes e);
      assumption. }
  rewrite (scaffold_run env moduleConfig context w dir Hdir). cbn [fst snd trace].
  set (w1 := mkWorld (mkDisk true None) (trace w ++ [mkdtempEvent env])).
  assert (Hbody :
    Orchestrator.scaffoldBody env moduleConfig dir
      (Orchestrator.template (Orchestrator.fieldValuesOf context)) w1
    = (Throw e,
       mkWorld d1 (trace w1 ++
         [Spawned (Runner.spawnName env "npm")
            (Runner.viteArgs Orchestrator.projectName
               (Orchestrator.template (Orchestrator.fieldValuesOf context))) dir;
          ConsoleLog (CommandCompleted "Creating Vite project")]))).
  { unfold Orchestrator.scaffoldBody, Runner.runViteCreate.
    erewrite bind_returned;
      [|rewrite (runCommand_closed env "npm" _ dir _ w1 output (Some 0%Z) d1 Hchild);
        reflexivity].
    cbn zeta. apply bind_thrown.
    eapply updatePackageJson_malformed; [exact Hentry | exact Hparse]. }
  rewrite Hbody. cbn [fst snd trace]. subst w1. cbn [trace].
  split; [reflexivity|]. rewrite <- !app_assoc. reflexivity.
Qed.

Lemma C5_malformed_manifest_aborts_witness :
  (Orchestrator.scaffold (rt := Examples.exampleRuntime) (Examples.exampleEnv "{oops")
     Examples.exampleConfig (Examples.exampleContext (JsBool true))
     Examples.emptyWorld).1
  = Throw (mkError "SyntaxError" "Unexpected token in JSON").
Proof.
  refine (proj1 (proj2
    (C5_malformed_manifest_aborts (rt := Examples.exampleRuntime)
       (Examples.exampleEnv "{oops") Examples.exampleConfig
       (Examples.exampleContext (JsBool true)) Examples.emptyWorld
       Examples.exampleDir [StdoutData "Scaffolding project"]
       (mkDisk true (Some (Examples.generated "{oops")))
       "package.json" (list_byte_of_string "{oops")
       (mkError "SyntaxError" "Unexpected token in JSON")
       _ _ _ _))); reflexivity.
Defined.



(** The template, read off the context as it comes in. *)
Lemma template_of_context {rt : NodeRuntime PackageJson} (context : ScaffoldContext) :
  Orchestrator.template (Orchestrator.fieldValuesOf context) =
  match fieldValues (module context) with
  | Some fv => match useTypeScript fv with
               | JsBool false => "react"
               | _ => "react-ts"
               end
  | None => "react-ts"
  end.
Proof.
  rewrite template_cases. unfold Orchestrator.fieldValuesOf.
  destruct (fieldValues (module context)); reflexivity.
Qed.

(** C10: in a run that got its temporary directory, the generator is
    started with the template [react] exactly when the context holds
    field values whose [useTypeScript] is the boolean [false]. In every
    other case it is started with [react-ts]: when the field values are
    missing, and when the field holds anything else, be it a missing
    member, [null], the number 0 or the string [false]. *)
Theorem C10_only_false_selects_javascript {rt : NodeRuntime PackageJson}
    (env : Env) (moduleConfig : ModuleConfig) (context : ScaffoldContext) (w : World)
    (dir : string) :
  mkdtempResult env = Ok dir ->
  let started t :=
    exists rest,
      trace (Orchestrator.scaffold env moduleConfig context w).2
      = trace w
        ++ mkdtempEvent env
           :: Spawned (Runner.spawnName env "npm")
                ["create"; "vite@latest"; "project"; "--"; "--template"; t] dir
           :: rest in
  (started "react"
   <-> exists fv, fieldValues (module context) = Some fv
                  /\ useTypeScript fv = JsBool false)
  /\ ((forall fv, fieldValues (module context) = Some fv ->
                  useTypeScript fv <> JsBool false) ->
      started "react-ts")
  /\ (fieldValues (module context) = None -> started "react-ts")
  /\ (forall v,
        v = JsUndefined \/ v = JsNull \/ v = JsNumber 0 \/ v = JsString "false"
        \/ v = JsBool true ->
        fieldValues (module context) = Some (mkFieldValues v) ->
        started "react-ts").
Proof.
  intros Hdir. cbn zeta.
  destruct (scaffold_starts env moduleConfig context w dir Hdir) as (rest0 & E0).
  assert (Hfun : forall t,
    (exists rest,
       trace (Orchestrator.scaffold env moduleConfig context w).2
       = trace w
         ++ mkdtempEvent env
            :: Spawned (Runner.spawnName env "npm")
                 ["create"; "vite@latest"; "project"; "--"; "--template"; t] dir
            :: rest)
    <-> Orchestrator.template (Orchestrator.fieldValuesOf context) = t).
  { intros t. split.
    - intros (rest & E). rewrite E0 in E. apply app_inv_head in E.
      unfold Runner.viteArgs in E. congruence.
    - intros <-. exists rest0. exact E0. }
  pose proof (template_of_context context) as Ht0.
  rewrite !Hfun, template_of_context.
  destruct (fieldValues (module context)) as [[v]|]; cbn [useTypeScript] in *.
  - split.
    { split.
      - intros Ht. exists (mkFieldValues v). split; [reflexivity|].
        destruct v as [| |[]| |]; cbn; first [reflexivity | discriminate Ht].
      - intros (fv & Heq & Hv). injection Heq as <-. cbn in Hv. rewrite Hv.
        reflexivity. }
    split.
    { intros Hne. specialize (Hne _ eq_refl). cbn in Hne.
      destruct v as [| |[]| |]; try reflexivity. destruct Hne. reflexivity. }
    split; [discriminate|].
    intros v' Hv' Heq. injection Heq as ->. apply Hfun. rewrite Ht0.
    destruct Hv' as [->|[->|[->|[->| ->]]]]; reflexivity.
  - split.
    { split; [discriminate|]. intros (fv & Heq & _). discriminate Heq. }
    split; [reflexivity|]. split; [reflexivity|].
    intros v' _ Heq. discriminate Heq.
Qed.

Lemma C10_only_false_selects_javascript_witness :
  mkdtempResult (Examples.exampleEnv "{}") = Ok Examples.exampleDir
  /\ (exists rest,
        trace (Orchestrator.scaffold (rt := Examples.exampleRuntime)
                 (Examples.exampleEnv "{}") Examples.exampleConfig
                 (Examples.exampleContext (JsBool false)) Examples.emptyWorld).2
        = [] ++ MkdtempCalled "/tmp/genesis3-vite-"
                :: Spawned "npm"
                     ["create"; "vite@latest"; "project"; "--"; "--template"; "react"]
                     Examples.exampleDir
                :: rest)
  /\ (exists rest,
        trace (Orchestrator.scaffold (rt := Examples.exampleRuntime)
                 (Examples.exampleEnv "{}") Examples.exampleConfig
                 (Examples.exampleContext (JsString "false")) Examples.emptyWorld).2
        = [] ++ MkdtempCalled "/tmp/genesis3-vite-"
                :: Spawned "npm"
                     ["create"; "vite@latest"; "project"; "--"; "--template"; "react-ts"]
                     Examples.exampleDir
                :: rest).
Proof.
  assert (H : mkdtempResult (Examples.exampleEnv "{}") = Ok Examples.exampleDir)
    by reflexivity.
  split; [exact H|]. split.
  - apply (proj1 (C10_only_false_selects_javascript (rt := Examples.exampleRuntime)
                    (Examples.exampleEnv "{}") Examples.exampleConfig
                    (Examples.exampleContext (JsBool false)) Examples.emptyWorld
                    Examples.exampleDir H)).
    exists (mkFieldValues (JsBool false)). split; reflexivity.
  - apply (proj2 (proj2 (proj2
             (C10_only_false_selects_javascript (rt := Examples.exampleRuntime)
                (Examples.exampleEnv "{}") Examples.exampleConfig
                (Examples.exampleContext (JsString "false")) Examples.emptyWorld
                Examples.exampleDir H))) (JsString "false")); [tauto | reflexivity].
Defined.

(** A whole run in test mode, on a generator that leaves a manifest, a
    page and two images: what the trace and the disk show afterwards,
    and the keys that are returned. *)
Example scaffold_test_mode_run :
  let run := Orchestrator.scaffold (rt := Examples.exampleRuntime)
               (Examples.exampleEnv "{}") Examples.exampleConfig
               (Examples.exampleContext (JsBool true)) Examples.emptyWorld in
  trace run.2
  = [MkdtempCalled "/tmp/genesis3-vite-";
     Spawned "npm" ["create"; "vite@latest"; "project"; "--"; "--template"; "react-ts"]
       Examples.exampleDir;
     ConsoleLog (CommandCompleted "Creating Vite project");
     WriteFileCalled "/tmp/genesis3-vite-Ab12Cd/project/package.json"
       (Examples.render
          (mkPackageJson (Some {[ "axios" := "^1.6.0" ]}) None ∅));
     ConsoleLog PackageJsonUpdated;
     ConsoleLog SkippingInstall;
     ConsoleLog RemovingFiles;
     ConsoleLog (RemovedFile "index.html");
     ConsoleWarn (FileNotFoundForRemoval "README.md");
     RmCalled Examples.exampleDir]
  /\ disk run.2 = mkDisk false None
  /\ (dom <$> match run.1 with Ok files => Some (own files) | Throw _ => None end)
     = Some ({[ "package.json"; "public/LOGO.PNG"; "src/logo.png"; "src/main.tsx" ]}
               : gset string).
Proof.
  cbv zeta. split; [vm_compute; reflexivity|]. split; vm_compute; reflexivity.
Qed.

(** * Further properties *)

(** ** The snapshot: what makes it fail, what it keeps, what it reports *)

Section SnapshotMore.
Context {Json : Type} {rt : NodeRuntime Json}.

Lemma readItems_ok_step (items : list Dirent) :
  Forall (fun item => forall basePath files log,
            is_ok (Snapshot.readItem basePath item files log).1 = listable item) items ->
  forall basePath files log,
    is_ok (Snapshot.readItems basePath items files log).1 = forallb listable items.
Proof.
  induction 1 as [|d items Hd _ IH]; intros basePath files log; [reflexivity|].
  cbn [Snapshot.readItems forallb]. rewrite <- (Hd basePath files log).
  destruct (Snapshot.readItem basePath d files log) as [[mid|err] logm]; cbn.
  - apply IH.
  - reflexivity.
Qed.

Lemma readItem_ok (item : Dirent) (basePath : string)
    (files : FileMap) (log : list event) :
  is_ok (Snapshot.readItem basePath item files log).1 = listable item.
Proof.
  revert basePath files log.
  induction item as [name data | name items IH | name] using Dirent_tree_ind;
    intros basePath files log.
  - cbn. destruct data; reflexivity.
  - rewrite readItem_Dir. cbn [listable].
    rewrite <- (readItems_ok_step items IH (Snapshot.relativePath basePath name)
                  emptyObject log).
    destruct (Snapshot.readItems (Snapshot.relativePath basePath name) items
                emptyObject log)
      as [[sub|err] logs]; reflexivity.
  - reflexivity.
Qed.

Lemma FileAt_cons_inv (basePath rel name : string) (bytes : list Byte.byte)
    (d : Dirent) (items : list Dirent) :
  Snapshot.FileAt basePath (d :: items) rel name bytes ->
  Snapshot.FileAt basePath [d] rel name bytes
  \/ Snapshot.FileAt basePath items rel name bytes.
Proof.
  intros H. inversion H as [b n bs its Hin | b dn sub its r n bs Hin Hsub]; subst.
  - destruct Hin as [->|Hin].
    + left. apply Snapshot.FileAt_here. left. reflexivity.
    + right. apply Snapshot.FileAt_here. exact Hin.
  - destruct Hin as [->|Hin].
    + left. eapply Snapshot.FileAt_below; [left; reflexivity | exact Hsub].
    + right. eapply Snapshot.FileAt_below; [exact Hin | exact Hsub].
Qed.

Lemma readItems_keeps (items : list Dirent) :
  Forall itemKeeps items ->
  forall basePath files log files' log',
    Snapshot.readItems basePath items files log = (Ok files', log') ->
    (forall k, is_Some (own files !! k) -> is_Some (own files' !! k))
    /\ (forall rel name bytes,
          Snapshot.FileAt basePath items rel name bytes ->
          rel <> "__proto__" -> is_Some (own files' !! rel)).
Proof.
  induction 1 as [|d items Hd _ IH]; intros basePath files log files' log' Hrun.
  - cbn in Hrun. injection Hrun as <- <-. split; [auto|].
    intros rel name bytes Hat. exfalso.
    inversion Hat as [b n bs its Hin | b dn sub its r n bs Hin _]; destruct Hin.
  - cbn [Snapshot.readItems] in Hrun.
    destruct (Snapshot.readItem basePath d files log) as [[mid|err] logm] eqn:Hone;
      [|discriminate].
    destruct (Hd _ _ _ _ _ Hone) as [Hmono1 Hhere].
    destruct (IH _ _ _ _ _ Hrun) as [Hmono2 Hrest].
    split; [auto|]. intros rel name bytes Hat Hne.
    apply FileAt_cons_inv in Hat as [Hat|Hat]; eauto.
Qed.

Lemma readItem_keeps (item : Dirent) : itemKeeps item.
Proof.
  induction item as [name data | name items IH | name] using Dirent_tree_ind;
    intros basePath files log files' log' Hrun.
  - cbn in Hrun. destruct data as [bytes|]; injection Hrun as <- <-.
    + split.
      * intros k Hk. apply setProperty_keeps_keys. exact Hk.
      * intros rel n bs Hat Hne.
        inversion Hat as [b n' bs' its Hin | b dn sub its r n' bs' Hin _]; subst;
          destruct Hin as [Heq|[]]; try discriminate Heq.
        injection Heq as <- <-. rewrite setProperty_stores by exact Hne.
        eexists; reflexivity.
    + split; [auto|]. intros rel n bs Hat.
      inversion Hat as [b n' bs' its Hin | b dn sub its r n' bs' Hin _]; subst;
        destruct Hin as [Heq|[]]; discriminate Heq.
  - rewrite readItem_Dir in Hrun.
    destruct (Snapshot.readItems (Snapshot.relativePath basePath name) items
                emptyObject log)
      as [[sub|err] logs] eqn:Hsub; [|discriminate].
    injection Hrun as <- <-.
    destruct (readItems_keeps items IH _ _ _ _ _ Hsub) as [_ Hbelow].
    split.
    + intros k Hk. apply assign_keeps_keys. exact Hk.
    + intros rel n bs Hat Hne.
      inversion Hat as [b n' bs' its Hin | b dn sub' its r n' bs' Hin Hsub']; subst;
        destruct Hin as [Heq|[]]; try discriminate Heq.
      injection Heq as <- <-.
      apply assign_stores; [exact Hne | exact (Hbelow _ _ _ Hsub' Hne)].
  - cbn in Hrun. discriminate.
Qed.

(** No assignment of the snapshot ever stores a property named
    [__proto__]. *)
Lemma readItems_no_proto_key (items : list Dirent) :
  Forall (fun item => forall basePath files log files' log',
            Snapshot.readItem basePath item files log = (Ok files', log') ->
            own files !! "__proto__" = None -> own files' !! "__proto__" = None) items ->
  forall basePath files log files' log',
    Snapshot.readItems basePath items files log = (Ok files', log') ->
    own files !! "__proto__" = None -> own files' !! "__proto__" = None.
Proof.
  induction 1 as [|d items Hd _ IH]; intros basePath files log files' log' Hrun Hnone.
  - cbn in Hrun. injection Hrun as <- <-. exact Hnone.
  - cbn [Snapshot.readItems] in Hrun.
    destruct (Snapshot.readItem basePath d files log) as [[mid|err] logm] eqn:Hone;
      [|discriminate].
    eapply IH; [exact Hrun|]. eapply Hd; [exact Hone | exact Hnone].
Qed.

Lemma readItem_no_proto_key (item : Dirent) (basePath : string)
    (files : FileMap) (log : list event) (files' : FileMap) (log' : list event) :
  Snapshot.readItem basePath item files log = (Ok files', log') ->
  own files !! "__proto__" = None -> own files' !! "__proto__" = None.
Proof.
  revert basePath files log files' log'.
  induction item as [name data | name items IH | name] using Dirent_tree_ind;
    intros basePath files log files' log' Hrun Hnone.
  - cbn in Hrun. destruct data as [bytes|]; injection Hrun as <- <-; [|exact Hnone].
    apply setProperty_no_proto_key. exact Hnone.
  - rewrite readItem_Dir in Hrun.
    destruct (Snapshot.readItems (Snapshot.relativePath basePath name) items
                emptyObject log)
      as [[sub|err] logs]; [|discriminate].
    injection Hrun as <- <-. apply assign_no_proto_key. exact Hnone.
  - cbn in Hrun. discriminate.
Qed.

Lemma readItems_log (items : list Dirent) (basePath : string)
    (files : FileMap) (log : list event) :
  exists evs, (Snapshot.readItems basePath items files log).2 = log ++ evs
              /\ Forall isConsoleEvent evs.
Proof.
  apply readItems_log_step. apply Forall_forall. intros d _ b f l. apply readItem_log.
Qed.

Lemma UnreadableAt_cons_inv (basePath rel : string) (d : Dirent) (items : list Dirent) :
  UnreadableAt basePath (d :: items) rel ->
  UnreadableAt basePath [d] rel \/ UnreadableAt basePath items rel.
Proof.
  intros H. inversion H as [b n its Hin | b dn sub its r Hin Hsub]; subst.
  - destruct Hin as [->|Hin].
    + left. apply UnreadableAt_here. left. reflexivity.
    + right. apply UnreadableAt_here. exact Hin.
  - destruct Hin as [->|Hin].
    + left. eapply UnreadableAt_below; [left; reflexivity | exact Hsub].
    + right. eapply UnreadableAt_below; [exact Hin | exact Hsub].
Qed.

Lemma readItems_reports (items : list Dirent) :
  Forall itemReports items ->
  forall basePath files log files' log',
    Snapshot.readItems basePath items files log = (Ok files', log') ->
    forall rel, UnreadableAt basePath items rel ->
      ConsoleWarn (CouldNotReadFile rel) ∈ log'.
Proof.
  induction 1 as [|d items Hd _ IH]; intros basePath files log files' log' Hrun rel Hat.
  - exfalso. inversion Hat as [b n its Hin | b dn sub its r Hin _]; destruct Hin.
  - cbn [Snapshot.readItems] in Hrun.
    destruct (Snapshot.readItem basePath d files log) as [[mid|err] logm] eqn:Hone;
      [|discriminate].
    apply UnreadableAt_cons_inv in Hat as [Hat|Hat].
    + destruct (readItems_log items basePath mid logm) as (evs & E & _).
      rewrite Hrun in E. cbn in E. rewrite E. apply elem_of_app. left.
      exact (Hd _ _ _ _ _ Hone rel Hat).
    + exact (IH _ _ _ _ _ Hrun rel Hat).
Qed.

Lemma readItem_reports (item : Dirent) : itemReports item.
Proof.
  induction item as [name data | name items IH | name] using Dirent_tree_ind;
    intros basePath files log files' log' Hrun rel Hat.
  - inversion Hat as [b n its Hin | b dn sub its r Hin _]; subst;
      destruct Hin as [Heq|[]]; try discriminate Heq.
    injection Heq as -> ->. cbn in Hrun. injection Hrun as <- <-.
    apply elem_of_app. right. apply list_elem_of_here.
  - rewrite readItem_Dir in Hrun.
    destruct (Snapshot.readItems (Snapshot.relativePath basePath name) items
                emptyObject log)
      as [[sub|err] logs] eqn:Hsub; [|discriminate].
    injection Hrun as <- <-.
    inversion Hat as [b n its Hin | b dn sub' its r Hin Hsub']; subst;
      destruct Hin as [Heq|[]]; try discriminate Heq.
    injection Heq as <- <-. exact (readItems_reports items IH _ _ _ _ _ Hsub rel Hsub').
  - cbn in Hrun. discriminate.
Qed.

Lemma append_assoc (a b c : string) : (a +:+ b) +:+ c = a +:+ (b +:+ c).
Proof.
  induction a as [|x a IH]; [reflexivity|].
  change (String x ((a +:+ b) +:+ c) = String x (a +:+ (b +:+ c))).
  rewrite IH. reflexivity.
Qed.

(** Where the joins of a tree put [sep] after the base path, every path
    below a base path that is not empty starts with it and [sep]. *)
Lemma FileAt_prefix (sep basePath rel name : string) (bytes : list Byte.byte)
    (items : list Dirent) :
  Snapshot.FileAt basePath items rel name bytes ->
  basePath <> EmptyString ->
  (forall base n, JoinedAt basePath items base n ->
                  path_join base n = base +:+ sep +:+ n) ->
  exists rest, rel = basePath +:+ sep +:+ rest.
Proof.
  induction 1 as [b n bs its Hin | b dn sub its r n bs Hin Hsub IH]; intros Hne Hjoin.
  - exists n. rewrite <- (Hjoin b n).
    + destruct b; [destruct Hne; reflexivity | reflexivity].
    + apply (JoinedAt_here b (File n (Some bs)) its Hin Hne).
  - assert (Hrel : Snapshot.relativePath b dn = b +:+ sep +:+ dn).
    { rewrite <- (Hjoin b dn).
      - destruct b; [destruct Hne; reflexivity | reflexivity].
      - apply (JoinedAt_here b (Dir dn sub) its Hin Hne). }
    destruct IH as (rest & ->).
    + rewrite Hrel. destruct b; [destruct Hne; reflexivity | discriminate].
    + intros base m Hat. apply Hjoin. eapply JoinedAt_below; eassumption.
    + exists (dn +:+ sep +:+ rest). rewrite Hrel, !append_assoc. reflexivity.
Qed.

End SnapshotMore.

Lemma extension_of_dotted (stem ext : string) :
  Classify.hasDot ext = false ->
  Classify.extension (stem +:+ "." +:+ ext) = Some ext.
Proof.
  intros Hd. induction stem as [|c stem IH].
  - change (Classify.extension (String "." ext) = Some ext). cbn [Classify.extension].
    apply Classify_extension_None in Hd. rewrite Hd. reflexivity.
  - change (Classify.extension (String c (stem +:+ "." +:+ ext)) = Some ext).
    cbn [Classify.extension]. rewrite IH. reflexivity.
Qed.


(** X2: a snapshot that succeeds drops no readable file but the one an
    object cannot hold as a key: the relative path of every readable
    file of the tree, unless it is [__proto__], is a key, and the entry
    there is the reading of a file of the tree at that path. The name
    [__proto__] is never a key of a snapshot. *)
Theorem X2_snapshot_keeps_every_readable_file
    {Json : Type} {rt : NodeRuntime Json}
    (items : list Dirent) (files : FileMap) (log : list event)
    (rel name : string) (bytes : list Byte.byte) :
  Snapshot.readDirectoryRecursive (Some items) EmptyString = (Ok files, log) ->
  Snapshot.FileAt EmptyString items rel name bytes ->
  rel <> "__proto__" ->
  (exists name' bytes',
     own files !! rel = Some (Snapshot.readEntry name' bytes')
     /\ Snapshot.FileAt EmptyString items rel name' bytes')
  /\ own files !! "__proto__" = None.
Proof.
  intros Hrun Hat Hne. cbn [Snapshot.readDirectoryRecursive] in Hrun. split.
  - assert (Hkeep : Forall itemKeeps items).
    { apply Forall_forall. intros d _. apply readItem_keeps. }
    destruct (readItems_keeps items Hkeep _ _ _ _ _ Hrun) as [_ Hall].
    destruct (Hall rel name bytes Hat Hne) as [e He].
    assert (Hsound : Forall itemSound items).
    { apply Forall_forall. intros d _. apply readItem_sound. }
    destruct (readItems_sound items Hsound _ _ _ _ _ Hrun rel e He)
      as [Hempty | (name' & bytes' & Hat' & ->)].
    + cbn in Hempty. rewrite lookup_empty in Hempty. discriminate.
    + exists name', bytes'. auto.
  - eapply readItems_no_proto_key; [|exact Hrun|reflexivity].
    apply Forall_forall. intros d _ b f l f' l'. apply readItem_no_proto_key.
Qed.

Lemma X2_snapshot_keeps_every_readable_file_witness :
  Snapshot.readDirectoryRecursive (rt := Examples.exampleRuntime)
    (Some Scenarios.guardedTree) EmptyString
  = (Ok Scenarios.guardedSnapshot, Scenarios.guardedLog)
  /\ Snapshot.FileAt (rt := Examples.exampleRuntime) EmptyString Scenarios.guardedTree
       "src/logo.png" "logo.png" Examples.pngBytes
  /\ "src/logo.png" <> "__proto__"
  /\ (exists name' bytes',
        own Scenarios.guardedSnapshot !! "src/logo.png"
        = Some (Snapshot.readEntry (rt := Examples.exampleRuntime) name' bytes')
        /\ Snapshot.FileAt (rt := Examples.exampleRuntime) EmptyString
             Scenarios.guardedTree "src/logo.png" name' bytes')
  /\ own Scenarios.guardedSnapshot !! "__proto__" = None.
Proof.
  assert (H1 : Snapshot.readDirectoryRecursive (rt := Examples.exampleRuntime)
                 (Some Scenarios.guardedTree) EmptyString
               = (Ok Scenarios.guardedSnapshot, Scenarios.guardedLog))
    by (vm_compute; reflexivity).
  assert (H2 : Snapshot.FileAt (rt := Examples.exampleRuntime) EmptyString
                 Scenarios.guardedTree "src/logo.png" "logo.png" Examples.pngBytes).
  { apply (Snapshot.FileAt_below (rt := Examples.exampleRuntime) EmptyString "src"
             [File "logo.png" (Some Examples.pngBytes); File "socket" None]).
    - cbn. tauto.
    - apply (Snapshot.FileAt_here (rt := Examples.exampleRuntime)
               "src" "logo.png" Examples.pngBytes). cbn. tauto. }
  assert (H3 : "src/logo.png" <> "__proto__") by discriminate.
  split; [exact H1|]. split; [exact H2|]. split; [exact H3|].
  exact (X2_snapshot_keeps_every_readable_file (rt := Examples.exampleRuntime)
           _ _ _ _ _ _ H1 H2 H3).
Defined.

(** A readable file named [__proto__] at the root: the assignment
    replaces the prototype of the map and no key is stored. *)
Example snapshot_of_proto_file :
  Snapshot.readDirectoryRecursive (rt := Examples.exampleRuntime)
    (Some [Examples.textFile "__proto__" "x"; Examples.textFile "a.txt" "y"]) EmptyString
  = (Ok (mkFileMap {[ "a.txt" := mkEntry Text "y" ]} (Some (mkEntry Text "x"))), []).
Proof. vm_compute. reflexivity. Qed.

(** X3: a snapshot that succeeds has warned, by its relative path, about
    every file of the tree it could not read. *)
Theorem X3_snapshot_warns_about_unreadable_files
    {Json : Type} {rt : NodeRuntime Json}
    (items : list Dirent) (files : FileMap) (log : list event)
    (rel : string) :
  Snapshot.readDirectoryRecursive (Some items) EmptyString = (Ok files, log) ->
  UnreadableAt EmptyString items rel ->
  ConsoleWarn (CouldNotReadFile rel) ∈ log.
Proof.
  intros Hrun Hat. cbn [Snapshot.readDirectoryRecursive] in Hrun.
  assert (Hall : Forall itemReports items).
  { apply Forall_forall. intros d _. apply readItem_reports. }
  exact (readItems_reports items Hall _ _ _ _ _ Hrun rel Hat).
Qed.

Lemma X3_snapshot_warns_about_unreadable_files_witness :
  Snapshot.readDirectoryRecursive (rt := Examples.exampleRuntime)
    (Some Scenarios.guardedTree) EmptyString
  = (Ok Scenarios.guardedSnapshot, Scenarios.guardedLog)
  /\ UnreadableAt (rt := Examples.exampleRuntime) EmptyString Scenarios.guardedTree
       "src/socket"
  /\ ConsoleWarn (CouldNotReadFile "src/socket") ∈ Scenarios.guardedLog.
Proof.
  assert (H1 : Snapshot.readDirectoryRecursive (rt := Examples.exampleRuntime)
                 (Some Scenarios.guardedTree) EmptyString
               = (Ok Scenarios.guardedSnapshot, Scenarios.guardedLog))
    by (vm_compute; reflexivity).
  assert (H2 : UnreadableAt (rt := Examples.exampleRuntime) EmptyString
                 Scenarios.guardedTree "src/socket").
  { apply (UnreadableAt_below (rt := Examples.exampleRuntime) EmptyString "src"
             [File "logo.png" (Some Examples.pngBytes); File "socket" None]).
    - cbn. tauto.
    - apply (UnreadableAt_here (rt := Examples.exampleRuntime) "src" "socket").
      cbn. tauto. }
  split; [exact H1|]. split; [exact H2|].
  exact (X3_snapshot_warns_about_unreadable_files (rt := Examples.exampleRuntime)
           _ _ _ _ H1 H2).
Defined.

(** X4: the keys of a snapshot have the shape of relative paths, in the
    notation of the platform. Where [path.join], on the names of the
    tree, puts the separator [sep] between the base path and the name,
    and no directory at the root has an empty name, a key is either the
    name of a readable file at the root or starts with the name of a
    directory at the root followed by [sep]. *)
Theorem X4_snapshot_keys_are_relative_paths
    {Json : Type} {rt : NodeRuntime Json}
    (sep : string) (items : list Dirent) (files : FileMap) (log : list event)
    (k : string) (e : FileEntry) :
  (forall base n, JoinedAt EmptyString items base n ->
                  path_join base n = base +:+ sep +:+ n) ->
  (forall d sub, In (Dir d sub) items -> d <> EmptyString) ->
  Snapshot.readDirectoryRecursive (Some items) EmptyString = (Ok files, log) ->
  own files !! k = Some e ->
  (exists bytes, In (File k (Some bytes)) items)
  \/ (exists d sub rest, In (Dir d sub) items /\ k = d +:+ sep +:+ rest).
Proof.
  intros Hjoin Hnames Hrun Hk.
  destruct (readDirectoryRecursive_sound _ _ _ Hrun k e Hk)
    as (items' & name & bytes & Heq & Hat & _).
  injection Heq as <-.
  inversion Hat as [b n bs its Hin | b dn sub its r n bs Hin Hsub]; subst.
  - left. exists bytes. exact Hin.
  - right. destruct (FileAt_prefix sep _ _ _ _ _ Hsub) as (rest & ->).
    + cbn. exact (Hnames dn sub Hin).
    + intros base m Hbelow. apply Hjoin. eapply JoinedAt_below; eassumption.
    + exists dn, sub, rest. split; [exact Hin | reflexivity].
Qed.

Lemma X4_snapshot_keys_are_relative_paths_witness :
  (forall base n,
      JoinedAt (rt := Examples.exampleRuntime) EmptyString Examples.smallTree base n ->
      path_join (NodeRuntime := Examples.exampleRuntime) base n = base +:+ "/" +:+ n)
  /\ (forall d sub, In (Dir d sub) Examples.smallTree -> d <> EmptyString)
  /\ Snapshot.readDirectoryRecursive (rt := Examples.exampleRuntime)
       (Some Examples.smallTree) EmptyString = (Ok Examples.smallSnapshot, [])
  /\ own Examples.smallSnapshot !! "src/logo.png" = Some (mkEntry Binary "iVBORw0KGgo=")
  /\ ((exists bytes, In (File "src/logo.png" (Some bytes)) Examples.smallTree)
      \/ (exists d sub rest,
            In (Dir d sub) Examples.smallTree /\ "src/logo.png" = d +:+ "/" +:+ rest)).
Proof.
  assert (Hj : forall base n,
            JoinedAt (rt := Examples.exampleRuntime) EmptyString Examples.smallTree base n ->
            path_join (NodeRuntime := Examples.exampleRuntime) base n
            = base +:+ "/" +:+ n) by (intros base n _; reflexivity).
  assert (H0 : forall d sub, In (Dir d sub) Examples.smallTree -> d <> EmptyString).
  { intros d sub [H|[H|[]]]; [discriminate H|]. injection H as <- _. discriminate. }
  assert (H1 : Snapshot.readDirectoryRecursive (rt := Examples.exampleRuntime)
                 (Some Examples.smallTree) EmptyString
               = (Ok Examples.smallSnapshot, [])) by (vm_compute; reflexivity).
  assert (H2 : own Examples.smallSnapshot !! "src/logo.png"
               = Some (mkEntry Binary "iVBORw0KGgo=")) by (vm_compute; reflexivity).
  split; [exact Hj|]. split; [exact H0|]. split; [exact H1|]. split; [exact H2|].
  exact (X4_snapshot_keys_are_relative_paths (rt := Examples.exampleRuntime)
           "/" _ _ _ _ _ Hj H0 H1 H2).
Defined.

(** X5: the content of a binary entry determines the bytes of the file:
    two files with a binary name and the same content in the snapshot
    have the same bytes. *)
Theorem X5_binary_content_determines_bytes
    {Json : Type} {rt : NodeRuntime Json}
    (name1 name2 : string) (bytes1 bytes2 : list Byte.byte) :
  Classify.isBinary name1 = true ->
  Classify.isBinary name2 = true ->
  content (Snapshot.readEntry name1 bytes1) = content (Snapshot.readEntry name2 bytes2) ->
  bytes1 = bytes2.
Proof.
  intros H1 H2. unfold Snapshot.readEntry. rewrite H1, H2. cbn. intros Heq.
  assert (Hd : Base64.decode (Base64.encode bytes1) = Base64.decode (Base64.encode bytes2))
    by (rewrite Heq; reflexivity).
  rewrite !Base64_decode_encode in Hd. injection Hd as ->. reflexivity.
Qed.

Lemma X5_binary_content_determines_bytes_witness :
  Classify.isBinary "a.png" = true
  /\ Classify.isBinary "b.GIF" = true
  /\ content (Snapshot.readEntry (rt := Examples.exampleRuntime) "a.png" Examples.pngBytes)
     = content (Snapshot.readEntry (rt := Examples.exampleRuntime) "b.GIF" Examples.pngBytes)
  /\ Examples.pngBytes = Examples.pngBytes.
Proof.
  assert (H1 : Classify.isBinary "a.png" = true) by reflexivity.
  assert (H2 : Classify.isBinary "b.GIF" = true) by reflexivity.
  assert (H3 : content (Snapshot.readEntry (rt := Examples.exampleRuntime)
                          "a.png" Examples.pngBytes)
               = content (Snapshot.readEntry (rt := Examples.exampleRuntime)
                            "b.GIF" Examples.pngBytes)) by reflexivity.
  split; [exact H1|]. split; [exact H2|]. split; [exact H3|].
  exact (X5_binary_content_determines_bytes (rt := Examples.exampleRuntime)
           _ _ _ _ H1 H2 H3).
Defined.

(** X6: only what follows the last dot of a name counts. A name that
    ends with a dot and a dot-free suffix is binary exactly when that
    suffix, in lower case, is on the list, whatever comes before; a name
    without a dot is never binary. *)
Theorem X6_only_the_last_extension_counts (stem ext name : string) :
  (Classify.hasDot ext = false ->
   (Classify.isBinary (stem +:+ "." +:+ ext) = true
    <-> In (Classify.toLowerCase ext) Classify.allowList))
  /\ (Classify.hasDot name = false -> Classify.isBinary name = false).
Proof.
  split.
  - intros Hd. rewrite Classify_isBinary_spec, (extension_of_dotted stem ext Hd). split.
    + intros (e & He & Hin). injection He as <-. exact Hin.
    + intros Hin. exists ext. auto.
  - intros Hd. destruct (Classify.isBinary name) eqn:Hb; [|reflexivity].
    apply Classify_isBinary_spec in Hb as (e & He & _).
    apply Classify_extension_None in Hd. congruence.
Qed.

Lemma X6_only_the_last_extension_counts_witness :
  Classify.hasDot "bak" = false
  /\ (Classify.isBinary ("logo.png" +:+ "." +:+ "bak") = true
      <-> In (Classify.toLowerCase "bak") Classify.allowList)
  /\ Classify.hasDot "Makefile" = false
  /\ Classify.isBinary "Makefile" = false.
Proof.
  assert (H1 : Classify.hasDot "bak" = false) by reflexivity.
  assert (H2 : Classify.hasDot "Makefile" = false) by reflexivity.
  split; [exact H1|].
  split; [exact (proj1 (X6_only_the_last_extension_counts "logo.png" "bak" "Makefile") H1)|].
  split; [exact H2|].
  exact (proj2 (X6_only_the_last_extension_counts "logo.png" "bak" "Makefile") H2).
Defined.

(** ** The remover: composition, order, and what it prints *)

Lemma removalLine_truthy (m : FileMap) (p : string) :
  removalLine m p =
  if truthyAt m p then ConsoleLog (RemovedFile p)
  else ConsoleWarn (FileNotFoundForRemoval p).
Proof.
  unfold removalLine. destruct (truthyAt m p) eqn:Ht.
  - rewrite decide_True by (apply truthyAt_spec; exact Ht). reflexivity.
  - rewrite decide_False; [reflexivity|]. intros H. apply truthyAt_spec in H. congruence.
Qed.

Lemma removeLoop_log_NoDup (ps : list string) (files : FileMap)
    (log : list event) :
  NoDup ps ->
  (foldl Remover.removeStep (files, log) ps).2 = log ++ map (removalLine files) ps.
Proof.
  intros Hnd. revert files log.
  induction Hnd as [|p ps Hnotin _ IH]; intros files log.
  - cbn [foldl map snd]. rewrite app_nil_r. reflexivity.
  - rewrite removeLoop_step, IH, <- app_assoc. cbn [app map]. f_equal.
    rewrite <- removalLine_truthy. f_equal.
    apply map_ext_in. intros q Hq. rewrite !removalLine_truthy.
    rewrite truthyAt_delete_ne; [reflexivity|].
    intros ->. apply Hnotin. apply list_elem_of_In. exact Hq.
Qed.

(** X7: removing one list and then another is removing their
    concatenation. *)
Theorem X7_removeFiles_composes (m : FileMap) (ps qs : list string) :
  (Remover.removeFiles (Remover.removeFiles m (Some ps)).1 (Some qs)).1
  = (Remover.removeFiles m (Some (ps ++ qs))).1.
Proof.
  apply FileMap_eq; [|rewrite !removeFiles_proto; reflexivity].
  apply map_eq. intros k. rewrite !removeFiles_lookup.
  destruct (decide (k ∈ qs)) as [Hq|Hq].
  - rewrite decide_True by (apply elem_of_app; auto). reflexivity.
  - destruct (decide (k ∈ ps)) as [Hp|Hp].
    + rewrite decide_True by (apply elem_of_app; auto). reflexivity.
    + rewrite decide_False; [reflexivity|]. rewrite elem_of_app. tauto.
Qed.

(** X8: the result depends on the removal list only through the set of
    its paths: neither their order nor repetitions matter. *)
Theorem X8_removeFiles_ignores_order_and_repetition
    (m : FileMap) (ps qs : list string) :
  (forall p, p ∈ ps <-> p ∈ qs) ->
  (Remover.removeFiles m (Some ps)).1 = (Remover.removeFiles m (Some qs)).1.
Proof.
  intros Hsame. apply FileMap_eq; [|rewrite !removeFiles_proto; reflexivity].
  apply map_eq. intros k. rewrite !removeFiles_lookup.
  destruct (decide (k ∈ ps)) as [Hp|Hp].
  - rewrite decide_True by (apply Hsame; exact Hp). reflexivity.
  - rewrite decide_False; [reflexivity|]. intros Hq. apply Hp, Hsame, Hq.
Qed.

Lemma X8_removeFiles_ignores_order_and_repetition_witness :
  (forall p, p ∈ ["index.html"; "README.md"]
             <-> p ∈ ["README.md"; "index.html"; "README.md"])
  /\ (Remover.removeFiles Examples.smallSnapshot (Some ["index.html"; "README.md"])).1
     = (Remover.removeFiles Examples.smallSnapshot
          (Some ["README.md"; "index.html"; "README.md"])).1.
Proof.
  assert (H : forall p, p ∈ ["index.html"; "README.md"]
                        <-> p ∈ ["README.md"; "index.html"; "README.md"]).
  { intros p. rewrite !elem_of_cons, !elem_of_nil. tauto. }
  split; [exact H|].
  exact (X8_removeFiles_ignores_order_and_repetition Examples.smallSnapshot _ _ H).
Defined.

(** X9: for a non-empty list without repetition the console gets the
    header and then exactly one line per listed path, in the order of the
    list: the line of a removal for a path that was a key of the map
    given and for a name the map inherits ([constructor], [toString],
    ...), a not-found warning for any other. *)
Theorem X9_removeFiles_prints_one_line_per_path
    (m : FileMap) (ps : list string) :
  NoDup ps -> ps <> [] ->
  (Remover.removeFiles m (Some ps)).2
  = ConsoleLog RemovingFiles :: map (removalLine m) ps.
Proof.
  intros Hnd Hne. destruct ps as [|p ps]; [destruct Hne; reflexivity|].
  change (Remover.removeFiles m (Some (p :: ps)))
    with (foldl Remover.removeStep (m, [ConsoleLog RemovingFiles]) (p :: ps)).
  rewrite (removeLoop_log_NoDup _ _ _ Hnd). reflexivity.
Qed.

Lemma X9_removeFiles_prints_one_line_per_path_witness :
  NoDup ["index.html"; "constructor"; "README.md"]
  /\ ["index.html"; "constructor"; "README.md"] <> []
  /\ (Remover.removeFiles Examples.smallSnapshot
        (Some ["index.html"; "constructor"; "README.md"])).2
     = ConsoleLog RemovingFiles
       :: map (removalLine Examples.smallSnapshot)
              ["index.html"; "constructor"; "README.md"].
Proof.
  assert (H1 : NoDup ["index.html"; "constructor"; "README.md"]).
  { repeat constructor.
    - rewrite !elem_of_cons, elem_of_nil. intros [H|[H|[]]]; discriminate H.
    - rewrite list_elem_of_singleton. discriminate.
    - apply not_elem_of_nil. }
  assert (H2 : ["index.html"; "constructor"; "README.md"] <> []) by discriminate.
  split; [exact H1|]. split; [exact H2|].
  exact (X9_removeFiles_prints_one_line_per_path Examples.smallSnapshot _ H1 H2).
Defined.

(** The lines of that list: a key, an inherited name, a name that is
    neither. *)
Example removalLine_cases :
  map (removalLine Examples.smallSnapshot) ["index.html"; "constructor"; "README.md"]
  = [ConsoleLog (RemovedFile "index.html"); ConsoleLog (RemovedFile "constructor");
     ConsoleWarn (FileNotFoundForRemoval "README.md")].
Proof. vm_compute. reflexivity. Qed.

(** With a repetition the second mention finds the path gone. *)
Example removeFiles_repeated_path :
  (Remover.removeFiles Examples.smallSnapshot (Some ["index.html"; "index.html"])).2
  = [ConsoleLog RemovingFiles; ConsoleLog (RemovedFile "index.html");
     ConsoleWarn (FileNotFoundForRemoval "index.html")].
Proof. vm_compute. reflexivity. Qed.

(** ** The manifest merger: composition, and what it leaves alone *)

Lemma spreadBoth_twice (existing : option depGroup) (incoming : depGroup) :
  Manifest.spreadBoth (Some (Manifest.spreadBoth existing incoming)) incoming
  = Manifest.spreadBoth existing incoming.
Proof.
  unfold Manifest.spreadBoth. cbn [Manifest.spread].
  rewrite (assoc (∪)), (idemp (∪)). reflexivity.
Qed.

Lemma findEntry_replaceEntry_other (n name : string) (bytes : list Byte.byte)
    (items : list Dirent) :
  n <> name ->
  Manifest.findEntry n (Manifest.replaceEntry name bytes items)
  = Manifest.findEntry n items.
Proof.
  intros Hne. unfold Manifest.findEntry, Manifest.replaceEntry.
  induction items as [|x items IH]; cbn; [reflexivity|].
  destruct (String.eqb_spec (direntName x) name) as [Hx|Hx]; cbn.
  - assert (Hn : String.eqb name n = false) by (apply String.eqb_neq; congruence).
    rewrite Hn. rewrite Hx, Hn. exact IH.
  - rewrite IH. reflexivity.
Qed.

Lemma replaceEntry_lookup_other (name : string) (bytes : list Byte.byte)
    (items : list Dirent) (i : nat) (x : Dirent) :
  items !! i = Some x -> direntName x <> name ->
  Manifest.replaceEntry name bytes items !! i = Some x.
Proof.
  intros Hi Hx. unfold Manifest.replaceEntry.
  change (List.map ?f items) with (f <$> items).
  rewrite list_lookup_fmap, Hi. cbn.
  apply String.eqb_neq in Hx. rewrite Hx. reflexivity.
Qed.

Section ManifestMore.
Context {rt : NodeRuntime PackageJson}.

(** How [updatePackageJson] ends, by the place where it stops: before
    the write (nothing to update, or a manifest that cannot be read or
    parsed), at the opening of the file, in the middle of the write, or
    after it. *)
Lemma updatePackageJson_outcomes (wf : WriteFate) (path : string)
    (d : DependencyGroups) (w : World) :
  let run := Manifest.updatePackageJson wf path d w in
  let stored bytes :=
    mkDisk (tempDirExists (disk w))
           (option_map (Manifest.replaceEntry Manifest.manifestName bytes)
                       (projectDir (disk w))) in
  (run.2 = w
   \/ (run.1 = Ok tt /\ run.2 = mkWorld (disk w) (trace w ++ [ConsoleWarn PackageJsonNotFound])))
  \/ (exists text,
        let called := WriteFileCalled (Snapshot.join path Manifest.manifestName) text in
        (wf = WriteCompletes /\ run.1 = Ok tt
         /\ run.2 = mkWorld (stored (utf8Encode text))
                            (trace w ++ [called; ConsoleLog PackageJsonUpdated]))
        \/ (exists e, wf = OpenFails e /\ run.1 = Throw e
                      /\ run.2 = mkWorld (disk w) (trace w ++ [called]))
        \/ (exists written e,
              wf = WriteFails written e /\ run.1 = Throw e
              /\ run.2 = mkWorld (stored (take written (utf8Encode text)))
                                 (trace w ++ [called]))).
Proof.
  cbn zeta. unfold Manifest.updatePackageJson, mbind, M_bind, bind, getDisk. cbn.
  destruct (Manifest.manifestEntry (disk w)) as [entry|];
    [|left; right; split; reflexivity].
  destruct entry as [n [b|] | n its | n]; cbn; try (left; left; reflexivity).
  destruct (JSON_parse (utf8Decode b)) as [pkg|e]; cbn; [|left; left; reflexivity].
  right. exists (JSON_stringify (Manifest.mergeDependencies pkg d)).
  unfold Manifest.writeManifest, Manifest.storeManifest,
    mbind, M_bind, bind, emit, getDisk, putDisk, throw.
  destruct wf as [|e|written e]; cbn.
  - left. rewrite <- app_assoc. auto.
  - right. left. exists e. auto.
  - right. right. exists written, e. auto.
Qed.

End ManifestMore.

(** X10: merging is cumulative and idempotent. After two merges a group
    holds, under each key, the value of the second incoming group, or
    else that of the first, or else the one that was there; and merging
    the same groups a second time changes nothing. *)
Theorem X10_merge_composes (pkg : PackageJson) (d1 d2 : DependencyGroups) :
  (forall k,
     groupLookup
       (pkg_dependencies (Manifest.mergeDependencies (Manifest.mergeDependencies pkg d1) d2))
       k
     = match groupLookup (incoming dependencies d2) k with
       | Some v => Some v
       | None =>
           match groupLookup (incoming dependencies d1) k with
           | Some v => Some v
           | None => groupLookup (pkg_dependencies pkg) k
           end
       end)
  /\ (forall k,
        groupLookup
          (pkg_devDependencies
             (Manifest.mergeDependencies (Manifest.mergeDependencies pkg d1) d2)) k
        = match groupLookup (incoming devDependencies d2) k with
          | Some v => Some v
          | None =>
              match groupLookup (incoming devDependencies d1) k with
              | Some v => Some v
              | None => groupLookup (pkg_devDependencies pkg) k
              end
          end)
  /\ Manifest.mergeDependencies (Manifest.mergeDependencies pkg d1) d1
     = Manifest.mergeDependencies pkg d1.
Proof.
  split; [intros k; rewrite !merge_lookup_dependencies; reflexivity|].
  split; [intros k; rewrite !merge_lookup_devDependencies; reflexivity|].
  unfold Manifest.mergeDependencies.
  destruct (Manifest.npmDependencies d1) as [inc|];
    destruct (Manifest.npmDevDependencies d1) as [dev|]; cbn;
    rewrite ?spreadBoth_twice; reflexivity.
Qed.

(** The example of the specification, merged twice and read by key. *)
Example merge_twice_by_key :
  let pkg := mkPackageJson (Some {[ "b" := "2.0.0" ]}) None ∅ in
  let d := mkDependencyGroups (Some (mkNpmGroups (Some {[ "a" := "1.0.0" ]}) None)) in
  groupLookup (pkg_dependencies (Manifest.mergeDependencies
                                   (Manifest.mergeDependencies pkg d) d)) "a"
    = Some "1.0.0"
  /\ groupLookup (pkg_dependencies (Manifest.mergeDependencies
                                      (Manifest.mergeDependencies pkg d) d)) "b"
     = Some "2.0.0".
Proof. split; vm_compute; reflexivity. Qed.

(** X11: whatever its outcome, [updatePackageJson] leaves every entry of
    the project directory that is not named [package.json] as it was, at
    its place, and neither adds nor removes an entry. *)
Theorem X11_updatePackageJson_touches_only_the_manifest
    {rt : NodeRuntime PackageJson}
    (wf : WriteFate) (path : string) (d : DependencyGroups) (w : World)
    (items : list Dirent) :
  projectDir (disk w) = Some items ->
  exists items',
    projectDir (disk (Manifest.updatePackageJson wf path d w).2) = Some items'
    /\ length items' = length items
    /\ (forall i x, items !! i = Some x -> direntName x <> Manifest.manifestName ->
          items' !! i = Some x)
    /\ (forall n, n <> Manifest.manifestName ->
          Manifest.findEntry n items' = Manifest.findEntry n items).
Proof.
  intros Hitems.
  assert (Hcases :
    disk (Manifest.updatePackageJson wf path d w).2 = disk w
    \/ exists bytes,
         disk (Manifest.updatePackageJson wf path d w).2
         = mkDisk (tempDirExists (disk w))
                  (option_map (Manifest.replaceEntry Manifest.manifestName bytes)
                              (projectDir (disk w)))).
  { destruct (updatePackageJson_outcomes wf path d w)
      as [[Hw | [_ Hw]] | (text & [(_ & _ & Hw) | [(e & _ & _ & Hw)
                                                  | (n & e & _ & _ & Hw)]])];
      rewrite Hw; cbn [disk]; eauto. }
  destruct Hcases as [Hsame | (bytes & Hnew)].
  - exists items. rewrite Hsame. auto.
  - exists (Manifest.replaceEntry Manifest.manifestName bytes items).
    rewrite Hnew, Hitems. cbn. split; [reflexivity|]. split.
    + unfold Manifest.replaceEntry. apply length_map.
    + split.
      * intros i x Hi Hx. apply replaceEntry_lookup_other; assumption.
      * intros n Hn. apply findEntry_replaceEntry_other. exact Hn.
Qed.

Lemma X11_updatePackageJson_touches_only_the_manifest_witness :
  projectDir (disk (Examples.generatedWorld "{}")) = Some (Examples.generated "{}")
  /\ exists items',
       projectDir (disk (Manifest.updatePackageJson (rt := Examples.exampleRuntime)
                           WriteCompletes "/tmp/w/project" Examples.exampleDependencies
                           (Examples.generatedWorld "{}")).2) = Some items'
       /\ length items' = length (Examples.generated "{}")
       /\ (forall i x, Examples.generated "{}" !! i = Some x ->
             direntName x <> Manifest.manifestName -> items' !! i = Some x)
       /\ (forall n, n <> Manifest.manifestName ->
             Manifest.findEntry n items' = Manifest.findEntry n (Examples.generated "{}")).
Proof.
  assert (H : projectDir (disk (Examples.generatedWorld "{}"))
              = Some (Examples.generated "{}")) by reflexivity.
  split; [exact H|].
  exact (X11_updatePackageJson_touches_only_the_manifest (rt := Examples.exampleRuntime)
           WriteCompletes "/tmp/w/project" Examples.exampleDependencies
           (Examples.generatedWorld "{}") _ H).
Defined.

(** X12: an update that throws has spoiled at most the manifest. It
    stopped before the write (a manifest that cannot be read or parsed)
    and left the world as it was; or the file could not be opened for
    writing and the disk is as it was; or the write failed after the
    file had been opened, hence emptied, and [package.json] now holds
    the first bytes of the new text, as many as were written. *)
Theorem X12_failed_update_spoils_at_most_the_manifest
    {rt : NodeRuntime PackageJson}
    (wf : WriteFate) (path : string) (d : DependencyGroups) (w : World)
    (e : JsError) :
  let run := Manifest.updatePackageJson wf path d w in
  run.1 = Throw e ->
  run.2 = w
  \/ (exists text,
        wf = OpenFails e
        /\ disk run.2 = disk w
        /\ trace run.2 = trace w ++ [WriteFileCalled (Snapshot.join path "package.json") text])
  \/ (exists text written,
        wf = WriteFails written e
        /\ disk run.2
           = mkDisk (tempDirExists (disk w))
               (option_map (Manifest.replaceEntry "package.json"
                              (take written (utf8Encode text)))
                           (projectDir (disk w)))
        /\ trace run.2 = trace w ++ [WriteFileCalled (Snapshot.join path "package.json") text]).
Proof.
  cbn zeta. intros Hthrow.
  destruct (updatePackageJson_outcomes wf path d w)
    as [[Hw | [Hok _]] | (text & [(_ & Hok & _) | [(e' & Hwf & He & Hw)
                                                | (n & e' & Hwf & He & Hw)]])].
  - left. exact Hw.
  - rewrite Hok in Hthrow. discriminate.
  - rewrite Hok in Hthrow. discriminate.
  - right. left. exists text. rewrite He in Hthrow. injection Hthrow as ->.
    rewrite Hw. auto.
  - right. right. exists text, n. rewrite He in Hthrow. injection Hthrow as ->.
    rewrite Hw. auto.
Qed.

Lemma X12_failed_update_spoils_at_most_the_manifest_witness :
  (Manifest.updatePackageJson (rt := Examples.exampleRuntime)
     (WriteFails 3 Scenarios.enospcWrite) "/tmp/w/project" Examples.exampleDependencies
     (Examples.generatedWorld "{}")).1 = Throw Scenarios.enospcWrite
  /\ exists text written,
       WriteFails 3 Scenarios.enospcWrite = WriteFails written Scenarios.enospcWrite
       /\ Manifest.manifestEntry
            (disk (Manifest.updatePackageJson (rt := Examples.exampleRuntime)
                     (WriteFails 3 Scenarios.enospcWrite) "/tmp/w/project"
                     Examples.exampleDependencies (Examples.generatedWorld "{}")).2)
          = Some (File "package.json"
                    (Some (take written
                             (utf8Encode (NodeRuntime := Examples.exampleRuntime) text)))).
Proof.
  assert (H : (Manifest.updatePackageJson (rt := Examples.exampleRuntime)
                 (WriteFails 3 Scenarios.enospcWrite) "/tmp/w/project"
                 Examples.exampleDependencies (Examples.generatedWorld "{}")).1
              = Throw Scenarios.enospcWrite) by (vm_compute; reflexivity).
  split; [exact H|].
  destruct (X12_failed_update_spoils_at_most_the_manifest
              (rt := Examples.exampleRuntime) _ _ _ _ _ H)
    as [Hw | [(text & Hwf & _) | (text & written & Hwf & Hdisk & _)]].
  - exfalso. apply (f_equal trace) in Hw. vm_compute in Hw. discriminate Hw.
  - discriminate Hwf.
  - exists text, written. split; [exact Hwf|]. rewrite Hdisk. reflexivity.
Defined.

(** The write of the example, stopped after three bytes. *)
Example updatePackageJson_partial_write :
  Manifest.manifestEntry
    (disk (Manifest.updatePackageJson (rt := Examples.exampleRuntime)
             (WriteFails 3 Scenarios.enospcWrite) "/tmp/w/project"
             Examples.exampleDependencies (Examples.generatedWorld "{}")).2)
  = Some (Examples.textFile "package.json" (String "{" (String Examples.quote "d"))).
Proof. vm_compute. reflexivity. Qed.

(** ** The orchestrator: what a run may touch, and how it ends *)


Section OrchestratorMore.
Context {rt : NodeRuntime PackageJson}.

Lemma appends_updatePackageJson_at (P : event -> Prop) (wf : WriteFate)
    (path : string) (d : DependencyGroups) :
  (forall n, P (ConsoleLog n)) -> (forall n, P (ConsoleWarn n)) ->
  (forall t, P (WriteFileCalled (Snapshot.join path Manifest.manifestName) t)) ->
  appends P (Manifest.updatePackageJson wf path d).
Proof.
  intros Hl Hw Hf. unfold Manifest.updatePackageJson.
  apply appends_bind; [apply appends_getDisk|]. intros dsk.
  destruct (Manifest.manifestEntry dsk) as [entry|]; [|apply appends_emit; apply Hw].
  apply appends_bind.
  { unfold Manifest.readTextFile. destruct entry as [n [b|] | n its | n];
      first [apply appends_ret | apply appends_throw]. }
  intros text. apply appends_bind; [apply appends_fromResult|]. intros pkg.
  apply appends_bind; [|intros _; apply appends_emit; apply Hl].
  apply appends_writeManifest. apply Hf.
Qed.

Lemma allowedEvent_of_console (env : Env) (evs : list event) :
  Forall isConsoleEvent evs -> Forall (allowedEvent env) evs.
Proof.
  intros H. eapply Forall_impl; [exact H|]. intros ev (n & [-> | ->]); exact I.
Qed.

Lemma appends_provision_allowed (env : Env) (dir : string) :
  mkdtempResult env = Ok dir ->
  appends (allowedEvent env)
    (Orchestrator.provision env (Snapshot.join dir Orchestrator.projectName)).
Proof.
  intros Hdir. unfold Orchestrator.provision.
  destruct (Orchestrator.isTestMode env) eqn:Hmode.
  - apply appends_emit. exact I.
  - apply appends_bind.
    + apply appends_runCommand; try (intros n; exact I).
      exists dir. split; [exact Hdir|]. right. auto.
    + intros _. apply appends_tryCatch.
      * apply appends_runCommand; try (intros n; exact I).
        exists dir. split; [exact Hdir|]. right. auto.
      * intros e. apply appends_emit. exact I.
Qed.

Lemma appends_scaffoldBody_allowed (env : Env) (moduleConfig : ModuleConfig)
    (dir t : string) :
  mkdtempResult env = Ok dir ->
  appends (allowedEvent env) (Orchestrator.scaffoldBody env moduleConfig dir t).
Proof.
  intros Hdir. unfold Orchestrator.scaffoldBody. apply appends_bind.
  { unfold Runner.runViteCreate. apply appends_runCommand; try (intros n; exact I).
    exists dir. split; [exact Hdir|]. left. eauto. }
  intros _. cbn zeta. apply appends_bind.
  { apply appends_updatePackageJson_at; try (intros n; exact I).
    intros text. exists dir. auto. }
  intros _. apply appends_bind; [apply appends_provision_allowed; exact Hdir|].
  intros _. apply appends_bind; [apply appends_getDisk|]. intros d.
  apply appends_bind.
  { apply appends_liftLog. apply allowedEvent_of_console.
    apply readDirectoryRecursive_log. }
  intros files. apply appends_bind; [|intros _; apply appends_ret].
  apply appends_emitAll. apply allowedEvent_of_console. apply removeFiles_log.
Qed.

(** Everything a run adds to the trace is allowed. *)
Lemma scaffold_events_allowed (env : Env) (moduleConfig : ModuleConfig)
    (context : ScaffoldContext) :
  appends (allowedEvent env) (Orchestrator.scaffold env moduleConfig context).
Proof.
  intros w. destruct (mkdtempResult env) as [dir|e] eqn:Hdir.
  - rewrite (scaffold_run env moduleConfig context w dir Hdir). cbn [snd trace].
    destruct (appends_scaffoldBody_allowed env moduleConfig dir
                (Orchestrator.template (Orchestrator.fieldValuesOf context)) Hdir
                (mkWorld (mkDisk true None) (trace w ++ [mkdtempEvent env])))
      as (evs & E & F).
    exists ([mkdtempEvent env] ++ evs ++ cleanupEvents env dir).
    rewrite E. cbn [trace]. rewrite <- !app_assoc. split; [reflexivity|].
    apply Forall_app. split; [repeat constructor|].
    apply Forall_app. split; [exact F|].
    unfold cleanupEvents. destruct (rmFailure env); repeat constructor; exact Hdir.
  - unfold Orchestrator.scaffold. cbn zeta.
    rewrite (bind_thrown _ _ _ _ _ (mkdtempSync_failed env e w Hdir)). cbn [snd trace].
    exists [mkdtempEvent env]. split; [reflexivity|]. repeat constructor.
Qed.

Lemma scaffold_throws_without_workspace (env : Env) (moduleConfig : ModuleConfig)
    (context : ScaffoldContext) (w : World) (e : JsError) :
  mkdtempResult env = Throw e ->
  Orchestrator.scaffold env moduleConfig context w
  = (Throw e, mkWorld (disk w) (trace w ++ [mkdtempEvent env])).
Proof.
  intros Hdir. unfold Orchestrator.scaffold. cbn zeta.
  apply bind_thrown. apply mkdtempSync_failed. exact Hdir.
Qed.

End OrchestratorMore.

(** X13: whatever happens, the only file a run of [scaffold] writes is
    [package.json] in the project directory below the temporary
    directory it created, and the only thing it removes is that
    temporary directory. *)
Theorem X13_scaffold_fs_effects_stay_in_the_workspace
    {rt : NodeRuntime PackageJson}
    (env : Env) (moduleConfig : ModuleConfig) (context : ScaffoldContext) (w : World) :
  exists evs,
    trace (Orchestrator.scaffold env moduleConfig context w).2 = trace w ++ evs
    /\ (forall path text,
          WriteFileCalled path text ∈ evs ->
          exists dir,
            mkdtempResult env = Ok dir
            /\ path = Snapshot.join (Snapshot.join dir "project") "package.json")
    /\ (forall path, RmCalled path ∈ evs -> mkdtempResult env = Ok path).
Proof.
  destruct (scaffold_events_allowed env moduleConfig context w) as (evs & E & F).
  exists evs. split; [exact E|]. rewrite Forall_forall in F. split.
  - intros path text Hin. exact (F _ Hin).
  - intros path Hin. exact (F _ Hin).
Qed.

(** X14: every child a run of [scaffold] starts is [npm] or [npx] (with
    [.cmd] on win32) and runs in the temporary directory or in the
    project directory below it. *)
Theorem X14_children_run_inside_the_workspace
    {rt : NodeRuntime PackageJson}
    (env : Env) (moduleConfig : ModuleConfig) (context : ScaffoldContext) (w : World) :
  exists evs,
    trace (Orchestrator.scaffold env moduleConfig context w).2 = trace w ++ evs
    /\ forall cmd args cwd,
         Spawned cmd args cwd ∈ evs ->
         exists dir,
           mkdtempResult env = Ok dir
           /\ (cwd = dir \/ cwd = Snapshot.join dir "project")
           /\ (cmd = Runner.spawnName env "npm" \/ cmd = Runner.spawnName env "npx").
Proof.
  destruct (scaffold_events_allowed env moduleConfig context w) as (evs & E & F).
  exists evs. split; [exact E|]. rewrite Forall_forall in F.
  intros cmd args cwd Hin.
  destruct (F _ Hin) as (dir & Hdir & [(-> & _ & ->) | (_ & -> & [[-> _] | [-> _]])]);
    exists dir; auto.
Qed.

(** X15: in test mode ([NODE_ENV] is [test], or [JEST_WORKER_ID] is
    set) the only child a run starts is the generator: neither the
    installer nor the initializer is ever started. *)
Theorem X15_test_mode_spawns_only_the_generator
    {rt : NodeRuntime PackageJson}
    (env : Env) (moduleConfig : ModuleConfig) (context : ScaffoldContext) (w : World) :
  Orchestrator.isTestMode env = true ->
  exists evs,
    trace (Orchestrator.scaffold env moduleConfig context w).2 = trace w ++ evs
    /\ forall cmd args cwd,
         Spawned cmd args cwd ∈ evs ->
         exists dir t,
           mkdtempResult env = Ok dir
           /\ cmd = Runner.spawnName env "npm"
           /\ args = ["create"; "vite@latest"; "project"; "--"; "--template"; t]
           /\ cwd = dir.
Proof.
  intros Hmode.
  destruct (scaffold_events_allowed env moduleConfig context w) as (evs & E & F).
  exists evs. split; [exact E|]. rewrite Forall_forall in F.
  intros cmd args cwd Hin.
  destruct (F _ Hin) as (dir & Hdir & [(-> & (t & ->) & ->) | (Hoff & _)]).
  - exists dir, t. auto.
  - rewrite Hmode in Hoff. discriminate.
Qed.

Lemma X15_test_mode_spawns_only_the_generator_witness :
  Orchestrator.isTestMode Scenarios.idleEnv = true
  /\ exists evs,
       trace (Orchestrator.scaffold (rt := Examples.exampleRuntime) Scenarios.idleEnv
                Examples.exampleConfig (Examples.exampleContext (JsBool true))
                Examples.emptyWorld).2
       = trace Examples.emptyWorld ++ evs
       /\ forall cmd args cwd,
            Spawned cmd args cwd ∈ evs ->
            exists dir t,
              mkdtempResult Scenarios.idleEnv = Ok dir
              /\ cmd = Runner.spawnName Scenarios.idleEnv "npm"
              /\ args = ["create"; "vite@latest"; "project"; "--"; "--template"; t]
              /\ cwd = dir.
Proof.
  assert (H : Orchestrator.isTestMode Scenarios.idleEnv = true)
    by (vm_compute; reflexivity).
  split; [exact H|].
  exact (X15_test_mode_spawns_only_the_generator (rt := Examples.exampleRuntime)
           Scenarios.idleEnv Examples.exampleConfig
           (Examples.exampleContext (JsBool true)) Examples.emptyWorld H).
Defined.

(** X16: when the temporary directory cannot be made, [scaffold] rejects
    with the error of [fs.mkdtempSync] and has done nothing else: no
    child started, nothing written, nothing removed, the disk as it
    was. *)
Theorem X16_nothing_happens_without_a_workspace
    {rt : NodeRuntime PackageJson}
    (env : Env) (moduleConfig : ModuleConfig) (context : ScaffoldContext) (w : World)
    (e : JsError) :
  mkdtempResult env = Throw e ->
  Orchestrator.scaffold env moduleConfig context w
  = (Throw e,
     mkWorld (disk w)
       (trace w ++ [MkdtempCalled (Snapshot.join (tmpdir env) "genesis3-vite-")])).
Proof. apply scaffold_throws_without_workspace. Qed.

Lemma X16_nothing_happens_without_a_workspace_witness :
  mkdtempResult Examples.fullDiskEnv = Throw Examples.enospc
  /\ Orchestrator.scaffold (rt := Examples.exampleRuntime) Examples.fullDiskEnv
       Examples.exampleConfig (Examples.exampleContext (JsBool false))
       (Examples.generatedWorld "{}")
     = (Throw Examples.enospc,
        mkWorld (disk (Examples.generatedWorld "{}"))
          (trace (Examples.generatedWorld "{}")
             ++ [MkdtempCalled (Snapshot.join (rt := Examples.exampleRuntime)
                                  (tmpdir Examples.fullDiskEnv) "genesis3-vite-")])).
Proof.
  assert (H : mkdtempResult Examples.fullDiskEnv = Throw Examples.enospc) by reflexivity.
  split; [exact H|].
  exact (X16_nothing_happens_without_a_workspace (rt := Examples.exampleRuntime)
           Examples.fullDiskEnv Examples.exampleConfig
           (Examples.exampleContext (JsBool false)) (Examples.generatedWorld "{}") _ H).
Defined.

(** X17: when the generator closes with a code other than 0, [scaffold]
    rejects with the error of the generator step; nothing is written, no
    other child is started, no snapshot is taken, and the temporary
    directory is cleaned up. *)
Theorem X17_generator_failure_aborts_the_run
    {rt : NodeRuntime PackageJson}
    (env : Env) (moduleConfig : ModuleConfig) (context : ScaffoldContext) (w : World)
    (dir : string) (output : list chunk) (code : option Z) (d1 : Disk) :
  mkdtempResult env = Ok dir ->
  child env (Runner.spawnName env "npm")
        (Runner.viteArgs Orchestrator.projectName
           (Orchestrator.template (Orchestrator.fieldValuesOf context)))
        dir (mkDisk true None)
    = (Closed output code, d1) ->
  code <> Some 0%Z ->
  (Orchestrator.scaffold env moduleConfig context w).1
  = Throw (mkError "Error"
             ("Creating Vite project failed with exit code " +:+ Runner.showCode code))
  /\ trace (Orchestrator.scaffold env moduleConfig context w).2
     = trace w
       ++ [mkdtempEvent env;
           Spawned (Runner.spawnName env "npm")
             (Runner.viteArgs Orchestrator.projectName
                (Orchestrator.template (Orchestrator.fieldValuesOf context))) dir;
           ConsoleError (CommandFailed "Creating Vite project" code
                           (Runner.stdoutOf output) (Runner.stderrOf output))]
       ++ cleanupEvents env dir.
Proof.
  intros Hdir Hchild Hcode.
  rewrite (scaffold_run env moduleConfig context w dir Hdir). cbn [fst snd trace].
  set (w1 := mkWorld (mkDisk true None) (trace w ++ [mkdtempEvent env])).
  assert (Hz : Runner.isZero code = false).
  { destruct (Runner.isZero code) eqn:Hz; [|reflexivity].
    apply isZero_spec in Hz. contradiction. }
  assert (Hbody :
    Orchestrator.scaffoldBody env moduleConfig dir
      (Orchestrator.template (Orchestrator.fieldValuesOf context)) w1
    = (Throw (mkError "Error" (Runner.exitMessage "Creating Vite project" code)),
       mkWorld d1 (trace w1 ++
         [Spawned (Runner.spawnName env "npm")
            (Runner.viteArgs Orchestrator.projectName
               (Orchestrator.template (Orchestrator.fieldValuesOf context))) dir;
          ConsoleError (CommandFailed "Creating Vite project" code
                          (Runner.stdoutOf output) (Runner.stderrOf output))]))).
  { unfold Orchestrator.scaffoldBody, Runner.runViteCreate. apply bind_thrown.
    rewrite (runCommand_closed env "npm" _ dir _ w1 output code d1 Hchild), Hz.
    reflexivity. }
  rewrite Hbody. cbn [fst snd trace]. subst w1. cbn [trace].
  split; [reflexivity|]. rewrite <- !app_assoc. reflexivity.
Qed.

Lemma X17_generator_failure_aborts_the_run_witness :
  (Orchestrator.scaffold (rt := Examples.exampleRuntime)
     (Examples.failingEnv "" "npm ERR! network" 1)
     Examples.exampleConfig (Examples.exampleContext (JsBool true))
     Examples.emptyWorld).1
  = Throw (mkError "Error"
             ("Creating Vite project failed with exit code "
                +:+ Runner.showCode (Some 1%Z))).
Proof.
  refine (proj1
    (X17_generator_failure_aborts_the_run (rt := Examples.exampleRuntime)
       (Examples.failingEnv "" "npm ERR! network" 1)
       Examples.exampleConfig (Examples.exampleContext (JsBool true))
       Examples.emptyWorld Examples.exampleDir
       [StdoutData ""; StderrData "npm ERR! network"] (Some 1%Z)
       (mkDisk true None) _ _ _)); [reflexivity | reflexivity | discriminate].
Defined.

Section ProvisionRuns.
Context {rt : NodeRuntime PackageJson}.

Lemma isZero_false (code : option Z) : code <> Some 0%Z -> Runner.isZero code = false.
Proof.
  intros Hc. destruct (Runner.isZero code) eqn:Hz; [|reflexivity].
  apply isZero_spec in Hz. contradiction.
Qed.

(** The installer ended well: what is left of [provision] is the guarded
    start of the initializer. *)
Lemma provision_after_install (env : Env) (path : string) (w : World)
    (output : list chunk) (d1 : Disk) :
  Orchestrator.isTestMode env = false ->
  child env (Runner.spawnName env "npm") ["install"] path (disk w)
    = (Closed output (Some 0%Z), d1) ->
  Orchestrator.provision env path w
  = tryCatch
      (Runner.runCommand env "npx" Orchestrator.shadcnArgs path "Initializing shadcn")
      (fun err => emit (ConsoleWarn (ShadcnInitFailed (err_message err))))
      (mkWorld d1 (trace w ++ [Spawned (Runner.spawnName env "npm") ["install"] path;
                               ConsoleLog (CommandCompleted "Installing dependencies")])).
Proof.
  intros Hmode Hchild. unfold Orchestrator.provision. rewrite Hmode.
  pose proof (runCommand_closed env "npm" ["install"] path "Installing dependencies"
                w output (Some 0%Z) d1 Hchild) as Hrun.
  cbn [Runner.isZero] in Hrun.
  rewrite (bind_returned _ _ _ _ _ Hrun). reflexivity.
Qed.

End ProvisionRuns.

(** X18: outside test mode a failing install is fatal: the provisioning
    step throws the error of the installer and the initializer is never
    started. *)
Theorem X18_install_failure_is_fatal
    (env : Env) (path : string) (w : World)
    (output : list chunk) (code : option Z) (d1 : Disk) :
  Orchestrator.isTestMode env = false ->
  child env (Runner.spawnName env "npm") ["install"] path (disk w)
    = (Closed output code, d1) ->
  code <> Some 0%Z ->
  Orchestrator.provision env path w
  = (Throw (mkError "Error"
              ("Installing dependencies failed with exit code "
                 +:+ Runner.showCode code)),
     mkWorld d1
       (trace w ++ [Spawned (Runner.spawnName env "npm") ["install"] path;
                    ConsoleError (CommandFailed "Installing dependencies" code
                                    (Runner.stdoutOf output) (Runner.stderrOf output))])).
Proof.
  intros Hmode Hchild Hcode. unfold Orchestrator.provision. rewrite Hmode.
  apply bind_thrown.
  rewrite (runCommand_closed env "npm" _ path _ w output code d1 Hchild).
  rewrite (isZero_false code Hcode). reflexivity.
Qed.

Lemma X18_install_failure_is_fatal_witness :
  Orchestrator.isTestMode (Examples.failingEnv "" "ERESOLVE" 1) = false
  /\ Orchestrator.provision (Examples.failingEnv "" "ERESOLVE" 1) "/tmp/p/project"
       Examples.emptyWorld
     = (Throw (mkError "Error"
                 ("Installing dependencies failed with exit code "
                    +:+ Runner.showCode (Some 1%Z))),
        mkWorld (mkDisk false None)
          (trace Examples.emptyWorld
             ++ [Spawned (Runner.spawnName (Examples.failingEnv "" "ERESOLVE" 1) "npm")
                   ["install"] "/tmp/p/project";
                 ConsoleError
                   (CommandFailed "Installing dependencies" (Some 1%Z)
                      (Runner.stdoutOf [StdoutData ""; StderrData "ERESOLVE"])
                      (Runner.stderrOf [StdoutData ""; StderrData "ERESOLVE"]))])).
Proof.
  assert (H : Orchestrator.isTestMode (Examples.failingEnv "" "ERESOLVE" 1) = false)
    by (vm_compute; reflexivity).
  split; [exact H|].
  refine (X18_install_failure_is_fatal (Examples.failingEnv "" "ERESOLVE" 1)
            "/tmp/p/project" Examples.emptyWorld
            [StdoutData ""; StderrData "ERESOLVE"] (Some 1%Z) (mkDisk false None)
            H _ _); [reflexivity | discriminate].
Defined.

(** X19: outside test mode, once the installer has ended well the
    provisioning step returns whatever the initializer does. If the
    initializer closes with a code other than 0, or cannot be started,
    the step still returns and the console gets a warning that carries
    the message of the error. *)
Theorem X19_initializer_failure_is_not_fatal
    (env : Env) (path : string) (w : World) (output : list chunk) (d1 : Disk) :
  Orchestrator.isTestMode env = false ->
  child env (Runner.spawnName env "npm") ["install"] path (disk w)
    = (Closed output (Some 0%Z), d1) ->
  (Orchestrator.provision env path w).1 = Ok tt
  /\ (forall out code d2,
        child env (Runner.spawnName env "npx") Orchestrator.shadcnArgs path d1
          = (Closed out code, d2) ->
        code <> Some 0%Z ->
        ConsoleWarn (ShadcnInitFailed
                       ("Initializing shadcn failed with exit code "
                          +:+ Runner.showCode code))
          ∈ trace (Orchestrator.provision env path w).2)
  /\ (forall message errno d2,
        child env (Runner.spawnName env "npx") Orchestrator.shadcnArgs path d1
          = (SpawnFailed message errno, d2) ->
        ConsoleWarn (ShadcnInitFailed ("Failed to run npx: " +:+ message))
          ∈ trace (Orchestrator.provision env path w).2).
Proof.
  intros Hmode Hchild.
  rewrite (provision_after_install env path w output d1 Hmode Hchild).
  set (w2 := mkWorld d1 _). unfold tryCatch.
  destruct (child env (Runner.spawnName env "npx") Orchestrator.shadcnArgs path d1)
    as [[out code | message errno] d2] eqn:Hnpx.
  - rewrite (runCommand_closed env "npx" _ path _ w2 out code d2 Hnpx).
    destruct (Runner.isZero code) eqn:Hz; cbn.
    + split; [reflexivity|]. split.
      * intros o c dd Heq Hc. injection Heq as _ <- _.
        apply isZero_spec in Hz. contradiction.
      * intros m n dd Heq. discriminate Heq.
    + split; [reflexivity|]. split.
      * intros o c dd Heq Hc. injection Heq as _ <- _.
        apply elem_of_app. right. apply list_elem_of_here.
      * intros m n dd Heq. discriminate Heq.
  - rewrite (runCommand_spawn_failed env "npx" _ path _ w2 message errno d2 Hnpx). cbn.
    split; [reflexivity|]. split.
    + intros o c dd Heq. discriminate Heq.
    + intros m n dd Heq. injection Heq as <- _ _.
      apply elem_of_app. right. apply list_elem_of_here.
Qed.

Lemma X19_initializer_failure_is_not_fatal_witness :
  Orchestrator.isTestMode
    (Scenarios.scriptedEnv "{}" (Closed [] (Some 0%Z)) (SpawnFailed "spawn /bin/sh ENOENT" (-2)))
  = false
  /\ (Orchestrator.provision
        (Scenarios.scriptedEnv "{}" (Closed [] (Some 0%Z)) (SpawnFailed "spawn /bin/sh ENOENT" (-2)))
        "/tmp/p/project" Examples.emptyWorld).1 = Ok tt
  /\ ConsoleWarn (ShadcnInitFailed ("Failed to run npx: " +:+ "spawn /bin/sh ENOENT"))
       ∈ trace (Orchestrator.provision
                  (Scenarios.scriptedEnv "{}" (Closed [] (Some 0%Z))
                     (SpawnFailed "spawn /bin/sh ENOENT" (-2)))
                  "/tmp/p/project" Examples.emptyWorld).2.
Proof.
  assert (H : Orchestrator.isTestMode
                (Scenarios.scriptedEnv "{}" (Closed [] (Some 0%Z))
                   (SpawnFailed "spawn /bin/sh ENOENT" (-2))) = false)
    by (vm_compute; reflexivity).
  split; [exact H|].
  destruct (X19_initializer_failure_is_not_fatal
              (Scenarios.scriptedEnv "{}" (Closed [] (Some 0%Z))
                 (SpawnFailed "spawn /bin/sh ENOENT" (-2)))
              "/tmp/p/project" Examples.emptyWorld [] (mkDisk false None) H eq_refl)
    as (Hok & _ & Hwarn).
  split; [exact Hok|].
  exact (Hwarn "spawn /bin/sh ENOENT" (-2)%Z (mkDisk false None) eq_refl).
Defined.

Section ResultOfRun.
Context {rt : NodeRuntime PackageJson}.



End ResultOfRun.



(** X21: a generator that ends well without creating the project
    directory is not an error. In test mode the run warns that
    [package.json] is missing, writes nothing, and returns the empty
    map. *)
Theorem X21_missing_project_gives_the_empty_map
    {rt : NodeRuntime PackageJson}
    (env : Env) (moduleConfig : ModuleConfig) (context : ScaffoldContext) (w : World)
    (dir : string) (output : list chunk) (d1 : Disk) :
  mkdtempResult env = Ok dir ->
  child env (Runner.spawnName env "npm")
        (Runner.viteArgs Orchestrator.projectName
           (Orchestrator.template (Orchestrator.fieldValuesOf context)))
        dir (mkDisk true None)
    = (Closed output (Some 0%Z), d1) ->
  projectDir d1 = None ->
  Orchestrator.isTestMode env = true ->
  (Orchestrator.scaffold env moduleConfig context w).1 = Ok emptyObject
  /\ trace (Orchestrator.scaffold env moduleConfig context w).2
     = trace w
       ++ [mkdtempEvent env;
           Spawned (Runner.spawnName env "npm")
             (Runner.viteArgs Orchestrator.projectName
                (Orchestrator.template (Orchestrator.fieldValuesOf context))) dir;
           ConsoleLog (CommandCompleted "Creating Vite project");
           ConsoleWarn PackageJsonNotFound;
           ConsoleLog SkippingInstall]
       ++ (Remover.removeFiles emptyObject
             (Some (Orchestrator.filesToRemove moduleConfig))).2
       ++ cleanupEvents env dir.
Proof.
  intros Hdir Hchild Hproj Hmode.
  rewrite (scaffold_run env moduleConfig context w dir Hdir). cbn [fst snd trace].
  set (w1 := mkWorld (mkDisk true None) (trace w ++ [mkdtempEvent env])).
  set (t := Orchestrator.template (Orchestrator.fieldValuesOf context)) in *.
  set (ps := Orchestrator.filesToRemove moduleConfig).
  assert (Hbody :
    Orchestrator.scaffoldBody env moduleConfig dir t w1
    = (Ok (Remover.removeFiles emptyObject (Some ps)).1,
       mkWorld d1
         (trace w1
            ++ [Spawned (Runner.spawnName env "npm")
                  (Runner.viteArgs Orchestrator.projectName t) dir;
                ConsoleLog (CommandCompleted "Creating Vite project");
                ConsoleWarn PackageJsonNotFound;
                ConsoleLog SkippingInstall]
            ++ (Remover.removeFiles emptyObject (Some ps)).2))).
  { unfold Orchestrator.scaffoldBody, Runner.runViteCreate.
    pose proof (runCommand_closed env "npm" _ dir "Creating Vite project" w1
                  output (Some 0%Z) d1 Hchild) as Hgen.
    cbn [Runner.isZero] in Hgen. rewrite (bind_returned _ _ _ _ _ Hgen). cbn zeta.
    erewrite bind_returned;
      [|apply updatePackageJson_missing; unfold Manifest.manifestEntry; cbn;
        rewrite Hproj; reflexivity].
    unfold Orchestrator.provision. rewrite Hmode.
    unfold mbind, M_bind, bind, emit, getDisk, liftLog, emitAll, ret. cbn.
    rewrite Hproj. cbn. fold ps. rewrite <- !app_assoc. reflexivity. }
  rewrite Hbody. cbn [fst snd trace]. subst w1. cbn [trace]. split.
  - f_equal. apply FileMap_eq; [|apply removeFiles_proto].
    apply map_eq. intros k. rewrite removeFiles_lookup. cbn [own emptyObject].
    rewrite lookup_empty. destruct (decide (k ∈ ps)); reflexivity.
  - rewrite <- !app_assoc. reflexivity.
Qed.

Lemma X21_missing_project_gives_the_empty_map_witness :
  (Orchestrator.scaffold (rt := Examples.exampleRuntime) Scenarios.idleEnv
     Examples.exampleConfig (Examples.exampleContext (JsBool true))
     Examples.emptyWorld).1 = Ok emptyObject.
Proof.
  refine (proj1
    (X21_missing_project_gives_the_empty_map (rt := Examples.exampleRuntime)
       Scenarios.idleEnv Examples.exampleConfig (Examples.exampleContext (JsBool true))
       Examples.emptyWorld Examples.exampleDir [] (mkDisk true None) _ _ _ _));
    first [reflexivity | vm_compute; reflexivity].
Defined.

(** ** The manifest in the result *)

Section ManifestInResult.
Context {rt : NodeRuntime PackageJson}.

(** A name that, at the root, only readable files with the bytes [b]
    carry, and that is the relative path of no file below a directory,
    is in the snapshot the reading of [b]. *)
Lemma root_file_key (items : list Dirent) (files : FileMap)
    (log : list event) (n : string) (b : list Byte.byte) :
  Snapshot.readItems EmptyString items emptyObject [] = (Ok files, log) ->
  n <> "__proto__" ->
  (forall d sub rel name bytes,
      In (Dir d sub) items ->
      Snapshot.FileAt (Snapshot.relativePath EmptyString d) sub rel name bytes ->
      rel <> n) ->
  (forall x, In x items -> direntName x = n -> x = File n (Some b)) ->
  (exists x, In x items /\ direntName x = n) ->
  own files !! n = Some (Snapshot.readEntry n b).
Proof.
  intros Hrun Hproto Hbelow Honly (x & Hx & Hname).
  pose proof (Honly x Hx Hname) as ->.
  assert (Hat : Snapshot.FileAt EmptyString items n n b)
    by (apply (Snapshot.FileAt_here EmptyString n b items); exact Hx).
  assert (Hkeep : Forall itemKeeps items).
  { apply Forall_forall. intros d _. apply readItem_keeps. }
  destruct (readItems_keeps items Hkeep _ _ _ _ _ Hrun) as [_ Hall].
  destruct (Hall n n b Hat Hproto) as [e He]. rewrite He. f_equal.
  assert (Hsound : Forall itemSound items).
  { apply Forall_forall. intros d _. apply readItem_sound. }
  destruct (readItems_sound items Hsound _ _ _ _ _ Hrun n e He)
    as [Hempty | (name' & bytes' & Hat' & ->)].
  { cbn in Hempty. rewrite lookup_empty in Hempty. discriminate. }
  inversion Hat' as [bp n' bs its Hin | bp dn sub its r n' bs Hin Hsub]; subst.
  - pose proof (Honly _ Hin eq_refl) as Heq. cbn in Heq.
    injection Heq as ->. reflexivity.
  - exfalso. exact (Hbelow dn sub n name' bytes' Hin Hsub eq_refl).
Qed.

Lemma replaceEntry_only (name : string) (b : list Byte.byte) (items : list Dirent)
    (x : Dirent) :
  In x (Manifest.replaceEntry name b items) -> direntName x = name ->
  x = File name (Some b).
Proof.
  unfold Manifest.replaceEntry. intros Hin Hname.
  apply in_map_iff in Hin as (y & Hy & _).
  destruct (String.eqb_spec (direntName y) name) as [_|Hne]; [congruence|].
  subst x. contradiction.
Qed.

Lemma replaceEntry_dirs (name : string) (b : list Byte.byte) (items : list Dirent)
    (d : string) (sub : list Dirent) :
  In (Dir d sub) (Manifest.replaceEntry name b items) -> In (Dir d sub) items.
Proof.
  unfold Manifest.replaceEntry. intros Hin.
  apply in_map_iff in Hin as (y & Hy & Hin).
  destruct (String.eqb (direntName y) name); [discriminate Hy | subst y; exact Hin].
Qed.

Lemma replaceEntry_listable (name : string) (b : list Byte.byte) (items : list Dirent) :
  forallb listable items = true ->
  forallb listable (Manifest.replaceEntry name b items) = true.
Proof.
  unfold Manifest.replaceEntry. induction items as [|x items IH]; cbn; [auto|].
  intros H. apply andb_true_iff in H as [Hx Hrest].
  destruct (String.eqb (direntName x) name); cbn; rewrite ?Hx; auto.
Qed.

Lemma replaceEntry_present (name : string) (b : list Byte.byte) (items : list Dirent)
    (d : Dirent) :
  Manifest.findEntry name items = Some d ->
  exists x, In x (Manifest.replaceEntry name b items) /\ direntName x = name.
Proof.
  intros H. exists (File name (Some b)). split; [|reflexivity].
  pose proof (findEntry_replaceEntry name b items d H) as Hf.
  unfold Manifest.findEntry in Hf. apply find_some in Hf as [Hin _]. exact Hin.
Qed.

End ManifestInResult.

(** X22: in test mode, when the generator left a project directory that
    can be listed, whose [package.json] parses, and the write succeeds,
    the run returns, and unless [package.json] is on the removal list
    the returned map holds, under that key, the text that was written:
    the serialisation of the merged manifest. The key is the one of the
    manifest at the root: no file below a directory has [package.json]
    for its relative path. *)
Theorem X22_result_holds_the_merged_manifest
    {rt : NodeRuntime PackageJson}
    (env : Env) (moduleConfig : ModuleConfig) (context : ScaffoldContext) (w : World)
    (dir : string) (output : list chunk) (d1 : Disk) (items : list Dirent)
    (name : string) (bytes : list Byte.byte) (pkg : PackageJson) :
  mkdtempResult env = Ok dir ->
  child env (Runner.spawnName env "npm")
        (Runner.viteArgs Orchestrator.projectName
           (Orchestrator.template (Orchestrator.fieldValuesOf context)))
        dir (mkDisk true None)
    = (Closed output (Some 0%Z), d1) ->
  projectDir d1 = Some items ->
  Manifest.findEntry "package.json" items = Some (File name (Some bytes)) ->
  JSON_parse (utf8Decode bytes) = Ok pkg ->
  writeFate env = WriteCompletes ->
  Orchestrator.isTestMode env = true ->
  forallb listable items = true ->
  (forall d sub rel name bytes,
      In (Dir d sub) items ->
      Snapshot.FileAt (Snapshot.relativePath EmptyString d) sub rel name bytes ->
      rel <> "package.json") ->
  "package.json" ∉ Orchestrator.filesToRemove moduleConfig ->
  exists files,
    (Orchestrator.scaffold env moduleConfig context w).1 = Ok files
    /\ own files !! "package.json"
       = Some (mkEntry Text
                 (utf8Decode
                    (utf8Encode
                       (JSON_stringify
                          (Manifest.mergeDependencies pkg
                             (Orchestrator.dependenciesOf moduleConfig)))))).
Proof.
  intros Hdir Hchild Hproj Hfind Hparse Hwf Hmode Hlist Hdirs Hkeep.
  rewrite (scaffold_run env moduleConfig context w dir Hdir). cbn [fst].
  set (w1 := mkWorld (mkDisk true None) (trace w ++ [mkdtempEvent env])).
  set (t := Orchestrator.template (Orchestrator.fieldValuesOf context)) in *.
  set (text := JSON_stringify
                 (Manifest.mergeDependencies pkg (Orchestrator.dependenciesOf moduleConfig))).
  set (items' := Manifest.replaceEntry Manifest.manifestName (utf8Encode text) items).
  destruct (Snapshot.readItems EmptyString items' emptyObject [])
    as [[snap|err] log] eqn:Hsnap.
  2:{ exfalso.
      pose proof (readItems_ok_step items') as Hok.
      specialize (Hok ltac:(apply Forall_forall; intros d _ b f l; apply readItem_ok)
                      EmptyString emptyObject []).
      rewrite Hsnap in Hok. cbn [fst is_ok] in Hok. unfold items' in Hok.
      rewrite (replaceEntry_listable _ _ _ Hlist) in Hok. discriminate. }
  exists (Remover.removeFiles snap (Some (Orchestrator.filesToRemove moduleConfig))).1.
  split.
  - unfold Orchestrator.scaffoldBody, Runner.runViteCreate.
    pose proof (runCommand_closed env "npm" _ dir "Creating Vite project" w1
                  output (Some 0%Z) d1 Hchild) as Hgen.
    cbn [Runner.isZero] in Hgen. rewrite (bind_returned _ _ _ _ _ Hgen). cbn zeta.
    rewrite Hwf.
    erewrite bind_returned;
      [|apply (updatePackageJson_written _ _ _ name bytes pkg);
        [unfold Manifest.manifestEntry; cbn; rewrite Hproj; exact Hfind | exact Hparse]].
    unfold Orchestrator.provision. rewrite Hmode.
    unfold mbind, M_bind, bind, emit, getDisk, liftLog, emitAll, ret. cbn.
    rewrite Hproj. cbn. fold text. fold items'. rewrite Hsnap. reflexivity.
  - rewrite removeFiles_lookup, decide_False by exact Hkeep.
    rewrite (root_file_key items' snap log "package.json" (utf8Encode text) Hsnap).
    + reflexivity.
    + discriminate.
    + intros d sub rel n bs Hin. apply (Hdirs d sub rel n bs).
      eapply replaceEntry_dirs. exact Hin.
    + intros x Hin Hname. eapply replaceEntry_only; eassumption.
    + eapply replaceEntry_present. exact Hfind.
Qed.

Lemma X22_result_holds_the_merged_manifest_witness :
  Orchestrator.isTestMode (Examples.exampleEnv "{}") = true
  /\ forallb listable (Examples.generated "{}") = true
  /\ ("package.json" ∉ Orchestrator.filesToRemove Examples.exampleConfig)
  /\ exists files,
       (Orchestrator.scaffold (rt := Examples.exampleRuntime) (Examples.exampleEnv "{}")
          Examples.exampleConfig (Examples.exampleContext (JsBool true))
          Examples.emptyWorld).1 = Ok files
       /\ own files !! "package.json"
          = Some (mkEntry Text
                    (utf8Decode (NodeRuntime := Examples.exampleRuntime)
                       (utf8Encode (NodeRuntime := Examples.exampleRuntime)
                          (JSON_stringify (NodeRuntime := Examples.exampleRuntime)
                             (Manifest.mergeDependencies Examples.emptyPackage
                                (Orchestrator.dependenciesOf Examples.exampleConfig)))))).
Proof.
  assert (Hmode : Orchestrator.isTestMode (Examples.exampleEnv "{}") = true)
    by (vm_compute; reflexivity).
  assert (Hlist : forallb listable (Examples.generated "{}") = true) by reflexivity.
  assert (Hkeep : "package.json" ∉ Orchestrator.filesToRemove Examples.exampleConfig).
  { cbn. rewrite !elem_of_cons, elem_of_nil. intros [H|[H|[]]]; discriminate H. }
  assert (Hdirs : forall d sub rel name bytes,
            In (Dir d sub) (Examples.generated "{}") ->
            Snapshot.FileAt (rt := Examples.exampleRuntime)
              (Snapshot.relativePath (rt := Examples.exampleRuntime) EmptyString d)
              sub rel name bytes ->
            rel <> "package.json").
  { intros d sub rel name bytes [H|[H|[H|[H|[]]]]] Hat; try discriminate H;
      injection H as <- <-;
      inversion Hat as [b n bs its Hf | b dn sub' its r n bs Hd _]; subst.
    - destruct Hf as [Hf|[]]. injection Hf as <- _.
      vm_compute. intros Heq. discriminate Heq.
    - destruct Hd as [Hd|[]]. discriminate Hd.
    - destruct Hf as [Hf|[Hf|[]]]; injection Hf as <- _;
        vm_compute; intros Heq; discriminate Heq.
    - destruct Hd as [Hd|[Hd|[]]]; discriminate Hd. }
  split; [exact Hmode|]. split; [exact Hlist|]. split; [exact Hkeep|].
  exact (X22_result_holds_the_merged_manifest (rt := Examples.exampleRuntime)
           (Examples.exampleEnv "{}") Examples.exampleConfig
           (Examples.exampleContext (JsBool true)) Examples.emptyWorld
           Examples.exampleDir [StdoutData "Scaffolding project"]
           (mkDisk true (Some (Examples.generated "{}"))) (Examples.generated "{}")
           "package.json" (list_byte_of_string "{}") Examples.emptyPackage
           eq_refl eq_refl eq_refl eq_refl eq_refl eq_refl Hmode Hlist Hdirs Hkeep).
Defined.

(** ** What the snapshot prints *)

Section SnapshotQuiet.
Context {Json : Type} {rt : NodeRuntime Json}.

Lemma UnreadableAt_incl (basePath rel : string) (items items' : list Dirent) :
  (forall d, In d items -> In d items') ->
  UnreadableAt basePath items rel -> UnreadableAt basePath items' rel.
Proof.
  intros Hincl H. destruct H as [b n its Hin | b dn sub its r Hin Hsub].
  - apply UnreadableAt_here. auto.
  - eapply UnreadableAt_below; eauto.
Qed.

Lemma readItems_quiet (items : list Dirent) :
  Forall itemQuiet items ->
  forall basePath files log,
    exists evs,
      (Snapshot.readItems basePath items files log).2 = log ++ evs
      /\ forall ev, ev ∈ evs ->
           exists rel, ev = ConsoleWarn (CouldNotReadFile rel)
                       /\ UnreadableAt basePath items rel.
Proof.
  induction 1 as [|d items Hd _ IH]; intros basePath files log.
  - exists []. cbn. rewrite app_nil_r. split; [reflexivity|].
    intros ev Hev. apply elem_of_nil in Hev. destruct Hev.
  - cbn [Snapshot.readItems]. destruct (Hd basePath files log) as (evs1 & E1 & F1).
    assert (F1' : forall ev, ev ∈ evs1 ->
              exists rel, ev = ConsoleWarn (CouldNotReadFile rel)
                          /\ UnreadableAt basePath (d :: items) rel).
    { intros ev Hev. destruct (F1 ev Hev) as (rel & -> & Hat). exists rel.
      split; [reflexivity|]. eapply UnreadableAt_incl; [|exact Hat].
      intros x [<-|[]]. left. reflexivity. }
    destruct (Snapshot.readItem basePath d files log) as [[mid|err] logm]; cbn in E1.
    + destruct (IH basePath mid logm) as (evs2 & E2 & F2). exists (evs1 ++ evs2).
      rewrite E2, E1, app_assoc. split; [reflexivity|].
      intros ev Hev. apply elem_of_app in Hev as [Hev|Hev]; [auto|].
      destruct (F2 ev Hev) as (rel & -> & Hat). exists rel.
      split; [reflexivity|]. eapply UnreadableAt_incl; [|exact Hat].
      intros x Hx. right. exact Hx.
    + exists evs1. cbn. auto.
Qed.

Lemma readItem_quiet (item : Dirent) : itemQuiet item.
Proof.
  induction item as [name data | name items IH | name] using Dirent_tree_ind;
    intros basePath files log.
  - cbn. destruct data as [bytes|]; cbn.
    + exists []. rewrite app_nil_r. split; [reflexivity|].
      intros ev Hev. apply elem_of_nil in Hev. destruct Hev.
    + eexists. split; [reflexivity|]. intros ev Hev.
      apply list_elem_of_singleton in Hev as ->. eexists. split; [reflexivity|].
      apply UnreadableAt_here. left. reflexivity.
  - rewrite readItem_Dir.
    destruct (readItems_quiet items IH (Snapshot.relativePath basePath name)
                emptyObject log)
      as (evs & E & F).
    assert (F' : forall ev, ev ∈ evs ->
              exists rel, ev = ConsoleWarn (CouldNotReadFile rel)
                          /\ UnreadableAt basePath [Dir name items] rel).
    { intros ev Hev. destruct (F ev Hev) as (rel & -> & Hat). exists rel.
      split; [reflexivity|]. eapply UnreadableAt_below; [left; reflexivity | exact Hat]. }
    destruct (Snapshot.readItems (Snapshot.relativePath basePath name) items
                emptyObject log)
      as [[sub|err] logs]; cbn in E |- *; eauto.
  - exists []. cbn. rewrite app_nil_r. split; [reflexivity|].
    intros ev Hev. apply elem_of_nil in Hev. destruct Hev.
Qed.

End SnapshotQuiet.

(** X23: whether it succeeds or not, all the snapshot prints is
    could-not-read warnings, each for a file of the tree that cannot be
    read, named by its relative path. *)
Theorem X23_snapshot_prints_only_unreadable_warnings
    {Json : Type} {rt : NodeRuntime Json}
    (items : list Dirent) (ev : event) :
  ev ∈ (Snapshot.readDirectoryRecursive (Some items) EmptyString).2 ->
  exists rel, ev = ConsoleWarn (CouldNotReadFile rel)
              /\ UnreadableAt EmptyString items rel.
Proof.
  cbn [Snapshot.readDirectoryRecursive]. intros Hev.
  destruct (readItems_quiet items) with (basePath := EmptyString)
    (files := emptyObject) (log := @nil event) as (evs & E & F).
  - apply Forall_forall. intros d _. apply readItem_quiet.
  - rewrite E in Hev. exact (F ev Hev).
Qed.

Lemma X23_snapshot_prints_only_unreadable_warnings_witness :
  ConsoleWarn (CouldNotReadFile "secret.key")
    ∈ (Snapshot.readDirectoryRecursive (rt := Examples.exampleRuntime)
         (Some Scenarios.guardedTree) EmptyString).2
  /\ exists rel, ConsoleWarn (CouldNotReadFile "secret.key")
                 = ConsoleWarn (CouldNotReadFile rel)
                 /\ UnreadableAt (rt := Examples.exampleRuntime) EmptyString
                      Scenarios.guardedTree rel.
Proof.
  assert (H : ConsoleWarn (CouldNotReadFile "secret.key")
                ∈ (Snapshot.readDirectoryRecursive (rt := Examples.exampleRuntime)
                     (Some Scenarios.guardedTree) EmptyString).2).
  { assert (Hlog : (Snapshot.readDirectoryRecursive (rt := Examples.exampleRuntime)
                      (Some Scenarios.guardedTree) EmptyString).2 = Scenarios.guardedLog)
      by (vm_compute; reflexivity).
    rewrite Hlog. apply list_elem_of_here. }
  split; [exact H|].
  exact (X23_snapshot_prints_only_unreadable_warnings (rt := Examples.exampleRuntime)
           Scenarios.guardedTree _ H).
Defined.
